(** * create_agents_from_yaml: configuration-to-execution pipeline

    A shallow embedding of [swarms/agents/create_agents_from_yaml.mjs]
    (its classes [AgentConfig] and [SwarmConfig], and the functions
    [loadYamlSafely], [createAgentWithRetry] and [createAgentsFromYaml]),
    followed by the properties of the pipeline.

    Conventions of the embedding.
    - JavaScript values are the inductive [value]; numbers are integers
      (no NaN, no fractions), strings are sequences of code units below 256.
    - A computation that may throw returns a [result]; a computation that
      also touches the outside world (the model backend, the agent runtime,
      the router, the file system) is a state-and-exception monad [M] over
      the world and the list of calls made so far.
    - Calls to the logger are left out, except for the property reads made
      while building their messages, which may throw.

    The later parts embed the callers of the pipeline on the command line
    ([generateSwarmConfig], [runAutoswarm], [checkLogin]), [saveData] of the
    onboarding process and the version history of [Artifact], each with its
    own properties at the end of the file. *)

From Stdlib Require Import ZArith List String Ascii Bool Lia DecimalString.
Import ListNotations.

Set Warnings "-register-all,-notation-for-abbreviation".

Local Open Scope string_scope.
Local Open Scope Z_scope.

(** ** JavaScript values *)

Inductive value : Type :=
| VUndefined
| VNull
| VBool (b : bool)
| VNum (n : Z)
| VStr (s : string)
| VArr (items : list value)
| VObj (fields : list (string * value)).

(** ** Exceptions *)

Inductive error : Type :=
| Error (message : string)
| TypeError (message : string)
| ConnectionError (message : string)
| TimeoutError (message : string)
| OtherError (name message : string)
| AgentConstructionError (agent_name : value) (cause : error).

Fixpoint message (e : error) : string :=
  match e with
  | Error m | TypeError m | ConnectionError m | TimeoutError m => m
  | OtherError _ m => m
  | AgentConstructionError _ c => message c
  end.

Inductive result (A : Type) : Type :=
| Ok (a : A)
| Throw (e : error).
Arguments Ok {A} a.
Arguments Throw {A} e.

Definition is_ok {A} (r : result A) : bool :=
  match r with Ok _ => true | Throw _ => false end.

(** ** Operators of the language *)

(** ToBoolean. *)
Definition truthy (v : value) : bool :=
  match v with
  | VUndefined | VNull => false
  | VBool b => b
  | VNum n => negb (n =? 0)
  | VStr s => negb (String.eqb s "")
  | VArr _ | VObj _ => true
  end.

(** [a || b]. *)
Definition js_or (a b : value) : value := if truthy a then a else b.

(** [typeof v === "string"]. *)
Definition is_string (v : value) : bool :=
  match v with VStr _ => true | _ => false end.

Fixpoint assoc (k : string) (fields : list (string * value)) : option value :=
  match fields with
  | [] => None
  | (k', v) :: rest => if String.eqb k k' then Some v else assoc k rest
  end.

Definition quote (k : string) : string := "'" ++ k ++ "'".

(** [o.k] for the keys the pipeline reads: a [TypeError] on [undefined] and
    [null], the field of a mapping, [undefined] everywhere else (none of the
    keys read is a property of a string, number, boolean or array). *)
Definition get_prop (o : value) (k : string) : result value :=
  match o with
  | VUndefined =>
      Throw (TypeError ("Cannot read properties of undefined (reading " ++ quote k ++ ")"))
  | VNull =>
      Throw (TypeError ("Cannot read properties of null (reading " ++ quote k ++ ")"))
  | VObj fields => Ok (match assoc k fields with Some v => v | None => VUndefined end)
  | _ => Ok VUndefined
  end.

(** [Array.from(set).join(", ")]. *)
Fixpoint join (sep : string) (l : list string) : string :=
  match l with
  | [] => ""
  | [x] => x
  | x :: rest => x ++ sep ++ join sep rest
  end.

(** [set.has(v)] for a set of strings: only a string can be a member. *)
Definition set_has (set : list string) (v : value) : bool :=
  match v with
  | VStr s => existsb (String.eqb s) set
  | _ => false
  end.

(** [v === "s"] against a string literal. *)
Definition strict_eq (v : value) (s : string) : bool :=
  match v with
  | VStr s' => String.eqb s' s
  | _ => false
  end.

(** *** String.prototype.trim *)

(** White space and line terminators among the code units below 256:
    TAB, LF, VT, FF, CR, SPACE and NBSP. *)
Definition is_white_space (c : ascii) : bool :=
  let n := N_of_ascii c in
  ((9 <=? n) && (n <=? 13) || (n =? 32) || (n =? 160))%N.

Fixpoint trimStart (s : string) : string :=
  match s with
  | EmptyString => EmptyString
  | String c rest => if is_white_space c then trimStart rest else s
  end.

Fixpoint rev_string (acc s : string) : string :=
  match s with
  | EmptyString => acc
  | String c rest => rev_string (String c acc) rest
  end.

Definition trimEnd (s : string) : string :=
  rev_string "" (trimStart (rev_string "" s)).

Definition trim (s : string) : string := trimEnd (trimStart s).

Fixpoint all_white_space (s : string) : bool :=
  match s with
  | EmptyString => true
  | String c rest => is_white_space c && all_white_space rest
  end.

(** ** AgentConfig *)

Record AgentConfig : Type := mkAgentConfig {
  agentName : value;
  systemPrompt : value;
  modelName : value;
  maxLoops : value;
  autosave : value;
  dashboard : value;
  verbose : value;
  dynamicTemperatureEnabled : value;
  savedStatePath : value;
  userName : value;
  retryAttempts : value;
  contextLength : value;
  returnStepMeta : value;
  outputType : value;
  autoGeneratePrompt : value;
  artifactsOn : value;
  artifactsFileExtension : value;
  artifactsOutputPath : value
}.

Definition bind_result {A B} (r : result A) (f : A -> result B) : result B :=
  match r with
  | Ok a => f a
  | Throw e => Throw e
  end.

Module ResultNotations.
Notation "'let?' x ':=' r 'in' k" := (bind_result r (fun x => k))
  (at level 10, x name, r at level 100, k at level 200).
End ResultNotations.
Import ResultNotations.

Definition system_prompt_error : error :=
  Error "System prompt must be a non-empty string".

(** The test of the constructor's [if]:
    [!p || typeof p !== "string" || p.trim().length === 0]. *)
Definition system_prompt_rejected (p : value) : bool :=
  negb (truthy p)
  || negb (is_string p)
  || match p with
     | VStr s => (Z.of_nat (String.length (trim s)) =? 0)
     | _ => false
     end.

(** [new AgentConfig(config)]. *)
Definition new_AgentConfig (config : value) : result AgentConfig :=
  let? agent_name := get_prop config "agent_name" in
  let? system_prompt := get_prop config "system_prompt" in
  let? model_name := get_prop config "model_name" in
  let? max_loops := get_prop config "max_loops" in
  let? autosave := get_prop config "autosave" in
  let? dashboard := get_prop config "dashboard" in
  let? verbose := get_prop config "verbose" in
  let? dynamic_temperature_enabled := get_prop config "dynamic_temperature_enabled" in
  let? saved_state_path := get_prop config "saved_state_path" in
  let? user_name := get_prop config "user_name" in
  let? retry_attempts := get_prop config "retry_attempts" in
  let? context_length := get_prop config "context_length" in
  let? return_step_meta := get_prop config "return_step_meta" in
  let? output_type := get_prop config "output_type" in
  let? auto_generate_prompt := get_prop config "auto_generate_prompt" in
  let? artifacts_on := get_prop config "artifacts_on" in
  let? artifacts_file_extension := get_prop config "artifacts_file_extension" in
  let? artifacts_output_path := get_prop config "artifacts_output_path" in
  let this := {|
    agentName := agent_name;
    systemPrompt := system_prompt;
    modelName := js_or model_name VNull;
    maxLoops := js_or max_loops (VNum 1);
    autosave := js_or autosave (VBool true);
    dashboard := js_or dashboard (VBool false);
    verbose := js_or verbose (VBool false);
    dynamicTemperatureEnabled := js_or dynamic_temperature_enabled (VBool false);
    savedStatePath := js_or saved_state_path VNull;
    userName := js_or user_name (VStr "default_user");
    retryAttempts := js_or retry_attempts (VNum 3);
    contextLength := js_or context_length (VNum 100000);
    returnStepMeta := js_or return_step_meta (VBool false);
    outputType := js_or output_type (VStr "str");
    autoGeneratePrompt := js_or auto_generate_prompt (VBool false);
    artifactsOn := js_or artifacts_on (VBool false);
    artifactsFileExtension := js_or artifacts_file_extension (VStr ".md");
    artifactsOutputPath := js_or artifacts_output_path (VStr "")
  |} in
  if system_prompt_rejected (systemPrompt this)
  then Throw system_prompt_error
  else Ok this.

(** ** SwarmConfig *)

Record SwarmConfig : Type := mkSwarmConfig {
  sc_name : value;
  sc_description : value;
  sc_maxLoops : value;
  sc_swarmType : value;
  sc_task : value;
  sc_flow : value;
  sc_autosave : value;
  sc_returnJson : value;
  sc_rules : value
}.

Definition validTypes : list string :=
  [ "SequentialWorkflow"; "ConcurrentWorkflow"; "AgentRearrange";
    "MixtureOfAgents"; "auto" ].

Definition swarm_type_error : error :=
  Error ("Swarm type must be one of: " ++ join ", " validTypes).

(** [new SwarmConfig(config)]. *)
Definition new_SwarmConfig (config : value) : result SwarmConfig :=
  let? name := get_prop config "name" in
  let? description := get_prop config "description" in
  let? max_loops := get_prop config "max_loops" in
  let? swarm_type := get_prop config "swarm_type" in
  let? task := get_prop config "task" in
  let? flow := get_prop config "flow" in
  let? autosave := get_prop config "autosave" in
  let? return_json := get_prop config "return_json" in
  let? rules := get_prop config "rules" in
  let this := {|
    sc_name := name;
    sc_description := description;
    sc_maxLoops := js_or max_loops (VNum 1);
    sc_swarmType := swarm_type;
    sc_task := js_or task VNull;
    sc_flow := js_or flow VNull;
    sc_autosave := js_or autosave (VBool true);
    sc_returnJson := js_or return_json (VBool false);
    sc_rules := js_or rules (VStr "")
  |} in
  if negb (set_has validTypes (sc_swarmType this))
  then Throw swarm_type_error
  else Ok this.

(** ** The outside world *)

(** Calls that leave the module, in the order they are made.  [EvAttempt n]
    marks the [n]-th invocation of the function wrapped by [retry]. *)
Inductive event : Type :=
| EvNewLiteLLM (modelName : value)
| EvAttempt (n : Z)
| EvNewAgent (agentName : value)
| EvSleep (seconds : Z)
| EvNewSwarmRouter (swarmType : value)
| EvRun (task : value).

Definition is_backend_event (e : event) : bool :=
  match e with EvNewLiteLLM _ => true | _ => false end.

Definition is_attempt_event (e : event) : bool :=
  match e with EvAttempt _ => true | _ => false end.

Definition is_agent_event (e : event) : bool :=
  match e with EvNewAgent _ => true | _ => false end.

Definition is_router_event (e : event) : bool :=
  match e with EvNewSwarmRouter _ | EvRun _ => true | _ => false end.

Definition is_sleep_event (e : event) : bool :=
  match e with EvSleep _ => true | _ => false end.

(** Construction work: a model backend, an agent attempt or a router. *)
Definition is_construction_event (e : event) : bool :=
  match e with
  | EvNewLiteLLM _ | EvAttempt _ | EvNewAgent _ | EvNewSwarmRouter _ => true
  | _ => false
  end.

Definition count (p : event -> bool) (tr : list event) : nat :=
  List.length (filter p tr).

(** Template-literal conversion of a value, [`${v}`]. *)
Fixpoint to_string (v : value) : string :=
  match v with
  | VUndefined => "undefined"
  | VNull => "null"
  | VBool true => "true"
  | VBool false => "false"
  | VNum n => NilZero.string_of_int (Z.to_int n)
  | VStr s => s
  | VArr items =>
      join "," (map (fun x => match x with
                              | VUndefined | VNull => ""
                              | _ => to_string x
                              end) items)
  | VObj _ => "[object Object]"
  end.

(** A destructuring default, [{ x = d }]: taken when the field is
    [undefined]. *)
Definition default_to (d v : value) : value :=
  match v with VUndefined => d | _ => v end.

(** The retry policy handed to [retry]. *)
Record RetryPolicy : Type := mkRetryPolicy {
  stop : nat;                    (* stopAfterAttempt(n) *)
  wait : Z -> Z;                 (* seconds to sleep after attempt n *)
  retry_on : error -> bool;      (* retryIfExceptionType([...]) *)
  exhausted : error -> error     (* the error raised when [stop] is reached *)
}.

(** Modelled from the spec: [waitExponential({ multiplier, min, max })] of
    the package [tenacity], which is not part of the sources; the sleep
    after attempt [n] grows exponentially, starts at the minimum delay and
    is capped at the maximum delay. *)
Definition waitExponential (multiplier min max : Z) (n : Z) : Z :=
  Z.max (Z.max 0 min) (Z.min (multiplier * 2 ^ (n - 1)) max).

(** [retryIfExceptionType([ConnectionError, TimeoutError])]. *)
Definition is_transient (e : error) : bool :=
  match e with
  | ConnectionError _ | TimeoutError _ => true
  | _ => false
  end.

(** ** Vocabulary of the properties *)

(** [undefined] and [null], the values no property can be read from. *)
Definition nullish (v : value) : bool :=
  match v with VUndefined | VNull => true | _ => false end.

(** The field [k] of a node that has fields, [undefined] otherwise. *)
Definition field (o : value) (k : string) : value :=
  match o with
  | VObj fields => match assoc k fields with Some v => v | None => VUndefined end
  | _ => VUndefined
  end.

(** The configuration read off a node field by field; it is what the
    [AgentConfig] constructor builds when it accepts the node (lemma
    [new_AgentConfig_fields]). *)
Definition agent_config_of (config : value) : AgentConfig :=
  {| agentName := field config "agent_name";
     systemPrompt := field config "system_prompt";
     modelName := js_or (field config "model_name") VNull;
     maxLoops := js_or (field config "max_loops") (VNum 1);
     autosave := js_or (field config "autosave") (VBool true);
     dashboard := js_or (field config "dashboard") (VBool false);
     verbose := js_or (field config "verbose") (VBool false);
     dynamicTemperatureEnabled :=
       js_or (field config "dynamic_temperature_enabled") (VBool false);
     savedStatePath := js_or (field config "saved_state_path") VNull;
     userName := js_or (field config "user_name") (VStr "default_user");
     retryAttempts := js_or (field config "retry_attempts") (VNum 3);
     contextLength := js_or (field config "context_length") (VNum 100000);
     returnStepMeta := js_or (field config "return_step_meta") (VBool false);
     outputType := js_or (field config "output_type") (VStr "str");
     autoGeneratePrompt := js_or (field config "auto_generate_prompt") (VBool false);
     artifactsOn := js_or (field config "artifacts_on") (VBool false);
     artifactsFileExtension :=
       js_or (field config "artifacts_file_extension") (VStr ".md");
     artifactsOutputPath := js_or (field config "artifacts_output_path") (VStr "") |}.

(** The same for the [SwarmConfig] constructor (lemma
    [new_SwarmConfig_fields]). *)
Definition swarm_config_of (config : value) : SwarmConfig :=
  {| sc_name := field config "name";
     sc_description := field config "description";
     sc_maxLoops := js_or (field config "max_loops") (VNum 1);
     sc_swarmType := field config "swarm_type";
     sc_task := js_or (field config "task") VNull;
     sc_flow := js_or (field config "flow") VNull;
     sc_autosave := js_or (field config "autosave") (VBool true);
     sc_returnJson := js_or (field config "return_json") (VBool false);
     sc_rules := js_or (field config "rules") (VStr "") |}.

(** The five swarm types under the names the specification gives them. *)
Definition spec_swarm_types : list string :=
  [ "Sequential"; "Concurrent"; "Rearrange"; "MixtureOfAgents"; "Auto" ].

(** The five swarm types the constructor recognizes. *)
Definition recognized_swarm_type (t : value) : Prop :=
  t = VStr "SequentialWorkflow" \/ t = VStr "ConcurrentWorkflow"
  \/ t = VStr "AgentRearrange" \/ t = VStr "MixtureOfAgents" \/ t = VStr "auto".

(** Events of the construction of one agent by [createAgentWithRetry]. *)
Definition is_attempt_work (e : event) : bool :=
  match e with
  | EvAttempt _ | EvNewAgent _ | EvSleep _ => true
  | _ => false
  end.

(** Every error of the list is of a class the policy retries. *)
Definition all_transient (es : list error) : Prop :=
  Forall (fun e => is_transient e = true) es.

(** Every sleep of a trace lies in the backoff window. *)
Definition sleeps_bounded (evs : list event) : Prop :=
  forall s, In (EvSleep s) evs -> 4 <= s <= 10.

(** The events of [k] attempts of [createAgentWithRetry] that fail and are
    retried, the first of them attempt [n]: each one calls the agent runtime
    once and is followed by the sleep of the backoff schedule. *)
Fixpoint retried (name : value) (n : Z) (k : nat) : list event :=
  match k with
  | O => []
  | S k' =>
      ([EvAttempt n; EvNewAgent name; EvSleep (waitExponential 1 4 10 n)]
       ++ retried name (n + 1) k')%list
  end.

(** The events of a construction that ends at its attempt [k + 1]: [k]
    attempts that are retried, then the attempt that settles the outcome,
    with its one call of the agent runtime and no sleep after it. *)
Definition attempts (name : value) (k : nat) : list event :=
  (retried name 1 k ++ [EvAttempt (1 + Z.of_nat k); EvNewAgent name])%list.

Section Pipeline.

(** The world outside the module and the objects it hands back. *)
Variables World LLM Agent SwarmRouter Output : Type.

(** The argument of [new Agent({...})]. *)
Record AgentArgs : Type := mkAgentArgs {
  a_agentName : value;
  a_systemPrompt : value;
  a_llm : LLM;
  a_maxLoops : value;
  a_autosave : value;
  a_dashboard : value;
  a_verbose : value;
  a_dynamicTemperatureEnabled : value;
  a_savedStatePath : value;
  a_userName : value;
  a_retryAttempts : value;
  a_contextLength : value;
  a_returnStepMeta : value;
  a_outputType : value;
  a_autoGeneratePrompt : value;
  a_artifactsOn : value;
  a_artifactsFileExtension : value;
  a_artifactsOutputPath : value
}.

(** The argument of [new SwarmRouter({...})]. *)
Record SwarmRouterArgs : Type := mkSwarmRouterArgs {
  r_name : value;
  r_description : value;
  r_maxLoops : value;
  r_agents : list Agent;
  r_swarmType : value;
  r_task : value;
  r_flow : value;
  r_autosave : value;
  r_returnJson : value;
  r_rules : value
}.

(** [yaml.parse], [fs.existsSync], [fs.readFileSync], and the imported
    classes [LiteLLM], [Agent] and [SwarmRouter]. *)
Variable yaml_parse : value -> result value.
Variable fs_existsSync : value -> World -> bool.
Variable fs_readFileSync : value -> World -> result value.
Variable new_LiteLLM : value -> World -> result LLM * World.
Variable new_Agent : AgentArgs -> World -> result Agent * World.
Variable new_SwarmRouter : SwarmRouterArgs -> World -> result SwarmRouter * World.
Variable SwarmRouter_run : SwarmRouter -> value -> World -> result Output * World.

(** *** The monad of the pipeline *)

Record state : Type := mkState {
  world : World;
  trace : list event
}.

Definition M (A : Type) : Type := state -> result A * state.

Definition ret {A} (a : A) : M A := fun st => (Ok a, st).

Definition throw {A} (e : error) : M A := fun st => (Throw e, st).

Definition bind {A B} (m : M A) (f : A -> M B) : M B :=
  fun st =>
    match m st with
    | (Ok a, st') => f a st'
    | (Throw e, st') => (Throw e, st')
    end.

(** [try { m } catch (error) { handler(error) }]. *)
Definition try_catch {A} (m : M A) (handler : error -> M A) : M A :=
  fun st =>
    match m st with
    | (Ok a, st') => (Ok a, st')
    | (Throw e, st') => handler e st'
    end.

Definition lift {A} (r : result A) : M A := fun st => (r, st).

Definition emit (e : event) : M unit :=
  fun st => (Ok tt, mkState (world st) (trace st ++ [e])).

(** A call into the world. *)
Definition call {A} (f : World -> result A * World) : M A :=
  fun st =>
    let (r, w) := f (world st) in
    (r, mkState w (trace st)).

(** A read of the world. *)
Definition ask {A} (f : World -> A) : M A :=
  fun st => (Ok (f (world st)), st).

Notation "x <- m ;; k" := (bind m (fun x => k))
  (at level 61, m at next level, right associativity).
Notation "m ;;; k" := (bind m (fun _ => k))
  (at level 61, right associativity).

(** *** loadYamlSafely *)

Definition no_source_error : error :=
  Error "Either yamlFile or yamlString must be provided".

Definition no_agents_error : error :=
  Error "Invalid YAML: Must contain at least one agent configuration.".

Definition array_length (v : value) : Z :=
  match v with
  | VArr items => Z.of_nat (List.length items)
  | _ => 0
  end.

Definition isArray (v : value) : bool :=
  match v with VArr _ => true | _ => false end.

Definition loadYamlSafely (yamlFile yamlString : value) : M value :=
  let yamlFile := default_to VNull yamlFile in
  let yamlString := default_to VNull yamlString in
  try_catch
    (configDict <-
       (if truthy yamlString then
          lift (yaml_parse yamlString)
        else if truthy yamlFile then
          found <- ask (fs_existsSync yamlFile) ;;
          if negb found then
            throw (Error ("YAML file " ++ to_string yamlFile ++ " not found."))
          else
            fileContent <- ask (fs_readFileSync yamlFile) ;;
            fileContent <- lift fileContent ;;
            lift (yaml_parse fileContent)
        else
          throw no_source_error) ;;
     agents <- lift (get_prop configDict "agents") ;;
     if negb (truthy agents) || negb (isArray agents) || (array_length agents <? 1)
     then throw no_agents_error
     else ret configDict)
    (fun error =>
       throw (Error ("Error validating configuration: " ++ message error))).

(** *** createAgentWithRetry *)

(** Modelled from the spec: [retry] comes from the package [tenacity],
    which is not part of the sources.  The wrapped function is attempted;
    a failure that the policy classifies as retryable is followed by a
    sleep and a further attempt, up to [stop] attempts in all, after which
    the policy's [exhausted] error is raised with the last cause; any
    other failure propagates at once.  [remaining] is the number of
    attempts still allowed after the current one. *)
Fixpoint retry_loop {A} (policy : RetryPolicy) (remaining : nat)
    (attempt : Z) (f : M A) : M A :=
  try_catch
    (emit (EvAttempt attempt) ;;; f)
    (fun e =>
       if retry_on policy e then
         match remaining with
         | O => throw (exhausted policy e)
         | S remaining' =>
             emit (EvSleep (wait policy attempt)) ;;;
             retry_loop policy remaining' (attempt + 1) f
         end
       else throw e).

(** Modelled from the spec: [retry(f, policy)] of the same package, the
    loop above started at attempt 1. *)
Definition retry {A} (f : M A) (policy : RetryPolicy) : M A :=
  retry_loop policy (Nat.pred (stop policy)) 1 f.

Definition agent_args (validatedConfig : AgentConfig) (model : LLM) : AgentArgs :=
  {| a_agentName := agentName validatedConfig;
     a_systemPrompt := systemPrompt validatedConfig;
     a_llm := model;
     a_maxLoops := maxLoops validatedConfig;
     a_autosave := autosave validatedConfig;
     a_dashboard := dashboard validatedConfig;
     a_verbose := verbose validatedConfig;
     a_dynamicTemperatureEnabled := dynamicTemperatureEnabled validatedConfig;
     a_savedStatePath := savedStatePath validatedConfig;
     a_userName := userName validatedConfig;
     a_retryAttempts := retryAttempts validatedConfig;
     a_contextLength := contextLength validatedConfig;
     a_returnStepMeta := returnStepMeta validatedConfig;
     a_outputType := outputType validatedConfig;
     a_autoGeneratePrompt := autoGeneratePrompt validatedConfig;
     a_artifactsOn := artifactsOn validatedConfig;
     a_artifactsFileExtension := artifactsFileExtension validatedConfig;
     a_artifactsOutputPath := artifactsOutputPath validatedConfig |}.

(** The function wrapped by [retry]: one construction attempt. *)
Definition createAgent (agentConfig : value) (model : LLM) : M Agent :=
  try_catch
    (validatedConfig <- lift (new_AgentConfig agentConfig) ;;
     let args := agent_args validatedConfig model in
     emit (EvNewAgent (a_agentName args)) ;;;
     call (new_Agent args))
    (fun error =>
       (* logger.error(`... ${agentConfig.agent_name || "unknown"} ...`) *)
       lift (get_prop agentConfig "agent_name") ;;;
       throw error).

Definition agent_name_of (agentConfig : value) : value :=
  match get_prop agentConfig "agent_name" with
  | Ok v => v
  | Throw _ => VUndefined
  end.

(** Modelled from the spec: the error raised once the attempts are
    exhausted.  The options handed to [retry] name none, and the package
    [tenacity] is not part of the sources; by the specification the wrapper
    then raises an [AgentConstructionError] carrying the agent's name and
    the last underlying cause. *)
Definition constructionError (agentConfig : value) (cause : error) : error :=
  AgentConstructionError (agent_name_of agentConfig) cause.

(** The options handed to [retry]: [stopAfterAttempt(3)],
    [waitExponential({ multiplier: 1, min: 4, max: 10 })] and
    [retryIfExceptionType([ConnectionError, TimeoutError])]; the error
    raised on exhaustion is the one of the specification. *)
Definition agentRetryPolicy (agentConfig : value) : RetryPolicy :=
  {| stop := 3;
     wait := waitExponential 1 4 10;
     retry_on := is_transient;
     exhausted := constructionError agentConfig |}.

Definition createAgentWithRetry (agentConfig : value) (model : LLM) : M Agent :=
  retry (createAgent agentConfig model) (agentRetryPolicy agentConfig).

(** *** createAgentsFromYaml *)

(** What the pipeline hands back: the objects built by the world are
    opaque, arrays are arrays of such values. *)
Inductive retval : Type :=
| RNull
| RAgent (a : Agent)
| RRouter (r : SwarmRouter)
| ROutput (o : Output)
| RArray (items : list retval).

Record Options : Type := mkOptions {
  model : value;
  yamlFile : value;
  yamlString : value;
  returnType : value
}.

Definition validReturnTypes : list string :=
  [ "auto"; "swarm"; "agents"; "both"; "tasks"; "run_swarm" ].

Definition return_type_error : error :=
  Error ("Invalid return_type. Must be one of: " ++ join ", " validReturnTypes).

Definition no_router_error : error :=
  Error "Cannot run swarm: SwarmRouter not created.".

(** The elements a [for ... of] visits. *)
Definition elements (v : value) : result (list value) :=
  match v with
  | VArr items => Ok items
  | _ => Throw (TypeError (to_string v ++ " is not iterable"))
  end.

(** The body of the [for] loop; the result is the agent pushed. *)
Definition buildAgent (agentConfig : value) : M Agent :=
  lift (get_prop agentConfig "agent_name") ;;;
  model_name <- lift (get_prop agentConfig "model_name") ;;
  let modelName := js_or model_name (VStr "gpt-4o") in
  emit (EvNewLiteLLM modelName) ;;;
  modelInstance <- call (new_LiteLLM modelName) ;;
  agent <- createAgentWithRetry agentConfig modelInstance ;;
  lift (get_prop agentConfig "agent_name") ;;;
  ret agent.

(** The [for] loop over [config.agents], pushing onto [agents]. *)
Fixpoint buildAgents (nodes : list value) (agents : list Agent) : M (list Agent) :=
  match nodes with
  | [] => ret agents
  | agentConfig :: rest =>
      agent <- buildAgent agentConfig ;;
      buildAgents rest (agents ++ [agent])
  end.

Definition router_args (swarmConfig : SwarmConfig) (agents : list Agent)
    : SwarmRouterArgs :=
  {| r_name := sc_name swarmConfig;
     r_description := sc_description swarmConfig;
     r_maxLoops := sc_maxLoops swarmConfig;
     r_agents := agents;
     r_swarmType := sc_swarmType swarmConfig;
     r_task := sc_task swarmConfig;
     r_flow := sc_flow swarmConfig;
     r_autosave := sc_autosave swarmConfig;
     r_returnJson := sc_returnJson swarmConfig;
     r_rules := sc_rules swarmConfig |}.

(** [if (config.swarm_architecture) { ... }]; [None] is the initial
    [null] of [swarmRouter]. *)
Definition buildRouter (config : value) (agents : list Agent)
    : M (option SwarmRouter) :=
  swarm_architecture <- lift (get_prop config "swarm_architecture") ;;
  if truthy swarm_architecture then
    swarmConfig <- lift (new_SwarmConfig swarm_architecture) ;;
    emit (EvNewSwarmRouter (sc_swarmType swarmConfig)) ;;;
    swarmRouter <- call (new_SwarmRouter (router_args swarmConfig agents)) ;;
    ret (Some swarmRouter)
  else ret None.

(** [agents.length === 1 ? agents[0] : agents]. *)
Definition one_or_all (agents : list Agent) : retval :=
  match agents with
  | [a] => RAgent a
  | _ => RArray (map RAgent agents)
  end.

Definition router_or_null (swarmRouter : option SwarmRouter) : retval :=
  match swarmRouter with
  | Some r => RRouter r
  | None => RNull
  end.

(** The [switch (returnType)]; a [case] compares with [===]. *)
Definition selectResult (returnType config : value)
    (swarmRouter : option SwarmRouter) (agents : list Agent) : M retval :=
  if strict_eq returnType "run_swarm" || strict_eq returnType "swarm" then
    match swarmRouter with
    | None => throw no_router_error
    | Some r =>
        swarm_architecture <- lift (get_prop config "swarm_architecture") ;;
        task <- lift (get_prop swarm_architecture "task") ;;
        emit (EvRun task) ;;;
        out <- call (SwarmRouter_run r task) ;;
        ret (ROutput out)
    end
  else if strict_eq returnType "agents" then
    ret (one_or_all agents)
  else if strict_eq returnType "both" then
    ret (RArray [router_or_null swarmRouter; RArray (map RAgent agents)])
  else if strict_eq returnType "tasks" then
    ret (RArray [])
  else
    match swarmRouter with
    | Some r => ret (RRouter r)
    | None => ret (one_or_all agents)
    end.

Definition createAgentsFromYaml (options : Options) : M retval :=
  let yamlFile := default_to (VStr "agents.yaml") (yamlFile options) in
  let yamlString := default_to VNull (yamlString options) in
  let returnType := default_to (VStr "auto") (returnType options) in
  try_catch
    (config <- loadYamlSafely yamlFile yamlString ;;
     nodes <- lift (let? agents := get_prop config "agents" in elements agents) ;;
     agents <- buildAgents nodes [] ;;
     swarmRouter <- buildRouter config agents ;;
     if negb (set_has validReturnTypes returnType) then
       throw return_type_error
     else
       selectResult returnType config swarmRouter agents)
    (fun error => throw error).

(** *** Vocabulary of the properties of the pipeline *)

(** [appends P m]: running [m] only adds events to the trace, all of them
    satisfying [P]. *)
Definition appends {A} (P : event -> Prop) (m : M A) : Prop :=
  forall st, exists evs,
    trace (snd (m st)) = (trace st ++ evs)%list /\ Forall P evs.

(** [failures args es w w']: from the world [w], successive calls of
    [new Agent(args)] throw the errors [es], one after the other, and leave
    the world [w']. *)
Inductive failures (args : AgentArgs) : list error -> World -> World -> Prop :=
| failures_nil w : failures args [] w w
| failures_cons e es w w1 w2 :
    new_Agent args w = (Throw e, w1) ->
    failures args es w1 w2 ->
    failures args (e :: es) w w2.

(** The document source of a call, after the defaults of its parameters. *)
Definition load (options : Options) : M value :=
  loadYamlSafely (default_to (VStr "agents.yaml") (yamlFile options))
                 (default_to VNull (yamlString options)).

(** The return type of a call, after the default of its parameter. *)
Definition requested (options : Options) : value :=
  default_to (VStr "auto") (returnType options).

(** [built node a]: the loop body, run on [node] in some state, pushes [a]. *)
Definition built (node : value) (a : Agent) : Prop :=
  exists st st', buildAgent node st = (Ok a, st').

End Pipeline.

Arguments mkState {World} world trace.
Arguments world {World} s.
Arguments trace {World} s.
Arguments RNull {Agent SwarmRouter Output}.
Arguments RAgent {Agent SwarmRouter Output} a.
Arguments RRouter {Agent SwarmRouter Output} r.
Arguments ROutput {Agent SwarmRouter Output} o.
Arguments RArray {Agent SwarmRouter Output} items.

(** ** A scripted world

    A small instance of the outside world, used to run the pipeline on
    concrete documents: the YAML parser returns a fixed document, there is no
    file system, and [new Agent] follows a script of outcomes, one per call
    ([None] for success), succeeding once the script is used up.  A backend
    is represented by its model name, an agent by its name, a router by its
    type and agents, and a run returns the task it was given. *)
Module Scripted.

Definition World : Type := list (option error).
Definition LLM : Type := value.
Definition Agent : Type := value.
Definition SwarmRouter : Type := (value * list Agent)%type.
Definition Output : Type := value.

Definition yaml_parse (doc : value) (_ : value) : result value := Ok doc.
Definition fs_existsSync (_ : value) (_ : World) : bool := false.
Definition fs_readFileSync (_ : value) (_ : World) : result value :=
  Throw (OtherError "Error" "ENOENT: no such file or directory").
Definition new_LiteLLM (modelName : value) (w : World) : result LLM * World :=
  (Ok modelName, w).
Definition new_Agent (args : AgentArgs LLM) (w : World) : result Agent * World :=
  match w with
  | Some e :: rest => (Throw e, rest)
  | None :: rest => (Ok (a_agentName LLM args), rest)
  | [] => (Ok (a_agentName LLM args), [])
  end.
Definition new_SwarmRouter (args : SwarmRouterArgs Agent) (w : World)
    : result SwarmRouter * World :=
  (Ok (r_swarmType Agent args, r_agents Agent args), w).
Definition SwarmRouter_run (_ : SwarmRouter) (task : value) (w : World)
    : result Output * World :=
  (Ok task, w).

Definition run_pipeline (doc : value) (options : Options) (script : World) :=
  createAgentsFromYaml World LLM Agent SwarmRouter Output
    (yaml_parse doc) fs_existsSync fs_readFileSync
    new_LiteLLM new_Agent new_SwarmRouter SwarmRouter_run
    options (mkState script []).


Definition run_build (agentConfig : value) (model : LLM) (script : World) :=
  createAgentWithRetry World LLM Agent new_Agent agentConfig model
    (mkState script []).

(** [agents: [{agent_name: "A", system_prompt: "do X"}]]. *)
Definition agentA : value :=
  VObj [("agent_name", VStr "A"); ("system_prompt", VStr "do X")].
Definition agentB : value :=
  VObj [("agent_name", VStr "B"); ("system_prompt", VStr "do Y");
        ("model_name", VStr "gpt-4")].

Definition doc_one : value := VObj [("agents", VArr [agentA])].
Definition doc_two : value := VObj [("agents", VArr [agentA; agentB])].

Definition doc_swarm (swarm_type : string) : value :=
  VObj [("agents", VArr [agentA; agentB]);
        ("swarm_architecture",
         VObj [("name", VStr "S"); ("swarm_type", VStr swarm_type);
               ("task", VStr "T")])].

Definition opts (yamlString returnType : value) : Options :=
  mkOptions VUndefined VUndefined yamlString returnType.

End Scripted.

(** ** Further vocabulary *)

(** The keys read by the [AgentConfig] constructor. *)
Definition agent_keys : list string :=
  [ "agent_name"; "system_prompt"; "model_name"; "max_loops"; "autosave";
    "dashboard"; "verbose"; "dynamic_temperature_enabled"; "saved_state_path";
    "user_name"; "retry_attempts"; "context_length"; "return_step_meta";
    "output_type"; "auto_generate_prompt"; "artifacts_on";
    "artifacts_file_extension"; "artifacts_output_path" ].

(** The keys read by the [SwarmConfig] constructor. *)
Definition swarm_keys : list string :=
  [ "name"; "description"; "max_loops"; "swarm_type"; "task"; "flow";
    "autosave"; "return_json"; "rules" ].

(** The model name the loop hands to [new LiteLLM] for a node:
    [agentConfig.model_name || "gpt-4o"]. *)
Definition backend_name (node : value) : value :=
  js_or (field node "model_name") (VStr "gpt-4o").

Definition is_run_event (e : event) : bool :=
  match e with EvRun _ => true | _ => false end.

(** * The command line: autoswarm and login

    [generateSwarmConfig] of [auto_generate_swarm_config.mjs], and
    [runAutoswarm], [executeWithSpinner] and [checkLogin] of the command-line
    entry point.  Calls to [formatter.printPanel] and to the console are left
    out, like the calls to the logger. *)

Definition AUTO_GEN_PROMPT : string :=
  "
You are a specialized agent responsible for creating YAML configuration files for multi-agent swarms... (truncated for brevity)
".

Section AutoSwarm.

Variables World LLM Agent SwarmRouter Output : Type.
Variable yaml_parse : value -> result value.
Variable fs_existsSync : value -> World -> bool.
Variable fs_readFileSync : value -> World -> result value.
Variable new_LiteLLM : value -> World -> result LLM * World.
Variable new_Agent : AgentArgs LLM -> World -> result Agent * World.
Variable new_SwarmRouter :
  SwarmRouterArgs Agent -> World -> result SwarmRouter * World.
Variable SwarmRouter_run :
  SwarmRouter -> value -> World -> result Output * World.

(** [agent.run(task, ...args)] of the agent runtime. *)
Variable Agent_run : Agent -> value -> list value -> World -> result value * World.

(** [parseYamlFromSwarmMarkdown], which extracts the YAML block of the
    agent's answer with regular expressions; it is kept abstract, so that
    what is proved holds whatever it extracts. *)
Variable parseYamlFromSwarmMarkdown : value -> result value.

(** ToBoolean of what a swarm run returns. *)
Variable Output_truthy : Output -> bool.

Local Notation M := (M World).
Local Notation retval := (retval Agent SwarmRouter Output).
Local Notation "x <- m ;; k" := (bind World m (fun x => k))
  (at level 61, m at next level, right associativity).
Local Notation "m ;;; k" := (bind World m (fun _ => k))
  (at level 61, right associativity).

(** The argument of [new Agent({...})] for the builder agent; the fields the
    source leaves out are [undefined]. *)
Definition builder_args (model : LLM) : AgentArgs LLM :=
  {| a_agentName := VStr "Auto-Swarm-Builder";
     a_systemPrompt := VStr AUTO_GEN_PROMPT;
     a_llm := model;
     a_maxLoops := VNum 1;
     a_autosave := VUndefined;
     a_dashboard := VUndefined;
     a_verbose := VUndefined;
     a_dynamicTemperatureEnabled := VBool true;
     a_savedStatePath := VStr "swarm_builder.json";
     a_userName := VStr "swarms_corp";
     a_retryAttempts := VUndefined;
     a_contextLength := VUndefined;
     a_returnStepMeta := VUndefined;
     a_outputType := VStr "str";
     a_autoGeneratePrompt := VUndefined;
     a_artifactsOn := VUndefined;
     a_artifactsFileExtension := VUndefined;
     a_artifactsOutputPath := VUndefined |}.

(** The function wrapped by [retry] in [generateSwarmConfig]. *)
Definition attemptGenerateSwarmConfig (task modelName : value)
    (args : list value) : M retval :=
  try_catch World
    (emit World (EvNewLiteLLM modelName) ;;;
     model <- call World (new_LiteLLM modelName) ;;
     emit World (EvNewAgent (a_agentName LLM (builder_args model))) ;;;
     agent <- call World (new_Agent (builder_args model)) ;;
     rawOutput <- call World (Agent_run agent task args) ;;
     yamlContent <- lift World (parseYamlFromSwarmMarkdown rawOutput) ;;
     createAgentsFromYaml World LLM Agent SwarmRouter Output
       yaml_parse fs_existsSync fs_readFileSync
       new_LiteLLM new_Agent new_SwarmRouter SwarmRouter_run
       (mkOptions VUndefined VUndefined yamlContent (VStr "run_swarm")))
    (fun error => throw World error).

(** The options handed to [retry]: [stopAfterAttempt(3)] and
    [waitExponential({ min: 4, max: 10 })]; no class of errors is named, so
    every error is retried, and exhaustion raises the wrapper's own error. *)
Definition swarmConfigRetryPolicy : RetryPolicy :=
  {| stop := 3;
     wait := waitExponential 1 4 10;
     retry_on := fun _ => true;
     exhausted := fun e => OtherError "RetryError" (message e) |}.

Definition generateSwarmConfig (task fileName modelName : value)
    (args : list value) : M retval :=
  let fileName := default_to (VStr "swarm_config_output.yaml") fileName in
  let modelName := default_to (VStr "gpt-4o") modelName in
  retry World (attemptGenerateSwarmConfig task modelName args)
    swarmConfigRetryPolicy.

(** ToBoolean of a result of the pipeline. *)
Definition retval_truthy (v : retval) : bool :=
  match v with
  | RNull => false
  | ROutput o => Output_truthy o
  | RAgent _ | RRouter _ | RArray _ => true
  end.

(** [runAutoswarm(task, model)]; the result is the [undefined] of a function
    without [return]. *)
Definition runAutoswarm (task model : value) : M value :=
  if negb (truthy task) then
    throw World (OtherError "SwarmCLIError" "Task cannot be empty.")
  else if negb (truthy model) then
    throw World (OtherError "SwarmCLIError" "Model name cannot be empty.")
  else
    try_catch World
      (result <- generateSwarmConfig task model VUndefined [] ;;
       if retval_truthy result then ret World tt
       else throw World (OtherError "SwarmCLIError"
                           "Failed to generate swarm configuration."))
      (fun error => (* showError(error.message, ...) *) ret World tt) ;;;
    ret World VUndefined.

End AutoSwarm.

Section Login.

Variable World : Type.
Variable fs_existsSync : value -> World -> bool.
Variable fs_readFileSync : value -> World -> result value.
Variable fs_writeFileSync : value -> value -> World -> result unit * World.

(** [path.resolve('cache.txt')]. *)
Variable cacheFile : value.

Local Notation M := (M World).
Local Notation "x <- m ;; k" := (bind World m (fun x => k))
  (at level 61, m at next level, right associativity).
Local Notation "m ;;; k" := (bind World m (fun _ => k))
  (at level 61, right associativity).

(** [executeWithSpinner(action, text)]: the action's error is printed and
    dropped. *)
Definition executeWithSpinner (action : M unit) : M unit :=
  try_catch World action (fun error => ret World tt).

(** [checkLogin()]; the [sleep(1000)] of one second is recorded as
    [EvSleep 1]. *)
Definition checkLogin : M value :=
  found <- ask World (fs_existsSync cacheFile) ;;
  logged_in <-
    (if found then
       status <- ask World (fs_readFileSync cacheFile) ;;
       status <- lift World status ;;
       ret World (strict_eq status "logged_in")
     else ret World false) ;;
  if logged_in then ret World (VBool true)
  else
    executeWithSpinner
      (call World (fs_writeFileSync cacheFile (VStr "logged_in")) ;;;
       emit World (EvSleep 1)) ;;;
    ret World (VBool true).

End Login.

(** [starts es m]: running [m] adds events to the trace, beginning with
    [es]. *)
Definition starts {World A} (es : list event) (m : M World A) : Prop :=
  forall st, exists evs,
    trace (snd (m st)) = (trace st ++ es ++ evs)%list.

(** The scripted world of the pipeline, with an agent that answers every
    task with the same text, an extraction that always yields the document
    source "doc", and a login cache holding at most one file that may be
    read-only. *)
Module ScriptedCli.

Definition Agent_run (_ : Scripted.Agent) (_ : value) (_ : list value)
    (w : Scripted.World) : result value * Scripted.World :=
  (Ok (VStr "```yaml agents: [] ```"), w).

Definition parseYamlFromSwarmMarkdown (_ : value) : result value :=
  Ok (VStr "doc").

Definition Output_truthy (o : Scripted.Output) : bool := truthy o.

Definition run_autoswarm (doc task model : value) (script : Scripted.World) :=
  runAutoswarm Scripted.World Scripted.LLM Scripted.Agent Scripted.SwarmRouter
    Scripted.Output (Scripted.yaml_parse doc) Scripted.fs_existsSync
    Scripted.fs_readFileSync Scripted.new_LiteLLM Scripted.new_Agent
    Scripted.new_SwarmRouter Scripted.SwarmRouter_run
    Agent_run parseYamlFromSwarmMarkdown Output_truthy
    task model (mkState script []).

(** The cache file: its content if it exists, and whether it can be
    written. *)
Record Cache : Type := mkCache {
  cached : option string;
  writable : bool
}.

Definition cache_exists (_ : value) (c : Cache) : bool :=
  match cached c with Some _ => true | None => false end.

Definition cache_read (_ : value) (c : Cache) : result value :=
  match cached c with
  | Some s => Ok (VStr s)
  | None => Throw (OtherError "Error" "ENOENT: no such file or directory")
  end.

Definition cache_write (_ : value) (data : value) (c : Cache)
    : result unit * Cache :=
  if writable c then (Ok tt, mkCache (Some (to_string data)) true)
  else (Throw (OtherError "Error" "EACCES: permission denied"), c).

Definition run_checkLogin (c : Cache) :=
  checkLogin Cache cache_exists cache_read cache_write (VStr "/cache.txt")
    (mkState c []).

End ScriptedCli.

(** * Onboarding: saving the user data

    [saveData] of [cli/onboarding_process.mjs].  The parameter
    [retryAttempts] is a number, as it is documented; delays are given to
    [sleep] in milliseconds and recorded in whole seconds (every delay of the
    loop is a multiple of 1000). *)

(** The own enumerable properties of a value, as [{ ...v }] copies them;
    keys are kept in the order of insertion. *)
Fixpoint index_entries (i : nat) (items : list value) : list (string * value) :=
  match items with
  | [] => []
  | x :: rest => (to_string (VNum (Z.of_nat i)), x) :: index_entries (S i) rest
  end.

Fixpoint char_entries (i : nat) (s : string) : list (string * value) :=
  match s with
  | EmptyString => []
  | String c rest =>
      (to_string (VNum (Z.of_nat i)), VStr (String c "")) :: char_entries (S i) rest
  end.

Definition own_entries (v : value) : list (string * value) :=
  match v with
  | VObj fields => fields
  | VArr items => index_entries 0 items
  | VStr s => char_entries 0 s
  | _ => []
  end.

Fixpoint set_entry (k : string) (v : value) (fields : list (string * value))
    : list (string * value) :=
  match fields with
  | [] => [(k, v)]
  | (k', v') :: rest =>
      if String.eqb k k' then (k, v) :: rest else (k', v') :: set_entry k v rest
  end.

(** [{ ...fields, ...v }]. *)
Definition spread_into (fields : list (string * value)) (v : value)
    : list (string * value) :=
  fold_left (fun acc kv => set_entry (fst kv) (snd kv) acc) (own_entries v) fields.

Record OnboardingProcess : Type := mkOnboardingProcess {
  userData : value;
  systemData : value;
  autoSavePath : value;
  cacheSavePath : value
}.

(** The delays of [k] successive failures, in seconds, from the backoff
    time [backoffTime] (in milliseconds) on. *)
Fixpoint backoff_sleeps (backoffTime : Z) (k : nat) : list event :=
  match k with
  | O => []
  | S k' => EvSleep (backoffTime / 1000) :: backoff_sleeps (backoffTime * 2) k'
  end.

Section Onboarding.

Variable World : Type.

(** [logAgentData] of the telemetry module. *)
Variable logAgentData : value -> World -> result unit * World.

Local Notation M := (M World).
Local Notation "x <- m ;; k" := (bind World m (fun x => k))
  (at level 61, m at next level, right associativity).
Local Notation "m ;;; k" := (bind World m (fun _ => k))
  (at level 61, right associativity).

(** [{ ...this.userData, ...this.systemData }]. *)
Definition combinedData (this : OnboardingProcess) : value :=
  VObj (spread_into (spread_into [] (userData this)) (systemData this)).

(** The [while (attempt < retryAttempts)] loop; [fuel] bounds the number of
    iterations and is never used up before the test fails. *)
Fixpoint saveData_loop (fuel : nat) (this : OnboardingProcess)
    (retryAttempts attempt backoffTime : Z) : M unit :=
  match fuel with
  | O => ret World tt
  | S fuel' =>
      if attempt <? retryAttempts then
        saved <-
          try_catch World
            (call World (logAgentData (combinedData this)) ;;; ret World true)
            (fun error => ret World false) ;;
        if (saved : bool) then ret World tt
        else
          emit World (EvSleep (backoffTime / 1000)) ;;;
          saveData_loop fuel' this retryAttempts (attempt + 1) (backoffTime * 2)
      else ret World tt
  end.

(** [saveData(retryAttempts = 3)]; [None] is the omitted argument. *)
Definition saveData (this : OnboardingProcess) (retryAttempts : option Z)
    : M unit :=
  let retryAttempts := match retryAttempts with Some n => n | None => 3 end in
  saveData_loop (Z.to_nat retryAttempts) this retryAttempts 0 1000.

(** [log_failures data k w w']: from the world [w], [k] successive calls of
    [logAgentData(data)] throw, and leave the world [w']. *)
Inductive log_failures (data : value) : nat -> World -> World -> Prop :=
| log_failures_O w : log_failures data O w w
| log_failures_S k e w w1 w2 :
    logAgentData data w = (Throw e, w1) ->
    log_failures data k w1 w2 ->
    log_failures data (S k) w w2.

End Onboarding.

(** A world for [saveData]: the number of calls of [logAgentData] that will
    still fail. *)
Module ScriptedTelemetry.

Definition World : Type := nat.

Definition logAgentData (_ : value) (w : World) : result unit * World :=
  match w with
  | O => (Ok tt, O)
  | S w' => (Throw (OtherError "Error" "telemetry unavailable"), w')
  end.

Definition user : OnboardingProcess :=
  mkOnboardingProcess (VObj [("first_name", VStr "Ada")])
    (VObj [("platform", VStr "linux")])
    (VStr "user_data.json") (VStr "user_data_cache.json").

Definition run_saveData (retryAttempts : option Z) (failing : World) :=
  saveData World logAgentData user retryAttempts (mkState failing []).

End ScriptedTelemetry.

(** * Artifacts

    The classes [FileVersion] and [Artifact] of [artifacts/main_artifact.mjs].
    Version numbers and the edit count are numbers, as the class itself
    produces them; the time stamp a [FileVersion] takes from the clock when
    none is given is an argument [now] of the operation that creates it. *)

Record FileVersion : Type := mkFileVersion {
  versionNumber : Z;
  content : value;
  timestamp : value
}.

Record Artifact : Type := mkArtifact {
  filePath : value;
  fileType : value;
  contents : value;
  folderPath : value;
  editCount : Z;
  versions : list FileVersion
}.

(** The object handed to [new Artifact({...})]; [VUndefined] and [None] are
    the fields left out. *)
Record ArtifactOptions : Type := mkArtifactOptions {
  o_filePath : value;
  o_fileType : value;
  o_contents : value;
  o_folderPath : value;
  o_editCount : option Z;
  o_versions : option (list FileVersion)
}.

(** [String.prototype.toLowerCase] on code units below 256. *)
Definition lower_char (c : ascii) : ascii :=
  let n := N_of_ascii c in
  if ((65 <=? n) && (n <=? 90)
      || (192 <=? n) && (n <=? 222) && negb (n =? 215))%N
  then ascii_of_N (n + 32)
  else c.

Fixpoint toLowerCase (s : string) : string :=
  match s with
  | EmptyString => EmptyString
  | String c rest => String (lower_char c) (toLowerCase rest)
  end.

Definition supportedTypes : list string :=
  [ ".py"; ".csv"; ".tsv"; ".txt"; ".json"; ".xml"; ".html"; ".yaml"; ".yml";
    ".md"; ".rst"; ".log"; ".sh"; ".bat"; ".ps1"; ".ini"; ".hcl"; ".tf";
    ".properties" ].

(** [create(initialContent)]. *)
Definition create (this : Artifact) (initialContent now : value) : Artifact :=
  {| filePath := filePath this;
     fileType := fileType this;
     contents := initialContent;
     folderPath := folderPath this;
     editCount := 0;
     versions := versions this ++ [mkFileVersion 1 initialContent now] |}.

(** [edit(newContent)]. *)
Definition edit (this : Artifact) (newContent now : value) : Artifact :=
  {| filePath := filePath this;
     fileType := fileType this;
     contents := newContent;
     folderPath := folderPath this;
     editCount := editCount this + 1;
     versions :=
       versions this
       ++ [mkFileVersion (Z.of_nat (List.length (versions this)) + 1)
             newContent now] |}.

(** [getVersion(versionNumber)]; [None] is [null]. *)
Definition getVersion (this : Artifact) (n : value) : option FileVersion :=
  find (fun v => match n with
                 | VNum k => versionNumber v =? k
                 | _ => false
                 end)
       (versions this).

(** [getContents()]. *)
Definition getContents (this : Artifact) : value := contents this.

(** A sequence of edits, each with its content and the time of the clock. *)
Definition edits (this : Artifact) (changes : list (value * value)) : Artifact :=
  fold_left (fun a change => edit a (fst change) (snd change)) changes this.

(** [numbered_from s l]: the versions of [l] are numbered [s + 1],
    [s + 2], ... in their order. *)
Definition numbered_from (s : nat) (l : list FileVersion) : Prop :=
  forall i v, nth_error l i = Some v -> versionNumber v = Z.of_nat (s + i) + 1.

Section Artifacts.

(** [path.extname]. *)
Variable path_extname : value -> result string.

(** [process.env.WORKSPACE_DIR]. *)
Variable WORKSPACE_DIR : value.

(** [validateFileType(fileType, filePath)]. *)
Definition validateFileType (fileType filePath : value) : result value :=
  if negb (truthy fileType) then
    let? ext := path_extname filePath in
    let ext := toLowerCase ext in
    if negb (existsb (String.eqb ext) supportedTypes)
    then Throw (Error "Unsupported file type")
    else Ok (VStr ext)
  else Ok fileType.

(** [new Artifact({...})]. *)
Definition new_Artifact (options : ArtifactOptions) : result Artifact :=
  let folderPath :=
    default_to (js_or WORKSPACE_DIR (VStr "")) (o_folderPath options) in
  let editCount := match o_editCount options with Some n => n | None => 0 end in
  let versions := match o_versions options with Some l => l | None => [] end in
  let? fileType := validateFileType (o_fileType options) (o_filePath options) in
  Ok {| filePath := o_filePath options;
        fileType := fileType;
        contents := o_contents options;
        folderPath := folderPath;
        editCount := editCount;
        versions := versions |}.

End Artifacts.

(** * Properties *)

(** [expand f] unfolds the function at the head of [f], also when [f] is a
    local abbreviation for that function applied to the world. *)
Ltac head_of t :=
  lazymatch t with
  | ?f _ => head_of f
  | _ => t
  end.

Tactic Notation "expand" constr(t) :=
  let h := head_of t in unfold h.

Tactic Notation "expand" constr(t) "in" hyp(H) :=
  let h := head_of t in unfold h in H.

(** ** Reading fields *)

Lemma get_prop_field o k :
  nullish o = false -> get_prop o k = Ok (field o k).
Proof. destruct o; simpl; intros H; try discriminate; reflexivity. Qed.

Lemma get_prop_nullish o k :
  nullish o = true -> exists m, get_prop o k = Throw (TypeError m).
Proof. destruct o; simpl; intros H; try discriminate; eauto. Qed.

Lemma get_prop_ok_inv o k v :
  get_prop o k = Ok v -> nullish o = false /\ v = field o k.
Proof.
  destruct o; simpl; intros H; try discriminate; inversion H; auto.
Qed.

Lemma get_prop_throw_inv o k e :
  get_prop o k = Throw e -> nullish o = true.
Proof. destruct o; simpl; intros H; try discriminate; reflexivity. Qed.

(** ** The shape of what the two constructors compute *)

Lemma new_AgentConfig_fields config :
  nullish config = false ->
  new_AgentConfig config =
    if system_prompt_rejected (field config "system_prompt")
    then Throw system_prompt_error
    else Ok (agent_config_of config).
Proof.
  intros H. unfold new_AgentConfig.
  repeat (rewrite get_prop_field by exact H; unfold bind_result at 1).
  reflexivity.
Qed.

Lemma new_AgentConfig_nullish config e :
  get_prop config "agent_name" = Throw e -> new_AgentConfig config = Throw e.
Proof.
  intros H. unfold new_AgentConfig. rewrite H. reflexivity.
Qed.

Lemma new_SwarmConfig_fields config :
  nullish config = false ->
  new_SwarmConfig config =
    if negb (set_has validTypes (field config "swarm_type"))
    then Throw swarm_type_error
    else Ok (swarm_config_of config).
Proof.
  intros H. unfold new_SwarmConfig.
  repeat (rewrite get_prop_field by exact H; unfold bind_result at 1).
  reflexivity.
Qed.

Lemma new_SwarmConfig_nullish config :
  nullish config = true -> exists m, new_SwarmConfig config = Throw (TypeError m).
Proof.
  destruct config; simpl; intros H; try discriminate;
    eexists; unfold new_SwarmConfig; simpl; reflexivity.
Qed.

(** Membership in the set of the constructor, spelled out. *)
Lemma set_has_validTypes t :
  set_has validTypes t = true <->
  t = VStr "SequentialWorkflow" \/ t = VStr "ConcurrentWorkflow"
  \/ t = VStr "AgentRearrange" \/ t = VStr "MixtureOfAgents" \/ t = VStr "auto".
Proof.
  split.
  - destruct t; simpl; try discriminate.
    rewrite !orb_true_iff, !String.eqb_eq.
    intros [H|[H|[H|[H|[H|H]]]]]; subst; auto 10; discriminate.
  - intros [H|[H|[H|[H|H]]]]; subst; reflexivity.
Qed.

(** ** Swarm validation *)

(** C1, as stated, fails: a node with [swarm_type: "SequentialWorkflow"], a
    value outside {Sequential, Concurrent, Rearrange, MixtureOfAgents, Auto},
    is accepted by the [SwarmConfig] constructor, while the listed value
    "Sequential" is rejected. *)
Lemma swarm_type_spec_names_counterexample :
  let node := VObj [("swarm_type", VStr "SequentialWorkflow")] in
  set_has spec_swarm_types (field node "swarm_type") = false
  /\ is_ok (new_SwarmConfig node) = true
  /\ new_SwarmConfig (VObj [("swarm_type", VStr "Sequential")])
     = Throw swarm_type_error.
Proof. repeat split. Qed.

(** C1, amended: the [SwarmConfig] constructor succeeds exactly when
    [swarm_type] is one of the five strings "SequentialWorkflow",
    "ConcurrentWorkflow", "AgentRearrange", "MixtureOfAgents" and "auto", and
    then keeps the value as given; on every other value (another string, a
    value that is not a string, a missing field) it throws, with the
    swarm-type error whenever the node can be read at all. *)
Theorem swarm_type_closed (node : value) :
  let t := field node "swarm_type" in
  (recognized_swarm_type t ->
     new_SwarmConfig node = Ok (swarm_config_of node)
     /\ sc_swarmType (swarm_config_of node) = t)
  /\ (~ recognized_swarm_type t ->
     exists e, new_SwarmConfig node = Throw e
               /\ (nullish node = false -> e = swarm_type_error)).
Proof.
  intros t. split.
  - intros Ht. apply set_has_validTypes in Ht.
    assert (Hn : nullish node = false).
    { destruct node; try reflexivity; subst t; simpl in Ht; discriminate. }
    rewrite new_SwarmConfig_fields by exact Hn.
    fold t. rewrite Ht. simpl. auto.
  - intros Ht.
    destruct (nullish node) eqn:Hn.
    + destruct (new_SwarmConfig_nullish node Hn) as [m Hm].
      exists (TypeError m). split; [exact Hm | discriminate].
    + exists swarm_type_error. split; [| reflexivity].
      rewrite new_SwarmConfig_fields by exact Hn. fold t.
      destruct (set_has validTypes t) eqn:Hs; [| reflexivity].
      exfalso. apply Ht. apply set_has_validTypes. exact Hs.
Qed.

Lemma swarm_type_closed_witness :
  new_SwarmConfig (VObj [("swarm_type", VStr "auto"); ("task", VStr "T")])
  = Ok (swarm_config_of (VObj [("swarm_type", VStr "auto"); ("task", VStr "T")]))
  /\ exists e, new_SwarmConfig (VObj [("swarm_type", VStr "Bogus")]) = Throw e
               /\ e = swarm_type_error.
Proof.
  split.
  - apply (swarm_type_closed (VObj [("swarm_type", VStr "auto"); ("task", VStr "T")])).
    unfold recognized_swarm_type. simpl. auto 10.
  - destruct (proj2 (swarm_type_closed (VObj [("swarm_type", VStr "Bogus")])))
      as [e [He Hn]].
    + unfold recognized_swarm_type. simpl.
      intros [H|[H|[H|[H|H]]]]; discriminate.
    + exists e. split; [exact He | apply Hn; reflexivity].
Defined.

(** ** Agent validation *)

Lemma trimStart_all_white_space s :
  all_white_space s = true <-> trimStart s = "".
Proof.
  induction s as [| c r IH]; simpl.
  - tauto.
  - destruct (is_white_space c); simpl.
    + exact IH.
    + split; discriminate.
Qed.

Lemma rev_string_empty acc s : rev_string acc s = "" -> acc = "" /\ s = "".
Proof.
  revert acc. induction s as [| c r IH]; simpl; intros acc H.
  - auto.
  - apply IH in H. destruct H as [H _]. discriminate.
Qed.

Lemma all_white_space_rev acc s :
  all_white_space (rev_string acc s) = all_white_space s && all_white_space acc.
Proof.
  revert acc. induction s as [| c r IH]; simpl; intros acc.
  - reflexivity.
  - rewrite IH. simpl.
    destruct (is_white_space c), (all_white_space r), (all_white_space acc);
      reflexivity.
Qed.

Lemma trimStart_head s c r : trimStart s = String c r -> is_white_space c = false.
Proof.
  induction s as [| c' r' IH]; simpl; [discriminate |].
  destruct (is_white_space c') eqn:E; [exact IH |].
  intros H. inversion H. subst. exact E.
Qed.

(** A string trims to the empty string exactly when it consists of white
    space only. *)
Lemma trim_empty s : trim s = "" <-> all_white_space s = true.
Proof.
  unfold trim, trimEnd. split.
  - intros H. apply rev_string_empty in H. destruct H as [_ H].
    apply trimStart_all_white_space in H.
    rewrite all_white_space_rev in H. simpl in H.
    rewrite andb_true_r in H.
    destruct (trimStart s) as [| c r] eqn:E.
    + apply trimStart_all_white_space. exact E.
    + apply trimStart_head in E. simpl in H. rewrite E in H. discriminate.
  - intros H. apply trimStart_all_white_space in H. rewrite H. reflexivity.
Qed.

Lemma system_prompt_rejected_iff p :
  system_prompt_rejected p = false <->
  exists s, p = VStr s /\ all_white_space s = false.
Proof.
  unfold system_prompt_rejected. split.
  - destruct p as [| | b | n | s | l | f]; simpl;
      try (rewrite ?orb_true_r; simpl; discriminate).
    rewrite orb_false_r. intros H. apply orb_false_elim in H.
    destruct H as [_ H]. exists s. split; [reflexivity |].
    destruct (all_white_space s) eqn:E; [| reflexivity].
    apply trim_empty in E. rewrite E in H. discriminate.
  - intros [s [-> Hs]]. simpl. rewrite orb_false_r.
    assert (Ht : trim s <> "").
    { intros E. apply trim_empty in E. congruence. }
    destruct s as [| c r]; [discriminate |].
    destruct (trim (String c r)) as [| c' r'] eqn:E; [congruence |].
    simpl. reflexivity.
Qed.

(** C8: a node whose [system_prompt] is missing, is not a string, or is a
    string of white space only (empty after trimming) is never accepted by
    the [AgentConfig] constructor: it throws, and for every node that can be
    read at all the error is "System prompt must be a non-empty string". *)
Theorem system_prompt_required (node : value) :
  let p := field node "system_prompt" in
  (p = VUndefined \/ is_string p = false
   \/ exists s, p = VStr s /\ trim s = "") ->
  exists e, new_AgentConfig node = Throw e
            /\ (nullish node = false ->
                e = Error "System prompt must be a non-empty string").
Proof.
  intros p Hp.
  destruct (nullish node) eqn:Hn.
  - destruct (get_prop_nullish node "agent_name" Hn) as [m Hm].
    exists (TypeError m). split; [| discriminate].
    apply new_AgentConfig_nullish. exact Hm.
  - exists system_prompt_error. split; [| reflexivity].
    rewrite new_AgentConfig_fields by exact Hn. fold p.
    destruct (system_prompt_rejected p) eqn:E; [reflexivity |].
    apply system_prompt_rejected_iff in E. destruct E as [s [Es Hs]].
    exfalso. destruct Hp as [H | [H | [s' [H Ht]]]].
    + congruence.
    + rewrite Es in H. discriminate.
    + apply trim_empty in Ht. congruence.
Qed.

Lemma system_prompt_required_witness :
  exists e,
    new_AgentConfig (VObj [("agent_name", VStr "A"); ("system_prompt", VStr "  ")])
    = Throw e
    /\ e = Error "System prompt must be a non-empty string".
Proof.
  destruct (system_prompt_required
              (VObj [("agent_name", VStr "A"); ("system_prompt", VStr "  ")]))
    as [e [He Hn]].
  - right. right. exists "  ". split; reflexivity.
  - exists e. split; [exact He | apply Hn; reflexivity].
Defined.

(** The converse: every other node is accepted. *)
Lemma system_prompt_accepted (node : value) s :
  field node "system_prompt" = VStr s -> all_white_space s = false ->
  new_AgentConfig node = Ok (agent_config_of node).
Proof.
  intros Hp Hs.
  assert (Hn : nullish node = false).
  { destruct node; try reflexivity; discriminate. }
  rewrite new_AgentConfig_fields by exact Hn.
  replace (system_prompt_rejected (field node "system_prompt")) with false;
    [reflexivity |].
  symmetry. apply system_prompt_rejected_iff. eauto.
Qed.

Lemma new_AgentConfig_ok_inv node cfg :
  new_AgentConfig node = Ok cfg ->
  nullish node = false /\ cfg = agent_config_of node.
Proof.
  intros H. destruct (nullish node) eqn:Hn.
  - destruct (get_prop_nullish node "agent_name" Hn) as [m Hm].
    rewrite (new_AgentConfig_nullish _ _ Hm) in H. discriminate.
  - rewrite new_AgentConfig_fields in H by exact Hn.
    destruct (system_prompt_rejected _); inversion H; auto.
Qed.

(** The flags defaulted with [|| false] come out as supplied, and [false]
    when absent. *)
Lemma or_false_flag (v : value) :
  (forall b, v = VBool b -> js_or v (VBool false) = VBool b)
  /\ (v = VUndefined -> js_or v (VBool false) = VBool false).
Proof.
  split.
  - intros b ->. destruct b; reflexivity.
  - intros ->. reflexivity.
Qed.

Lemma flags_with_false_default node cfg :
  new_AgentConfig node = Ok cfg ->
  forall b,
    (field node "dashboard" = VBool b -> dashboard cfg = VBool b)
    /\ (field node "verbose" = VBool b -> verbose cfg = VBool b)
    /\ (field node "dynamic_temperature_enabled" = VBool b ->
        dynamicTemperatureEnabled cfg = VBool b)
    /\ (field node "auto_generate_prompt" = VBool b ->
        autoGeneratePrompt cfg = VBool b)
    /\ (field node "artifacts_on" = VBool b -> artifactsOn cfg = VBool b).
Proof.
  intros H b. apply new_AgentConfig_ok_inv in H. destruct H as [_ ->].
  simpl. repeat split; intros E; rewrite E; destruct b; reflexivity.
Qed.

(** [autosave] is never [false] in a validated configuration, whatever the
    node supplies. *)
Lemma autosave_never_false node cfg :
  new_AgentConfig node = Ok cfg -> truthy (autosave cfg) = true.
Proof.
  intros H. apply new_AgentConfig_ok_inv in H. destruct H as [_ ->].
  simpl. unfold js_or.
  destruct (truthy (field node "autosave")) eqn:E; [exact E | reflexivity].
Qed.

(** C4, the code at the failing input: for a node with [autosave: false]
    the [AgentConfig] constructor yields [autosave = true], where the claim
    asks for [false]; [config.autosave || true] discards a supplied [false]. *)
Theorem autosave_false_overridden :
  let node := VObj [("agent_name", VStr "A"); ("system_prompt", VStr "do X");
                    ("autosave", VBool false)] in
  exists cfg, new_AgentConfig node = Ok cfg /\ autosave cfg = VBool true.
Proof. eexists. split; reflexivity. Qed.

(** ** Monad laws used below *)

Section MonadFacts.

Variable World : Type.

Local Notation M := (M World).
Local Notation state := (state World).
Local Notation appends := (appends World).

Lemma bind_ok {A B} (m : M A) (f : A -> M B) st a st' :
  m st = (Ok a, st') -> bind World m f st = f a st'.
Proof. intros H. unfold bind. rewrite H. reflexivity. Qed.

Lemma bind_throw {A B} (m : M A) (f : A -> M B) st e st' :
  m st = (Throw e, st') -> bind World m f st = (Throw e, st').
Proof. intros H. unfold bind. rewrite H. reflexivity. Qed.

Lemma bind_ok_inv {A B} (m : M A) (f : A -> M B) st b st' :
  bind World m f st = (Ok b, st') ->
  exists a st1, m st = (Ok a, st1) /\ f a st1 = (Ok b, st').
Proof.
  unfold bind. destruct (m st) as [[a | e] st1]; intros H.
  - eauto.
  - discriminate.
Qed.

Lemma try_catch_ok {A} (m : M A) h st a st' :
  m st = (Ok a, st') -> try_catch World m h st = (Ok a, st').
Proof. intros H. unfold try_catch. rewrite H. reflexivity. Qed.

Lemma try_catch_throw {A} (m : M A) h st e st' :
  m st = (Throw e, st') -> try_catch World m h st = h e st'.
Proof. intros H. unfold try_catch. rewrite H. reflexivity. Qed.

Lemma rethrow {A} (m : M A) st :
  try_catch World m (fun error => throw World error) st = m st.
Proof.
  unfold try_catch, throw. destruct (m st) as [[a | e] st']; reflexivity.
Qed.

Lemma state_eta (st : state) : mkState (world st) (trace st) = st.
Proof. destruct st; reflexivity. Qed.

Lemma appends_nothing {A} P (m : M A) :
  (forall st, trace (snd (m st)) = trace st) -> appends P m.
Proof.
  intros H st. exists []. rewrite app_nil_r. split; [apply H | constructor].
Qed.

Lemma appends_ret {A} P (a : A) : appends P (ret World a).
Proof. apply appends_nothing. reflexivity. Qed.

Lemma appends_throw {A} P e : appends P (@throw World A e).
Proof. apply appends_nothing. reflexivity. Qed.

Lemma appends_lift {A} P (r : result A) : appends P (lift World r).
Proof. apply appends_nothing. reflexivity. Qed.

Lemma appends_ask {A} P (f : World -> A) : appends P (ask World f).
Proof. apply appends_nothing. reflexivity. Qed.

Lemma appends_call {A} P (f : World -> result A * World) :
  appends P (call World f).
Proof.
  apply appends_nothing. intros st. unfold call.
  destruct (f (world st)); reflexivity.
Qed.

Lemma appends_emit (P : event -> Prop) e : P e -> appends P (emit World e).
Proof.
  intros H st. exists [e]. split; [reflexivity | repeat constructor; exact H].
Qed.

Lemma appends_bind {A B} P (m : M A) (f : A -> M B) :
  appends P m -> (forall a, appends P (f a)) -> appends P (bind World m f).
Proof.
  intros Hm Hf st. unfold bind.
  destruct (Hm st) as [evs1 [H1 F1]].
  destruct (m st) as [[a | e] st1]; simpl in H1.
  - destruct (Hf a st1) as [evs2 [H2 F2]].
    exists (evs1 ++ evs2)%list. rewrite H2, H1, app_assoc.
    split; [reflexivity | apply Forall_app; auto].
  - exists evs1. auto.
Qed.

Lemma appends_try_catch {A} P (m : M A) (h : error -> M A) :
  appends P m -> (forall e, appends P (h e)) -> appends P (try_catch World m h).
Proof.
  intros Hm Hh st. unfold try_catch.
  destruct (Hm st) as [evs1 [H1 F1]].
  destruct (m st) as [[a | e] st1]; simpl in H1.
  - exists evs1. auto.
  - destruct (Hh e st1) as [evs2 [H2 F2]].
    exists (evs1 ++ evs2)%list. rewrite H2, H1, app_assoc.
    split; [reflexivity | apply Forall_app; auto].
Qed.

Lemma appends_weaken {A} (P Q : event -> Prop) (m : M A) :
  (forall e, P e -> Q e) -> appends P m -> appends Q m.
Proof.
  intros HPQ Hm st. destruct (Hm st) as [evs [H F]].
  exists evs. split; [exact H |].
  eapply Forall_impl; [| exact F]. exact HPQ.
Qed.

Lemma retry_loop_appends {A} P policy (f : M A) :
  appends P f ->
  (forall n, P (EvAttempt n)) -> (forall s, P (EvSleep s)) ->
  forall remaining n, appends P (retry_loop World policy remaining n f).
Proof.
  intros Hf Ha Hs.
  induction remaining as [| remaining IH]; intros n; simpl;
    (apply appends_try_catch;
     [apply appends_bind; [apply appends_emit, Ha | intros _; exact Hf] |]);
    intros e; destruct (retry_on policy e); try apply appends_throw.
  apply appends_bind; [apply appends_emit, Hs | intros _; apply IH].
Qed.

End MonadFacts.

Lemma count_none p (evs : list event) :
  Forall (fun e => p e = false) evs -> count p evs = 0%nat.
Proof.
  unfold count. induction 1 as [| e evs He _ IH]; simpl.
  - reflexivity.
  - rewrite He. exact IH.
Qed.

Lemma truthy_default_to_null v : truthy (default_to VNull v) = truthy v.
Proof. destruct v; reflexivity. Qed.

(** ** The loader *)

Section LoaderProperties.

Variable World : Type.
Variable yaml_parse : value -> result value.
Variable fs_existsSync : value -> World -> bool.
Variable fs_readFileSync : value -> World -> result value.

Local Notation loadYamlSafely :=
  (loadYamlSafely World yaml_parse fs_existsSync fs_readFileSync).


End LoaderProperties.



(** ** The retry wrapper *)

Lemma waitExponential_bounded n :
  4 <= waitExponential 1 4 10 n <= 10.
Proof.
  unfold waitExponential. generalize (2 ^ (n - 1)). intros p. lia.
Qed.

Lemma count_app p (l1 l2 : list event) :
  count p (l1 ++ l2) = (count p l1 + count p l2)%nat.
Proof. unfold count. rewrite filter_app, length_app. reflexivity. Qed.

Section RetryProperties.

Variables World LLM Agent : Type.
Variable new_Agent : AgentArgs LLM -> World -> result Agent * World.

Local Notation createAgent := (createAgent World LLM Agent new_Agent).
Local Notation createAgentWithRetry :=
  (createAgentWithRetry World LLM Agent new_Agent).
Local Notation retry_loop := (retry_loop World).
Local Notation failures := (failures World LLM Agent new_Agent).

Lemma sleeps_bounded_attempt n name :
  sleeps_bounded [EvAttempt n; EvNewAgent name].
Proof. intros s [H | [H | []]]; discriminate. Qed.

Lemma sleeps_bounded_retry n name evs :
  sleeps_bounded evs ->
  sleeps_bounded ([EvAttempt n; EvNewAgent name;
                   EvSleep (waitExponential 1 4 10 n)] ++ evs).
Proof.
  intros Hb s Hin. apply in_app_or in Hin. destruct Hin as [Hin | Hin].
  - destruct Hin as [H | [H | [H | []]]]; try discriminate.
    inversion H; subst. apply waitExponential_bounded.
  - apply Hb; exact Hin.
Qed.

Lemma retried_counts name k :
  forall n,
    count is_attempt_event (retried name n k) = k
    /\ count is_agent_event (retried name n k) = k
    /\ count is_sleep_event (retried name n k) = k
    /\ sleeps_bounded (retried name n k).
Proof.
  induction k as [| k IH]; intros n.
  - split; [reflexivity |]. split; [reflexivity |]. split; [reflexivity |].
    intros s [].
  - destruct (IH (n + 1)) as [Ha [Hg [Hs Hb]]].
    cbn [retried]. rewrite !count_app, Ha, Hg, Hs.
    split; [reflexivity |]. split; [reflexivity |]. split; [reflexivity |].
    apply sleeps_bounded_retry. exact Hb.
Qed.

Lemma attempts_counts name k :
  count is_attempt_event (attempts name k) = S k
  /\ count is_agent_event (attempts name k) = S k
  /\ count is_sleep_event (attempts name k) = k
  /\ sleeps_bounded (attempts name k).
Proof.
  destruct (retried_counts name k 1) as [Ha [Hg [Hs Hb]]].
  unfold attempts. rewrite !count_app, Ha, Hg, Hs.
  split; [apply Nat.add_1_r |]. split; [apply Nat.add_1_r |].
  split; [apply Nat.add_0_r |].
  intros s Hin. apply in_app_or in Hin. destruct Hin as [Hin | Hin].
  - apply Hb; exact Hin.
  - destruct Hin as [H | [H | []]]; discriminate.
Qed.

Lemma retry_loop_eq {A} policy remaining attempt (f : M World A) :
  retry_loop policy remaining attempt f =
  try_catch World
    (bind World (emit World (EvAttempt attempt)) (fun _ => f))
    (fun e =>
       if retry_on policy e then
         match remaining with
         | O => throw World (exhausted policy e)
         | S remaining' =>
             bind World (emit World (EvSleep (wait policy attempt)))
               (fun _ => retry_loop policy remaining' (attempt + 1) f)
         end
       else throw World e).
Proof. destruct remaining; reflexivity. Qed.

(** One attempt whose configuration validates: the agent runtime is called
    once, and its outcome is the outcome of the attempt. *)
Lemma createAgent_validated node model cfg w tr :
  new_AgentConfig node = Ok cfg ->
  createAgent node model (mkState w tr) =
  (fst (new_Agent (agent_args LLM cfg model) w),
   mkState (snd (new_Agent (agent_args LLM cfg model) w))
           (tr ++ [EvNewAgent (agentName cfg)])).
Proof.
  intros Hcfg. expand createAgent; unfold try_catch, bind, lift, emit, call.
  rewrite Hcfg. simpl.
  destruct (new_Agent (agent_args LLM cfg model) w) as [[a | e] w']; simpl.
  - reflexivity.
  - apply new_AgentConfig_ok_inv in Hcfg. destruct Hcfg as [Hn _].
    rewrite (get_prop_field _ _ Hn). reflexivity.
Qed.

(** One attempt whose configuration does not validate: the error of the
    constructor is thrown and the agent runtime is not called. *)
Lemma createAgent_invalid node model e st :
  new_AgentConfig node = Throw e ->
  createAgent node model st = (Throw e, st).
Proof.
  intros Hcfg. expand createAgent; unfold try_catch, bind, lift.
  rewrite Hcfg.
  destruct (nullish node) eqn:Hn.
  - destruct (get_prop_nullish node "agent_name" Hn) as [m Hm].
    rewrite (new_AgentConfig_nullish _ _ Hm) in Hcfg.
    rewrite Hm. unfold throw. congruence.
  - rewrite (get_prop_field _ _ Hn). reflexivity.
Qed.

Lemma new_AgentConfig_not_transient node e :
  new_AgentConfig node = Throw e -> is_transient e = false.
Proof.
  intros H. destruct (nullish node) eqn:Hn.
  - destruct (get_prop_nullish node "agent_name" Hn) as [m Hm].
    rewrite (new_AgentConfig_nullish _ _ Hm) in H. inversion H. reflexivity.
  - rewrite new_AgentConfig_fields in H by exact Hn.
    destruct (system_prompt_rejected _); inversion H. reflexivity.
Qed.

Section OneNode.

Variables (node : value) (model : LLM) (cfg : AgentConfig).
Hypothesis Hcfg : new_AgentConfig node = Ok cfg.

Let args := agent_args LLM cfg model.
Let policy := agentRetryPolicy node.
Let name := agentName cfg.

Lemma agent_name_of_validated : agent_name_of node = agentName cfg.
Proof.
  destruct (new_AgentConfig_ok_inv _ _ Hcfg) as [Hn ->].
  unfold agent_name_of. rewrite (get_prop_field _ _ Hn). reflexivity.
Qed.

Lemma attempt_succeeds remaining n w tr a w' :
  new_Agent args w = (Ok a, w') ->
  retry_loop policy remaining n (createAgent node model) (mkState w tr)
  = (Ok a, mkState w' (tr ++ [EvAttempt n; EvNewAgent name])).
Proof.
  intros H. rewrite retry_loop_eq. unfold try_catch, bind, emit. simpl.
  rewrite (createAgent_validated _ _ _ _ _ Hcfg). fold args. rewrite H. simpl.
  rewrite <- app_assoc. reflexivity.
Qed.

Lemma attempt_fails_fatally remaining n w tr e w' :
  new_Agent args w = (Throw e, w') -> is_transient e = false ->
  retry_loop policy remaining n (createAgent node model) (mkState w tr)
  = (Throw e, mkState w' (tr ++ [EvAttempt n; EvNewAgent name])).
Proof.
  intros H He. rewrite retry_loop_eq. unfold try_catch, bind, emit. simpl.
  rewrite (createAgent_validated _ _ _ _ _ Hcfg). fold args. rewrite H. simpl.
  rewrite He. rewrite <- app_assoc. reflexivity.
Qed.

Lemma attempt_fails_last n w tr e w' :
  new_Agent args w = (Throw e, w') -> is_transient e = true ->
  retry_loop policy 0 n (createAgent node model) (mkState w tr)
  = (Throw (AgentConstructionError name e),
     mkState w' (tr ++ [EvAttempt n; EvNewAgent name])).
Proof.
  intros H He. rewrite retry_loop_eq. unfold try_catch, bind, emit. simpl.
  rewrite (createAgent_validated _ _ _ _ _ Hcfg). fold args. rewrite H. simpl.
  rewrite He. unfold constructionError.
  rewrite agent_name_of_validated, <- app_assoc. reflexivity.
Qed.

Lemma attempt_fails_retry remaining n w tr e w' :
  new_Agent args w = (Throw e, w') -> is_transient e = true ->
  retry_loop policy (S remaining) n (createAgent node model) (mkState w tr)
  = retry_loop policy remaining (n + 1) (createAgent node model)
      (mkState w' (tr ++ [EvAttempt n; EvNewAgent name;
                          EvSleep (waitExponential 1 4 10 n)])).
Proof.
  intros H He. rewrite retry_loop_eq. unfold try_catch, bind, emit. simpl.
  rewrite (createAgent_validated _ _ _ _ _ Hcfg). fold args. rewrite H. simpl.
  rewrite He. simpl. rewrite <- !app_assoc. reflexivity.
Qed.

(** Transient failures, as many as further attempts are allowed at least:
    each is followed by its sleep and by the next attempt. *)
Lemma retry_loop_retried es :
  forall w w1, failures args es w w1 -> all_transient es ->
  forall remaining n tr,
    retry_loop policy (List.length es + remaining) n (createAgent node model)
      (mkState w tr)
    = retry_loop policy remaining (n + Z.of_nat (List.length es))
        (createAgent node model)
        (mkState w1 (tr ++ retried name n (List.length es))).
Proof.
  induction es as [| e es IH]; intros w w1 Hf Ht remaining n tr.
  - inversion Hf; subst. cbn [List.length retried Nat.add Z.of_nat].
    rewrite Z.add_0_r, app_nil_r. reflexivity.
  - inversion Hf as [| e' es' w' w1' w2' Hstep Hrest]; subst.
    inversion Ht as [| e' es' He Hes]; subst.
    cbn [List.length retried Nat.add].
    rewrite (attempt_fails_retry _ _ _ _ _ _ Hstep He).
    rewrite (IH _ _ Hrest Hes).
    rewrite Nat2Z.inj_succ, <- Z.add_1_l, Z.add_assoc, <- app_assoc.
    reflexivity.
Qed.

(** The whole run, for [k] transient failures with [k] below the bound of
    three attempts: the loop arrives at attempt [k + 1] with [2 - k]
    further attempts allowed. *)
Lemma createAgentWithRetry_retried es w w1 tr :
  failures args es w w1 -> all_transient es -> (List.length es < 3)%nat ->
  retry_loop policy 2 1 (createAgent node model) (mkState w tr)
  = retry_loop policy (2 - List.length es) (1 + Z.of_nat (List.length es))
      (createAgent node model)
      (mkState w1 (tr ++ retried name 1 (List.length es))).
Proof.
  intros Hf Ht Hlt.
  rewrite <- (retry_loop_retried es w w1 Hf Ht).
  replace (List.length es + (2 - List.length es))%nat with 2%nat by lia.
  reflexivity.
Qed.

End OneNode.

Lemma failures_app args es1 es2 w w' :
  failures args (es1 ++ es2) w w' ->
  exists w1, failures args es1 w w1 /\ failures args es2 w1 w'.
Proof.
  revert w. induction es1 as [| e es1 IH]; simpl; intros w H.
  - exists w. split; [constructor | exact H].
  - inversion H as [| e' es' w0 w1 w2 Hstep Hrest]; subst.
    destruct (IH _ Hrest) as [w3 [H1 H2]].
    exists w3. split; [econstructor; eassumption | exact H2].
Qed.

Lemma createAgentWithRetry_unfold node model :
  createAgentWithRetry node model
  = retry_loop (agentRetryPolicy node) 2 1 (createAgent node model).
Proof. reflexivity. Qed.

(** C7: [createAgentWithRetry] makes at most three attempts and retries
    transient failures only, sleeping after each retried attempt for the
    delay of the backoff schedule.  (1) If the agent runtime fails
    transiently [k < 3] times and then succeeds, the build succeeds with
    exactly [k + 1] attempts and [k] sleeps, each between 4 and 10.  (2) If
    it fails transiently three times or more, the build fails after exactly
    three attempts, with the third failure as cause.  (3) A failure of the
    runtime that is not transient, and (4) a validation error of
    [AgentConfig], propagate unchanged from the first attempt; nothing is
    retried.  (5) A failure of the runtime that is not transient propagates
    unchanged from whichever attempt it occurs at: after [k < 3] transient
    failures, the build fails with it after exactly [k + 1] attempts, no
    sleep following it.  In (1), (2) and (5) the events are exactly those of
    [attempts]: every attempt calls the runtime once, and the sleep after
    attempt [n] is [waitExponential 1 4 10 n]. *)
Theorem retry_bound (node : value) (model : LLM) (w : World) (tr : list event) :
  (forall cfg es w1 a w2,
     new_AgentConfig node = Ok cfg ->
     failures (agent_args LLM cfg model) es w w1 -> all_transient es ->
     (List.length es < 3)%nat ->
     new_Agent (agent_args LLM cfg model) w1 = (Ok a, w2) ->
     exists evs,
       createAgentWithRetry node model (mkState w tr)
       = (Ok a, mkState w2 (tr ++ evs))
       /\ count is_attempt_event evs = S (List.length es)
       /\ count is_agent_event evs = S (List.length es)
       /\ count is_sleep_event evs = List.length es
       /\ sleeps_bounded evs
       /\ evs = attempts (agentName cfg) (List.length es))
  /\ (forall cfg es w1,
     new_AgentConfig node = Ok cfg ->
     failures (agent_args LLM cfg model) es w w1 -> all_transient es ->
     (3 <= List.length es)%nat ->
     exists e w3 evs,
       createAgentWithRetry node model (mkState w tr)
       = (Throw (AgentConstructionError (agentName cfg) e),
          mkState w3 (tr ++ evs))
       /\ nth_error es 2 = Some e
       /\ count is_attempt_event evs = 3%nat
       /\ count is_agent_event evs = 3%nat
       /\ count is_sleep_event evs = 2%nat
       /\ sleeps_bounded evs
       /\ evs = attempts (agentName cfg) 2
       /\ failures (agent_args LLM cfg model) (firstn 3 es) w w3)
  /\ (forall cfg e w1,
     new_AgentConfig node = Ok cfg ->
     new_Agent (agent_args LLM cfg model) w = (Throw e, w1) ->
     is_transient e = false ->
     createAgentWithRetry node model (mkState w tr)
     = (Throw e, mkState w1 (tr ++ [EvAttempt 1; EvNewAgent (agentName cfg)])))
  /\ (forall e,
     new_AgentConfig node = Throw e ->
     createAgentWithRetry node model (mkState w tr)
     = (Throw e, mkState w (tr ++ [EvAttempt 1])))
  /\ (forall cfg es w1 e w2,
     new_AgentConfig node = Ok cfg ->
     failures (agent_args LLM cfg model) es w w1 -> all_transient es ->
     (List.length es < 3)%nat ->
     new_Agent (agent_args LLM cfg model) w1 = (Throw e, w2) ->
     is_transient e = false ->
     exists evs,
       createAgentWithRetry node model (mkState w tr)
       = (Throw e, mkState w2 (tr ++ evs))
       /\ count is_attempt_event evs = S (List.length es)
       /\ count is_agent_event evs = S (List.length es)
       /\ count is_sleep_event evs = List.length es
       /\ sleeps_bounded evs
       /\ evs = attempts (agentName cfg) (List.length es)).
Proof.
  rewrite createAgentWithRetry_unfold.
  split; [| split; [| split; [| split]]].
  - intros cfg es w1 a w2 Hcfg Hf Ht Hlt Hok.
    destruct (attempts_counts (agentName cfg) (List.length es))
      as [Ha [Hg [Hs Hb]]].
    exists (attempts (agentName cfg) (List.length es)).
    rewrite (createAgentWithRetry_retried node model cfg Hcfg es w w1 tr Hf Ht Hlt).
    rewrite (attempt_succeeds node model cfg Hcfg _ _ _ _ _ _ Hok).
    unfold attempts at 1. rewrite <- app_assoc. auto 10.
  - intros cfg es w1 Hcfg Hf Ht Hge.
    destruct es as [| e1 [| e2 [| e3 rest]]]; simpl in Hge; try lia.
    change (e1 :: e2 :: e3 :: rest) with (([e1; e2] ++ [e3]) ++ rest)%list
      in Hf, Ht.
    apply failures_app in Hf. destruct Hf as [w3 [Hf _]].
    apply Forall_app in Ht. destruct Ht as [Ht _].
    destruct (failures_app _ _ _ _ _ Hf) as [w2 [Hf2 Hf3]].
    apply Forall_app in Ht. destruct Ht as [Ht2 Ht3].
    inversion Hf3 as [| e' es' w' w1' w2' Hstep Hrest]; subst.
    inversion Hrest; subst.
    inversion Ht3 as [| e' es' He Hes]; subst.
    destruct (attempts_counts (agentName cfg) 2) as [Ha [Hg [Hs Hb]]].
    exists e3, w3, (attempts (agentName cfg) 2).
    rewrite (createAgentWithRetry_retried node model cfg Hcfg [e1; e2] w w2 tr
               Hf2 Ht2 ltac:(apply le_n)).
    cbn [List.length Nat.sub].
    rewrite (attempt_fails_last node model cfg Hcfg _ _ _ _ _ Hstep He).
    unfold attempts at 1. rewrite <- app_assoc.
    split; [reflexivity |]. split; [reflexivity |]. auto 10.
  - intros cfg e w1 Hcfg Hstep He.
    apply (attempt_fails_fatally node model cfg Hcfg); assumption.
  - intros e Hcfg. rewrite retry_loop_eq.
    unfold try_catch, bind, emit. simpl.
    rewrite (createAgent_invalid _ _ _ _ Hcfg).
    rewrite (new_AgentConfig_not_transient _ _ Hcfg). reflexivity.
  - intros cfg es w1 e w2 Hcfg Hf Ht Hlt Hstep He.
    destruct (attempts_counts (agentName cfg) (List.length es))
      as [Ha [Hg [Hs Hb]]].
    exists (attempts (agentName cfg) (List.length es)).
    rewrite (createAgentWithRetry_retried node model cfg Hcfg es w w1 tr Hf Ht Hlt).
    rewrite (attempt_fails_fatally node model cfg Hcfg _ _ _ _ _ _ Hstep He).
    unfold attempts at 1. rewrite <- app_assoc. auto 10.
Qed.

End RetryProperties.

Lemma retry_bound_witness :
  Scripted.run_build Scripted.agentA (VStr "gpt-4o")
    [Some (ConnectionError "reset"); Some (TimeoutError "slow")]
  = (Ok (VStr "A"),
     mkState [] [EvAttempt 1; EvNewAgent (VStr "A"); EvSleep 4;
                 EvAttempt 2; EvNewAgent (VStr "A"); EvSleep 4;
                 EvAttempt 3; EvNewAgent (VStr "A")])
  /\ Scripted.run_build Scripted.agentA (VStr "gpt-4o")
       [Some (ConnectionError "reset"); Some (TimeoutError "slow");
        Some (ConnectionError "down"); None]
     = (Throw (AgentConstructionError (VStr "A") (ConnectionError "down")),
        mkState [None]
                [EvAttempt 1; EvNewAgent (VStr "A"); EvSleep 4;
                 EvAttempt 2; EvNewAgent (VStr "A"); EvSleep 4;
                 EvAttempt 3; EvNewAgent (VStr "A")])
  /\ Scripted.run_build Scripted.agentA (VStr "gpt-4o") [Some (Error "boom")]
     = (Throw (Error "boom"), mkState [] [EvAttempt 1; EvNewAgent (VStr "A")])
  /\ Scripted.run_build (VObj [("agent_name", VStr "A")]) (VStr "gpt-4o") []
     = (Throw (Error "System prompt must be a non-empty string"),
        mkState [] [EvAttempt 1])
  /\ Scripted.run_build Scripted.agentA (VStr "gpt-4o")
       [Some (ConnectionError "reset"); Some (Error "boom"); Some (Error "bug")]
     = (Throw (Error "boom"),
        mkState [Some (Error "bug")]
                [EvAttempt 1; EvNewAgent (VStr "A"); EvSleep 4;
                 EvAttempt 2; EvNewAgent (VStr "A")]).
Proof.
  split; [| split; [| split; [| split]]].
  - destruct (proj1 (retry_bound Scripted.World Scripted.LLM Scripted.Agent
                       Scripted.new_Agent Scripted.agentA (VStr "gpt-4o")
                       [Some (ConnectionError "reset"); Some (TimeoutError "slow")]
                       [])
                (agent_config_of Scripted.agentA)
                [ConnectionError "reset"; TimeoutError "slow"]
                [] (VStr "A") [])
      as [evs [Hrun [_ [_ [_ [_ Hevs]]]]]].
    + reflexivity.
    + repeat econstructor.
    + repeat constructor.
    + simpl. apply le_n.
    + reflexivity.
    + rewrite Hevs in Hrun. exact Hrun.
  - destruct (proj1 (proj2 (retry_bound Scripted.World Scripted.LLM
                       Scripted.Agent Scripted.new_Agent Scripted.agentA
                       (VStr "gpt-4o")
                       [Some (ConnectionError "reset"); Some (TimeoutError "slow");
                        Some (ConnectionError "down"); None]
                       []))
                (agent_config_of Scripted.agentA)
                [ConnectionError "reset"; TimeoutError "slow";
                 ConnectionError "down"]
                [None])
      as [e [w3 [evs [Hrun [Hnth [_ [_ [_ [_ [Hevs _]]]]]]]]]].
    + reflexivity.
    + repeat econstructor.
    + repeat constructor.
    + simpl. apply le_n.
    + pose proof (f_equal (fun p => world (snd p)) Hrun) as Hw.
      vm_compute in Hw. subst w3.
      cbn in Hnth. injection Hnth as <-.
      rewrite Hevs in Hrun. exact Hrun.
  - apply (proj1 (proj2 (proj2 (retry_bound Scripted.World Scripted.LLM
                       Scripted.Agent Scripted.new_Agent Scripted.agentA
                       (VStr "gpt-4o") [Some (Error "boom")] [])))
             (agent_config_of Scripted.agentA) (Error "boom") []);
      reflexivity.
  - apply (proj1 (proj2 (proj2 (proj2 (retry_bound Scripted.World Scripted.LLM
                       Scripted.Agent Scripted.new_Agent
                       (VObj [("agent_name", VStr "A")])
                       (VStr "gpt-4o") [] []))))
             (Error "System prompt must be a non-empty string")).
    reflexivity.
  - destruct (proj2 (proj2 (proj2 (proj2 (retry_bound Scripted.World
                       Scripted.LLM Scripted.Agent Scripted.new_Agent
                       Scripted.agentA (VStr "gpt-4o")
                       [Some (ConnectionError "reset"); Some (Error "boom");
                        Some (Error "bug")]
                       []))))
                (agent_config_of Scripted.agentA)
                [ConnectionError "reset"]
                [Some (Error "boom"); Some (Error "bug")]
                (Error "boom") [Some (Error "bug")])
      as [evs [Hrun [_ [_ [_ [_ Hevs]]]]]].
    + reflexivity.
    + repeat econstructor.
    + repeat constructor.
    + simpl. apply Nat.lt_1_2 || (repeat constructor).
    + reflexivity.
    + reflexivity.
    + rewrite Hevs in Hrun. exact Hrun.
Defined.

(** ** The pipeline *)

Section PipelineProperties.

Variables World LLM Agent SwarmRouter Output : Type.
Variable yaml_parse : value -> result value.
Variable fs_existsSync : value -> World -> bool.
Variable fs_readFileSync : value -> World -> result value.
Variable new_LiteLLM : value -> World -> result LLM * World.
Variable new_Agent : AgentArgs LLM -> World -> result Agent * World.
Variable new_SwarmRouter :
  SwarmRouterArgs Agent -> World -> result SwarmRouter * World.
Variable SwarmRouter_run :
  SwarmRouter -> value -> World -> result Output * World.

Local Notation loadYamlSafely :=
  (loadYamlSafely World yaml_parse fs_existsSync fs_readFileSync).
Local Notation createAgentWithRetry :=
  (createAgentWithRetry World LLM Agent new_Agent).
Local Notation buildAgent := (buildAgent World LLM Agent new_LiteLLM new_Agent).
Local Notation buildAgents := (buildAgents World LLM Agent new_LiteLLM new_Agent).
Local Notation buildRouter := (buildRouter World Agent SwarmRouter new_SwarmRouter).
Local Notation selectResult :=
  (selectResult World Agent SwarmRouter Output SwarmRouter_run).
Local Notation createAgentsFromYaml :=
  (createAgentsFromYaml World LLM Agent SwarmRouter Output
     yaml_parse fs_existsSync fs_readFileSync
     new_LiteLLM new_Agent new_SwarmRouter SwarmRouter_run).
Local Notation retval := (retval Agent SwarmRouter Output).
Local Notation load := (load World yaml_parse fs_existsSync fs_readFileSync).
Local Notation built := (built World LLM Agent new_LiteLLM new_Agent).

(** *** The loader reads and checks, and changes nothing *)

Lemma loadYamlSafely_state yamlFile yamlString st :
  snd (loadYamlSafely yamlFile yamlString st) = st.
Proof.
  expand loadYamlSafely; unfold try_catch, bind, lift, ask, throw, ret.
  repeat match goal with
         | |- context [if ?b then _ else _] => destruct b
         | |- context [match ?r with Ok _ => _ | Throw _ => _ end] => destruct r
         end; reflexivity.
Qed.

Lemma loadYamlSafely_ok_inv yamlFile yamlString st config st' :
  loadYamlSafely yamlFile yamlString st = (Ok config, st') ->
  st' = st
  /\ exists nodes, get_prop config "agents" = Ok (VArr nodes) /\ nodes <> [].
Proof.
  intros H. split.
  - pose proof (loadYamlSafely_state yamlFile yamlString st) as Hs.
    rewrite H in Hs. exact Hs.
  - revert H.
    expand loadYamlSafely; unfold try_catch.
    match goal with |- context [bind ?W ?m ?f st] =>
      destruct (bind W m f st) as [[c | e] st1] eqn:E end;
      [| unfold throw; discriminate].
    intros H. inversion H; subst. clear H.
    apply bind_ok_inv in E. destruct E as [c [st2 [_ E]]].
    apply bind_ok_inv in E. destruct E as [agents [st3 [Ha E]]].
    unfold lift in Ha. inversion Ha; subst. clear Ha.
    destruct (negb (truthy agents) || negb (isArray agents)
              || (array_length agents <? 1)) eqn:Hc;
      [unfold throw in E; discriminate |].
    unfold ret in E. inversion E; subst. clear E.
    apply orb_false_elim in Hc. destruct Hc as [Hc Hlen].
    apply orb_false_elim in Hc. destruct Hc as [_ Harr].
    destruct agents as [| | b | n | s | items | fields]; try discriminate.
    exists items. split; [assumption |].
    intros ->. simpl in Hlen. discriminate.
Qed.

(** *** What the construction phases add to the trace *)

Lemma createAgentWithRetry_appends node model :
  appends World (fun e => is_attempt_work e = true)
    (createAgentWithRetry node model).
Proof.
  expand createAgentWithRetry; unfold retry.
  apply retry_loop_appends; try reflexivity.
  unfold createAgent. apply appends_try_catch.
  - apply appends_bind; [apply appends_lift |]. intros cfg.
    apply appends_bind; [apply appends_emit; reflexivity |]. intros _.
    apply appends_call.
  - intros e. apply appends_bind; [apply appends_lift |]. intros _.
    apply appends_throw.
Qed.

Lemma buildAgent_appends (P : event -> Prop) node :
  (forall m, P (EvNewLiteLLM m)) ->
  (forall e, is_attempt_work e = true -> P e) ->
  appends World P (buildAgent node).
Proof.
  intros Hb Hw. expand buildAgent.
  apply appends_bind; [apply appends_lift |]. intros _.
  apply appends_bind; [apply appends_lift |]. intros model_name.
  apply appends_bind; [apply appends_emit, Hb |]. intros _.
  apply appends_bind; [apply appends_call |]. intros modelInstance.
  apply appends_bind.
  - eapply appends_weaken; [exact Hw | apply createAgentWithRetry_appends].
  - intros agent. apply appends_bind; [apply appends_lift |]. intros _.
    apply appends_ret.
Qed.

Lemma buildAgents_appends (P : event -> Prop) nodes :
  (forall m, P (EvNewLiteLLM m)) ->
  (forall e, is_attempt_work e = true -> P e) ->
  forall agents, appends World P (buildAgents nodes agents).
Proof.
  intros Hb Hw. induction nodes as [| node nodes IH]; intros agents; simpl.
  - apply appends_ret.
  - apply appends_bind; [apply buildAgent_appends; assumption |].
    intros agent. apply IH.
Qed.

Lemma buildRouter_appends (P : event -> Prop) config agents :
  (forall t, P (EvNewSwarmRouter t)) ->
  appends World P (buildRouter config agents).
Proof.
  intros Hr. expand buildRouter.
  apply appends_bind; [apply appends_lift |]. intros sa.
  destruct (truthy sa); [| apply appends_ret].
  apply appends_bind; [apply appends_lift |]. intros swarmConfig.
  apply appends_bind; [apply appends_emit, Hr |]. intros _.
  apply appends_bind; [apply appends_call |]. intros r.
  apply appends_ret.
Qed.

Lemma attempt_work_not_backend e :
  is_attempt_work e = true -> is_backend_event e = false.
Proof. destruct e; simpl; congruence. Qed.

Lemma attempt_work_not_router e :
  is_attempt_work e = true -> is_router_event e = false.
Proof. destruct e; simpl; congruence. Qed.

(** One pass of the loop body instantiates exactly one model backend. *)
Lemma buildAgent_backend node st a st' :
  buildAgent node st = (Ok a, st') ->
  exists evs,
    trace st' = (trace st ++ evs)%list /\ count is_backend_event evs = 1%nat.
Proof.
  expand buildAgent. intros H.
  apply bind_ok_inv in H. destruct H as [v1 [s1 [H1 H]]].
  unfold lift in H1. injection H1 as _ <-.
  apply bind_ok_inv in H. destruct H as [model_name [s2 [H2 H]]].
  unfold lift in H2. injection H2 as _ <-.
  apply bind_ok_inv in H. destruct H as [u [s3 [H3 H]]].
  unfold emit in H3. injection H3 as _ <-.
  apply bind_ok_inv in H. destruct H as [m [s4 [H4 H]]].
  apply bind_ok_inv in H. destruct H as [agent [s5 [H5 H]]].
  apply bind_ok_inv in H. destruct H as [v6 [s6 [H6 H]]].
  unfold lift in H6. injection H6 as _ <-.
  unfold ret in H. injection H as <- <-.
  pose proof (appends_call World (fun _ => False) (new_LiteLLM
                (js_or model_name (VStr "gpt-4o")))
                (mkState (world st)
                   (trace st ++ [EvNewLiteLLM (js_or model_name (VStr "gpt-4o"))])))
    as [evs4 [T4 F4]].
  rewrite H4 in T4. simpl in T4.
  destruct evs4 as [| x evs4]; [| inversion F4; contradiction].
  rewrite app_nil_r in T4.
  destruct (createAgentWithRetry_appends node m s4) as [evs5 [T5 F5]].
  rewrite H5 in T5. simpl in T5.
  exists (EvNewLiteLLM (js_or model_name (VStr "gpt-4o")) :: evs5).
  rewrite T5, T4, <- app_assoc. split; [reflexivity |].
  change (EvNewLiteLLM (js_or model_name (VStr "gpt-4o")) :: evs5)
    with ([EvNewLiteLLM (js_or model_name (VStr "gpt-4o"))] ++ evs5)%list.
  rewrite count_app, (count_none is_backend_event evs5); [reflexivity |].
  eapply Forall_impl; [| exact F5]. exact attempt_work_not_backend.
Qed.

(** The loop pushes one agent per node, in the order of the nodes, and
    instantiates one model backend per node. *)
Lemma buildAgents_ok_inv nodes :
  forall agents st ags st',
    buildAgents nodes agents st = (Ok ags, st') ->
    exists new evs,
      ags = (agents ++ new)%list
      /\ Forall2 built nodes new
      /\ trace st' = (trace st ++ evs)%list
      /\ count is_backend_event evs = List.length nodes.
Proof.
  induction nodes as [| node nodes IH]; intros agents st ags st' H; simpl in H.
  - unfold ret in H. inversion H; subst.
    exists [], []. rewrite !app_nil_r. repeat split. constructor.
  - apply bind_ok_inv in H. destruct H as [a [st1 [Ha H]]].
    apply IH in H. destruct H as [new [evs [E [F [T C]]]]].
    destruct (buildAgent_backend _ _ _ _ Ha) as [evs1 [T1 C1]].
    exists (a :: new), (evs1 ++ evs)%list.
    rewrite E, <- app_assoc. split; [reflexivity |].
    split; [constructor; [exists st, st1; exact Ha | exact F] |].
    rewrite T, T1, <- app_assoc. split; [reflexivity |].
    rewrite count_app, C1, C. reflexivity.
Qed.

Lemma buildAgents_app pre rest agents st :
  buildAgents (pre ++ rest) agents st
  = bind World (buildAgents pre agents) (fun ags => buildAgents rest ags) st.
Proof.
  revert agents st. induction pre as [| node pre IH]; intros agents st; simpl.
  - reflexivity.
  - unfold bind.
    destruct (buildAgent node st) as [[a | e] st1]; [| reflexivity].
    rewrite IH. reflexivity.
Qed.

(** *** The pipeline by phases *)

Lemma pipeline_loaded options st config st0 nodes :
  load options st = (Ok config, st0) ->
  get_prop config "agents" = Ok (VArr nodes) ->
  createAgentsFromYaml options st
  = bind World (buildAgents nodes [])
      (fun agents =>
         bind World (buildRouter config agents)
           (fun swarmRouter =>
              if negb (set_has validReturnTypes (requested options))
              then throw World return_type_error
              else selectResult (requested options) config swarmRouter agents))
      st0.
Proof.
  intros Hload Hnodes. expand createAgentsFromYaml.
  rewrite rethrow. expand load in Hload.
  rewrite (bind_ok _ _ _ _ _ _ Hload).
  erewrite bind_ok; [reflexivity |].
  unfold lift. rewrite Hnodes. reflexivity.
Qed.

Lemma pipeline_constructed options st config st0 nodes ags st1 router st2 :
  load options st = (Ok config, st0) ->
  get_prop config "agents" = Ok (VArr nodes) ->
  buildAgents nodes [] st0 = (Ok ags, st1) ->
  buildRouter config ags st1 = (Ok router, st2) ->
  createAgentsFromYaml options st
  = (if negb (set_has validReturnTypes (requested options))
     then throw World return_type_error
     else selectResult (requested options) config router ags) st2.
Proof.
  intros Hload Hnodes Hags Hrouter.
  rewrite (pipeline_loaded _ _ _ _ _ Hload Hnodes).
  rewrite (bind_ok _ _ _ _ _ _ Hags).
  rewrite (bind_ok _ _ _ _ _ _ Hrouter). reflexivity.
Qed.

Lemma pipeline_ok_inv options st v st' :
  createAgentsFromYaml options st = (Ok v, st') ->
  exists config nodes ags st1 router st2,
    load options st = (Ok config, st)
    /\ get_prop config "agents" = Ok (VArr nodes)
    /\ buildAgents nodes [] st = (Ok ags, st1)
    /\ buildRouter config ags st1 = (Ok router, st2)
    /\ set_has validReturnTypes (requested options) = true
    /\ selectResult (requested options) config router ags st2 = (Ok v, st').
Proof.
  expand createAgentsFromYaml. rewrite rethrow. intros H.
  apply bind_ok_inv in H. destruct H as [config [st0 [Hload H]]].
  fold (load options) in Hload.
  destruct (loadYamlSafely_ok_inv _ _ _ _ _ Hload) as [-> [nodes [Hnodes _]]].
  apply bind_ok_inv in H. destruct H as [nodes' [s1 [Hn H]]].
  unfold lift in Hn. rewrite Hnodes in Hn. simpl in Hn.
  injection Hn as <- <-.
  apply bind_ok_inv in H. destruct H as [ags [st1 [Hags H]]].
  apply bind_ok_inv in H. destruct H as [router [st2 [Hrouter H]]].
  fold (requested options) in H.
  destruct (set_has validReturnTypes (requested options)) eqn:Hrt;
    [| unfold throw in H; discriminate].
  exists config, nodes, ags, st1, router, st2. auto 10.
Qed.

(** *** The return types *)

(** C10: with [returnType: "tasks"] the call returns the empty array, and
    nothing else: whenever the document loads, its agents are built and its
    router (if declared) is constructed, the result is [[]]; and no call
    with this return type ever returns anything else. *)
Theorem tasks_returns_empty options st :
  requested options = VStr "tasks" ->
  (forall config st0 nodes ags st1 router st2,
     load options st = (Ok config, st0) ->
     get_prop config "agents" = Ok (VArr nodes) ->
     buildAgents nodes [] st0 = (Ok ags, st1) ->
     buildRouter config ags st1 = (Ok router, st2) ->
     createAgentsFromYaml options st = (Ok (RArray []), st2))
  /\ (forall v st', createAgentsFromYaml options st = (Ok v, st') ->
                    v = RArray []).
Proof.
  intros Hrt. split.
  - intros config st0 nodes ags st1 router st2 Hload Hnodes Hags Hrouter.
    rewrite (pipeline_constructed _ _ _ _ _ _ _ _ _ Hload Hnodes Hags Hrouter).
    rewrite Hrt. reflexivity.
  - intros v st' H. apply pipeline_ok_inv in H.
    destruct H as [config [nodes [ags [st1 [router [st2 H]]]]]].
    destruct H as [_ [_ [_ [_ [_ H]]]]].
    rewrite Hrt in H. expand selectResult in H. simpl in H.
    unfold ret in H. congruence.
Qed.

(** C9: once the agents of the document are built, (1) [returnType]
    "swarm" or "run_swarm" on a document without [swarm_architecture] fails
    with "Cannot run swarm: SwarmRouter not created."; (2) [returnType]
    "agents" returns the one agent itself when the document declares exactly
    one, and otherwise the array of all agents, one per declared node and in
    the order of declaration. *)
Theorem return_type_contract options st config st0 nodes ags st1 :
  load options st = (Ok config, st0) ->
  get_prop config "agents" = Ok (VArr nodes) ->
  buildAgents nodes [] st0 = (Ok ags, st1) ->
  ((requested options = VStr "swarm" \/ requested options = VStr "run_swarm") ->
   field config "swarm_architecture" = VUndefined ->
   createAgentsFromYaml options st
   = (Throw (Error "Cannot run swarm: SwarmRouter not created."), st1))
  /\ (requested options = VStr "agents" ->
      forall router st2,
        buildRouter config ags st1 = (Ok router, st2) ->
        Forall2 built nodes ags
        /\ (forall node, nodes = [node] ->
            exists a, ags = [a]
                      /\ createAgentsFromYaml options st = (Ok (RAgent a), st2))
        /\ (List.length nodes <> 1%nat ->
            createAgentsFromYaml options st
            = (Ok (RArray (map RAgent ags)), st2))).
Proof.
  intros Hload Hnodes Hags.
  destruct (buildAgents_ok_inv _ _ _ _ _ Hags) as [new [evs [E [F _]]]].
  simpl in E. subst new.
  split.
  - intros Hrt Hsa.
    assert (Hrouter : buildRouter config ags st1 = (Ok None, st1)).
    { expand buildRouter.
      destruct (get_prop_ok_inv _ _ _ Hnodes) as [Hn _].
      rewrite (get_prop_field _ _ Hn), Hsa. reflexivity. }
    rewrite (pipeline_constructed _ _ _ _ _ _ _ _ _ Hload Hnodes Hags Hrouter).
    destruct Hrt as [-> | ->]; reflexivity.
  - intros Hrt router st2 Hrouter.
    rewrite (pipeline_constructed _ _ _ _ _ _ _ _ _ Hload Hnodes Hags Hrouter).
    rewrite Hrt. split; [exact F |].
    change ((if negb (set_has validReturnTypes (VStr "agents"))
             then throw World return_type_error
             else selectResult (VStr "agents") config router ags) st2)
      with (@Ok retval (one_or_all Agent SwarmRouter Output ags), st2).
    split.
    + intros node ->. inversion F as [| n a ns as' Hb F']; subst.
      inversion F'; subst. exists a. split; reflexivity.
    + intros Hlen.
      destruct ags as [| a [| b ags]]; try reflexivity.
      exfalso. apply Hlen. inversion F as [| n a' ns as' Hb F']; subst.
      inversion F'; subst. reflexivity.
Qed.

(** *** All or nothing *)

(** C6: when the construction of one agent of the document fails, the
    agents before it having been built, the call throws that failure: it
    returns no agent list, no router and no other result. *)
Theorem all_or_nothing options st config st0 pre node post ags st1 e st2 :
  load options st = (Ok config, st0) ->
  get_prop config "agents" = Ok (VArr (pre ++ node :: post)) ->
  buildAgents pre [] st0 = (Ok ags, st1) ->
  buildAgent node st1 = (Throw e, st2) ->
  createAgentsFromYaml options st = (Throw e, st2).
Proof.
  intros Hload Hnodes Hpre Hnode.
  rewrite (pipeline_loaded _ _ _ _ _ Hload Hnodes).
  apply bind_throw. rewrite buildAgents_app.
  rewrite (bind_ok _ _ _ _ _ _ Hpre). simpl.
  apply bind_throw. exact Hnode.
Qed.

(** The loop body fails as soon as [createAgentWithRetry] does, whether the
    retries are exhausted or the failure is not retried. *)
Lemma buildAgent_retry_failure node st m w e st' :
  nullish node = false ->
  new_LiteLLM (js_or (field node "model_name") (VStr "gpt-4o")) (world st)
  = (Ok m, w) ->
  createAgentWithRetry node m
    (mkState w (trace st
                ++ [EvNewLiteLLM (js_or (field node "model_name") (VStr "gpt-4o"))]))
  = (Throw e, st') ->
  buildAgent node st = (Throw e, st').
Proof.
  intros Hn Hm Hr. expand buildAgent.
  unfold bind at 1, lift at 1. rewrite (get_prop_field _ _ Hn).
  unfold bind at 1, lift at 1. rewrite (get_prop_field _ _ Hn).
  unfold bind at 1, emit at 1.
  unfold bind at 1, call at 1. simpl. rewrite Hm.
  apply bind_throw. exact Hr.
Qed.

(** *** Failures that come after construction *)

Lemma buildRouter_unrecognized config ags st sa :
  get_prop config "swarm_architecture" = Ok sa ->
  truthy sa = true ->
  ~ recognized_swarm_type (field sa "swarm_type") ->
  buildRouter config ags st = (Throw swarm_type_error, st).
Proof.
  intros Hsa Ht Hbad. expand buildRouter.
  unfold bind at 1, lift at 1. rewrite Hsa, Ht.
  apply bind_throw. unfold lift. f_equal.
  assert (Hn : nullish sa = false) by (destruct sa; try reflexivity; discriminate).
  rewrite new_SwarmConfig_fields by exact Hn.
  destruct (set_has validTypes (field sa "swarm_type")) eqn:Hs; [| reflexivity].
  exfalso. apply Hbad. apply set_has_validTypes. exact Hs.
Qed.

(** C2, amended: a document whose [swarm_architecture] carries an
    unrecognized [swarm_type] makes the call fail without a router being
    constructed or run, but the failure comes after the agent loop: when the
    agents of the document are built, one model backend has been
    instantiated per agent by the time the swarm-type error is thrown. *)
Theorem unrecognized_swarm_type_fails options st config st0 sa :
  load options st = (Ok config, st0) ->
  get_prop config "swarm_architecture" = Ok sa ->
  truthy sa = true ->
  ~ recognized_swarm_type (field sa "swarm_type") ->
  (exists e evs,
     fst (createAgentsFromYaml options st) = Throw e
     /\ trace (snd (createAgentsFromYaml options st)) = (trace st ++ evs)%list
     /\ count is_router_event evs = 0%nat)
  /\ (forall nodes ags st1,
     get_prop config "agents" = Ok (VArr nodes) ->
     buildAgents nodes [] st0 = (Ok ags, st1) ->
     createAgentsFromYaml options st = (Throw swarm_type_error, st1)
     /\ exists evs,
          trace st1 = (trace st ++ evs)%list
          /\ count is_backend_event evs = List.length nodes
          /\ nodes <> []).
Proof.
  intros Hload Hsa Ht Hbad.
  destruct (loadYamlSafely_ok_inv _ _ _ _ _ Hload) as [-> [nodes [Hnodes Hne]]].
  assert (Hlate : forall ags st1,
             buildAgents nodes [] st = (Ok ags, st1) ->
             createAgentsFromYaml options st = (Throw swarm_type_error, st1)).
  { intros ags st1 Hags.
    rewrite (pipeline_loaded _ _ _ _ _ Hload Hnodes).
    rewrite (bind_ok _ _ _ _ _ _ Hags).
    apply bind_throw. apply (buildRouter_unrecognized _ _ _ _ Hsa Ht Hbad). }
  split.
  - destruct (buildAgents_appends (fun e => is_router_event e = false) nodes
                (fun _ => eq_refl) attempt_work_not_router [] st)
      as [evs [T F]].
    destruct (buildAgents nodes [] st) as [[ags | e] st1] eqn:Hags.
    + exists swarm_type_error, evs. rewrite (Hlate _ _ eq_refl).
      split; [reflexivity |]. split; [exact T | apply count_none, F].
    + exists e, evs.
      rewrite (pipeline_loaded _ _ _ _ _ Hload Hnodes).
      rewrite (bind_throw _ _ _ _ _ _ Hags).
      split; [reflexivity |]. split; [exact T | apply count_none, F].
  - intros nodes' ags st1 Hnodes' Hags.
    rewrite Hnodes in Hnodes'. injection Hnodes' as <-.
    split; [apply (Hlate _ _ Hags) |].
    destruct (buildAgents_ok_inv _ _ _ _ _ Hags) as [new [evs [_ [_ [T C]]]]].
    exists evs. auto.
Qed.

(** C3, amended: a call with a [returnType] outside {auto, swarm, agents,
    both, tasks, run_swarm} always fails, but the check comes after
    construction: when the document loads, its agents are built and its
    router (if declared) is constructed, the unsupported-return-type error
    is thrown in the state reached by then, one model backend having been
    instantiated per agent. *)
Theorem invalid_return_type_fails options st :
  set_has validReturnTypes (requested options) = false ->
  (exists e, fst (createAgentsFromYaml options st) = Throw e)
  /\ (forall config st0 nodes ags st1 router st2,
     load options st = (Ok config, st0) ->
     get_prop config "agents" = Ok (VArr nodes) ->
     buildAgents nodes [] st0 = (Ok ags, st1) ->
     buildRouter config ags st1 = (Ok router, st2) ->
     createAgentsFromYaml options st
     = (Throw (Error ("Invalid return_type. Must be one of: "
                      ++ "auto, swarm, agents, both, tasks, run_swarm")), st2)
     /\ exists evs,
          trace st2 = (trace st ++ evs)%list
          /\ count is_backend_event evs = List.length nodes
          /\ nodes <> []).
Proof.
  intros Hrt. split.
  - destruct (createAgentsFromYaml options st) as [[v | e] st'] eqn:H.
    + apply pipeline_ok_inv in H.
      destruct H as [config [nodes [ags [st1 [router [st2 H]]]]]].
      destruct H as [_ [_ [_ [_ [H _]]]]]. congruence.
    + exists e. reflexivity.
  - intros config st0 nodes ags st1 router st2 Hload Hnodes Hags Hrouter.
    rewrite (pipeline_constructed _ _ _ _ _ _ _ _ _ Hload Hnodes Hags Hrouter).
    rewrite Hrt. split; [reflexivity |].
    destruct (loadYamlSafely_ok_inv _ _ _ _ _ Hload) as [-> [nodes' [Hn' Hne]]].
    rewrite Hnodes in Hn'. injection Hn' as <-.
    destruct (buildAgents_ok_inv _ _ _ _ _ Hags) as [new [evs [_ [_ [T C]]]]].
    destruct (buildRouter_appends (fun e => is_backend_event e = false)
                config ags (fun _ => eq_refl) st1) as [evs2 [T2 F2]].
    rewrite Hrouter in T2. simpl in T2.
    exists (evs ++ evs2)%list. rewrite T2, T, <- app_assoc.
    split; [reflexivity |]. split; [| exact Hne].
    rewrite count_app, C, (count_none _ _ F2). lia.
Qed.

End PipelineProperties.

(** ** The pipeline on concrete documents *)

Local Notation scripted thm doc :=
  (thm Scripted.World Scripted.LLM Scripted.Agent Scripted.SwarmRouter
       Scripted.Output (Scripted.yaml_parse doc) Scripted.fs_existsSync
       Scripted.fs_readFileSync Scripted.new_LiteLLM Scripted.new_Agent
       Scripted.new_SwarmRouter Scripted.SwarmRouter_run).

(** C2, as stated, fails: on a document with two agents and
    [swarm_type: "Bogus"] the call throws the swarm-type error only after
    two model backends have been instantiated and both agents constructed. *)
Lemma unrecognized_swarm_type_counterexample :
  let r := Scripted.run_pipeline (Scripted.doc_swarm "Bogus")
             (Scripted.opts (VStr "doc") (VStr "auto")) [] in
  fst r = Throw swarm_type_error
  /\ trace (snd r)
     = [EvNewLiteLLM (VStr "gpt-4o"); EvAttempt 1; EvNewAgent (VStr "A");
        EvNewLiteLLM (VStr "gpt-4"); EvAttempt 1; EvNewAgent (VStr "B")]
  /\ count is_backend_event (trace (snd r)) = 2%nat
  /\ count is_agent_event (trace (snd r)) = 2%nat.
Proof. repeat split. Qed.

Lemma unrecognized_swarm_type_fails_witness :
  exists st1,
    Scripted.run_pipeline (Scripted.doc_swarm "Bogus")
      (Scripted.opts (VStr "doc") (VStr "auto")) []
    = (Throw swarm_type_error, st1)
    /\ exists evs, trace st1 = evs /\ count is_backend_event evs = 2%nat.
Proof.
  eexists.
  destruct (proj2 (scripted unrecognized_swarm_type_fails
                     (Scripted.doc_swarm "Bogus")
                     (Scripted.opts (VStr "doc") (VStr "auto")) (mkState [] [])
                     (Scripted.doc_swarm "Bogus") (mkState [] [])
                     (VObj [("name", VStr "S"); ("swarm_type", VStr "Bogus");
                            ("task", VStr "T")])
                     eq_refl eq_refl eq_refl
                     (fun H => match H with
                               | or_introl E => ltac:(discriminate E)
                               | or_intror (or_introl E) => ltac:(discriminate E)
                               | or_intror (or_intror (or_introl E)) =>
                                   ltac:(discriminate E)
                               | or_intror (or_intror (or_intror (or_introl E))) =>
                                   ltac:(discriminate E)
                               | or_intror (or_intror (or_intror (or_intror E))) =>
                                   ltac:(discriminate E)
                               end))
                [Scripted.agentA; Scripted.agentB] _ _ eq_refl eq_refl)
    as [Hrun [evs [T [C _]]]].
  split; [exact Hrun |].
  exists evs. split; [exact T | exact C].
Defined.

(** C3, as stated, fails: with [returnType: "bogus"] on a valid document
    the unsupported-return-type error is thrown only after two model
    backends have been instantiated, both agents built and the router
    constructed. *)
Lemma invalid_return_type_counterexample :
  let r := Scripted.run_pipeline (Scripted.doc_swarm "ConcurrentWorkflow")
             (Scripted.opts (VStr "doc") (VStr "bogus")) [] in
  set_has validReturnTypes (VStr "bogus") = false
  /\ fst r = Throw return_type_error
  /\ trace (snd r)
     = [EvNewLiteLLM (VStr "gpt-4o"); EvAttempt 1; EvNewAgent (VStr "A");
        EvNewLiteLLM (VStr "gpt-4"); EvAttempt 1; EvNewAgent (VStr "B");
        EvNewSwarmRouter (VStr "ConcurrentWorkflow")]
  /\ count is_construction_event (trace (snd r)) = 7%nat.
Proof. repeat split. Qed.

Lemma invalid_return_type_fails_witness :
  exists st2,
    Scripted.run_pipeline (Scripted.doc_swarm "ConcurrentWorkflow")
      (Scripted.opts (VStr "doc") (VStr "bogus")) []
    = (Throw return_type_error, st2).
Proof.
  eexists.
  eapply (proj2 (scripted invalid_return_type_fails
                   (Scripted.doc_swarm "ConcurrentWorkflow")
                   (Scripted.opts (VStr "doc") (VStr "bogus")) (mkState [] [])
                   eq_refl));
    reflexivity.
Defined.

Lemma tasks_returns_empty_witness :
  exists st2,
    Scripted.run_pipeline (Scripted.doc_swarm "ConcurrentWorkflow")
      (Scripted.opts (VStr "doc") (VStr "tasks")) []
    = (Ok (RArray []), st2).
Proof.
  eexists.
  eapply (proj1 (scripted tasks_returns_empty
                   (Scripted.doc_swarm "ConcurrentWorkflow")
                   (Scripted.opts (VStr "doc") (VStr "tasks")) (mkState [] [])
                   eq_refl));
    reflexivity.
Defined.

Lemma return_type_contract_witness :
  (exists st1,
     Scripted.run_pipeline Scripted.doc_two
       (Scripted.opts (VStr "doc") (VStr "swarm")) []
     = (Throw (Error "Cannot run swarm: SwarmRouter not created."), st1))
  /\ (exists a st2,
     Scripted.run_pipeline Scripted.doc_one
       (Scripted.opts (VStr "doc") (VStr "agents")) []
     = (Ok (RAgent a), st2))
  /\ (exists ags st2,
     Scripted.run_pipeline Scripted.doc_two
       (Scripted.opts (VStr "doc") (VStr "agents")) []
     = (Ok (RArray (map RAgent ags)), st2)
     /\ List.length ags = 2%nat).
Proof.
  split; [| split].
  - eexists.
    eapply (proj1 (scripted return_type_contract Scripted.doc_two
                     (Scripted.opts (VStr "doc") (VStr "swarm")) (mkState [] [])
                     Scripted.doc_two (mkState [] [])
                     [Scripted.agentA; Scripted.agentB] _ _
                     eq_refl eq_refl eq_refl)).
    + left. reflexivity.
    + reflexivity.
  - destruct (proj2 (scripted return_type_contract Scripted.doc_one
                     (Scripted.opts (VStr "doc") (VStr "agents")) (mkState [] [])
                     Scripted.doc_one (mkState [] [])
                     [Scripted.agentA] _ _
                     eq_refl eq_refl eq_refl) eq_refl None _ eq_refl)
      as [_ [Hone _]].
    destruct (Hone Scripted.agentA eq_refl) as [a [_ Hrun]].
    exists a. eexists. exact Hrun.
  - destruct (proj2 (scripted return_type_contract Scripted.doc_two
                     (Scripted.opts (VStr "doc") (VStr "agents")) (mkState [] [])
                     Scripted.doc_two (mkState [] [])
                     [Scripted.agentA; Scripted.agentB] _ _
                     eq_refl eq_refl eq_refl) eq_refl None _ eq_refl)
      as [_ [_ Hall]].
    eexists. eexists. split.
    + apply Hall. simpl. discriminate.
    + reflexivity.
Defined.

Lemma all_or_nothing_witness :
  exists e st2,
    Scripted.run_pipeline Scripted.doc_two
      (Scripted.opts (VStr "doc") (VStr "agents"))
      [None; Some (ConnectionError "reset"); Some (TimeoutError "slow");
       Some (ConnectionError "down")]
    = (Throw (AgentConstructionError (VStr "B") e), st2).
Proof.
  exists (ConnectionError "down"). eexists.
  eapply (scripted all_or_nothing Scripted.doc_two
            (Scripted.opts (VStr "doc") (VStr "agents"))
            (mkState [None; Some (ConnectionError "reset");
                      Some (TimeoutError "slow"); Some (ConnectionError "down")] [])
            Scripted.doc_two _ [Scripted.agentA] Scripted.agentB []);
    vm_compute; reflexivity.
Defined.

(** * Further properties of the pipeline *)

(** ** The loader *)

Section LoaderFurther.

Variable World : Type.
Variable yaml_parse : value -> result value.
Variable fs_existsSync : value -> World -> bool.
Variable fs_readFileSync : value -> World -> result value.

Local Notation loadYamlSafely :=
  (loadYamlSafely World yaml_parse fs_existsSync fs_readFileSync).

(** X1: whatever goes wrong in the loader (no source, a missing or
    unreadable file, a parse error, a document without agents), the caller
    sees a plain [Error] whose message starts with "Error validating
    configuration: "; the class of the original error is lost, and the world
    is left as it was. *)
Theorem loader_errors_wrapped yamlFile yamlString st e st' :
  loadYamlSafely yamlFile yamlString st = (Throw e, st') ->
  st' = st
  /\ exists m, e = Error ("Error validating configuration: " ++ m).
Proof.
  intros H. split.
  - pose proof (loadYamlSafely_state World yaml_parse fs_existsSync
                  fs_readFileSync yamlFile yamlString st) as Hs.
    rewrite H in Hs. exact Hs.
  - revert H. expand loadYamlSafely; unfold try_catch.
    match goal with |- context [bind ?W ?m ?f st] =>
      destruct (bind W m f st) as [[c | e0] st1] end.
    + discriminate.
    + unfold throw. intros H. injection H as <- _.
      exists (message e0). reflexivity.
Qed.

(** X2: a document the loader returns is the one the parser produced, its
    [agents] field is an array with at least one element, and loading left
    the world as it was. *)
Theorem loader_success_shape yamlFile yamlString st config st' :
  loadYamlSafely yamlFile yamlString st = (Ok config, st') ->
  st' = st
  /\ (exists nodes, field config "agents" = VArr nodes /\ nodes <> [])
  /\ (truthy yamlString = true -> yaml_parse yamlString = Ok config).
Proof.
  intros H.
  destruct (loadYamlSafely_ok_inv World yaml_parse fs_existsSync fs_readFileSync
              _ _ _ _ _ H) as [Hst [nodes [Hn Hne]]].
  split; [exact Hst |]. split.
  - exists nodes. split; [| exact Hne].
    destruct (get_prop_ok_inv _ _ _ Hn) as [_ E]. symmetry. exact E.
  - intros Ht. revert H. expand loadYamlSafely; unfold try_catch.
    rewrite truthy_default_to_null, Ht.
    assert (Hd : default_to VNull yamlString = yamlString)
      by (destruct yamlString; try reflexivity; discriminate).
    rewrite Hd. unfold bind at 1, lift at 1.
    destruct (yaml_parse yamlString) as [c | e0].
    + unfold bind, lift.
      destruct (get_prop c "agents") as [agents | e1];
        [| unfold throw; discriminate].
      destruct (negb (truthy agents) || negb (isArray agents)
                || (array_length agents <? 1));
        unfold throw, ret; intros H; inversion H. reflexivity.
    + unfold throw. discriminate.
Qed.

End LoaderFurther.

Lemma loader_errors_wrapped_witness :
  exists m,
    Error "Error validating configuration: Invalid YAML: Must contain at least one agent configuration."
    = Error ("Error validating configuration: " ++ m).
Proof.
  refine (proj2 (loader_errors_wrapped Scripted.World
                   (Scripted.yaml_parse (VObj [("agents", VArr [])]))
                   Scripted.fs_existsSync Scripted.fs_readFileSync
                   VNull (VStr "agents: []") (mkState [] []) _ (mkState [] [])
                   _)).
  reflexivity.
Defined.

Lemma loader_success_shape_witness :
  exists nodes, field Scripted.doc_two "agents" = VArr nodes /\ nodes <> [].
Proof.
  refine (proj1 (proj2 (loader_success_shape Scripted.World
                   (Scripted.yaml_parse Scripted.doc_two)
                   Scripted.fs_existsSync Scripted.fs_readFileSync
                   VNull (VStr "doc") (mkState [] []) Scripted.doc_two
                   (mkState [] []) _))).
  reflexivity.
Defined.

(** ** The two constructors *)

Lemma assoc_skip k v pre post k' :
  k' <> k -> assoc k' (pre ++ (k, v) :: post) = assoc k' (pre ++ post).
Proof.
  intros Hk. induction pre as [| [k0 v0] pre IH]; simpl.
  - destruct (String.eqb_spec k' k); [contradiction | reflexivity].
  - rewrite IH. reflexivity.
Qed.

Lemma field_skip k v pre post k' :
  k' <> k ->
  field (VObj (pre ++ (k, v) :: post)) k' = field (VObj (pre ++ post)) k'.
Proof. intros Hk. simpl. rewrite (assoc_skip _ _ _ _ _ Hk). reflexivity. Qed.

Ltac in_keys := simpl; repeat (first [left; reflexivity | right]).

(** Two nodes that agree on the keys the constructor reads are treated
    alike. *)
Lemma new_AgentConfig_agree n1 n2 :
  nullish n1 = false -> nullish n2 = false ->
  (forall k, In k agent_keys -> field n1 k = field n2 k) ->
  new_AgentConfig n1 = new_AgentConfig n2.
Proof.
  intros H1 H2 H.
  rewrite (new_AgentConfig_fields n1 H1), (new_AgentConfig_fields n2 H2).
  unfold agent_config_of.
  repeat match goal with
         | |- context [field n1 ?k] => rewrite (H k) by in_keys
         end.
  reflexivity.
Qed.

Lemma new_SwarmConfig_agree n1 n2 :
  nullish n1 = false -> nullish n2 = false ->
  (forall k, In k swarm_keys -> field n1 k = field n2 k) ->
  new_SwarmConfig n1 = new_SwarmConfig n2.
Proof.
  intros H1 H2 H.
  rewrite (new_SwarmConfig_fields n1 H1), (new_SwarmConfig_fields n2 H2).
  unfold swarm_config_of.
  repeat match goal with
         | |- context [field n1 ?k] => rewrite (H k) by in_keys
         end.
  reflexivity.
Qed.

(** X3: a field of an agent node under a key the [AgentConfig] constructor
    does not read changes nothing: the node is accepted or rejected, and
    validated, exactly as without it. *)
Theorem agent_config_ignores_unknown_fields pre k v post :
  ~ In k agent_keys ->
  new_AgentConfig (VObj (pre ++ (k, v) :: post))
  = new_AgentConfig (VObj (pre ++ post)).
Proof.
  intros Hk. apply new_AgentConfig_agree; try reflexivity.
  intros k' Hin. apply field_skip. intros ->. contradiction.
Qed.

Lemma agent_config_ignores_unknown_fields_witness :
  new_AgentConfig (VObj ([("agent_name", VStr "A")]
                         ++ ("temperature", VNum 1)
                         :: [("system_prompt", VStr "do X")]))
  = new_AgentConfig Scripted.agentA.
Proof.
  apply (agent_config_ignores_unknown_fields
           [("agent_name", VStr "A")] "temperature" (VNum 1)
           [("system_prompt", VStr "do X")]).
  simpl. intros H.
  repeat (destruct H as [H | H]; [discriminate H |]). exact H.
Defined.

(** X4: the same for a swarm node and the [SwarmConfig] constructor. *)
Theorem swarm_config_ignores_unknown_fields pre k v post :
  ~ In k swarm_keys ->
  new_SwarmConfig (VObj (pre ++ (k, v) :: post))
  = new_SwarmConfig (VObj (pre ++ post)).
Proof.
  intros Hk. apply new_SwarmConfig_agree; try reflexivity.
  intros k' Hin. apply field_skip. intros ->. contradiction.
Qed.

Lemma swarm_config_ignores_unknown_fields_witness :
  new_SwarmConfig (VObj ([("swarm_type", VStr "auto")]
                         ++ ("output_type", VStr "json") :: []))
  = new_SwarmConfig (VObj [("swarm_type", VStr "auto")]).
Proof.
  apply (swarm_config_ignores_unknown_fields
           [("swarm_type", VStr "auto")] "output_type" (VStr "json") []).
  simpl. intros H.
  repeat (destruct H as [H | H]; [discriminate H |]). exact H.
Defined.

Lemma js_or_truthy v d : truthy d = true -> truthy (js_or v d) = true.
Proof.
  intros Hd. unfold js_or. destruct (truthy v) eqn:E; [exact E | exact Hd].
Qed.

Lemma js_or_falsy v d : truthy v = false -> js_or v d = d.
Proof. intros H. unfold js_or. rewrite H. reflexivity. Qed.

(** X5: a validated agent configuration never carries a zero or an empty
    string where the constructor has a default: [maxLoops], [retryAttempts]
    and [contextLength] are never 0, [userName], [outputType] and
    [artifactsFileExtension] never empty.  Any falsy value supplied for one
    of them is replaced by the default, so [max_loops: 0] comes out as 1 and
    [retry_attempts: 0] as 3. *)
Theorem agent_defaults_replace_falsy node cfg :
  new_AgentConfig node = Ok cfg ->
  (truthy (maxLoops cfg) = true
   /\ truthy (retryAttempts cfg) = true
   /\ truthy (contextLength cfg) = true
   /\ truthy (userName cfg) = true
   /\ truthy (outputType cfg) = true
   /\ truthy (artifactsFileExtension cfg) = true)
  /\ (truthy (field node "max_loops") = false -> maxLoops cfg = VNum 1)
  /\ (truthy (field node "retry_attempts") = false -> retryAttempts cfg = VNum 3)
  /\ (truthy (field node "context_length") = false ->
      contextLength cfg = VNum 100000)
  /\ (truthy (field node "user_name") = false ->
      userName cfg = VStr "default_user")
  /\ (truthy (field node "output_type") = false -> outputType cfg = VStr "str")
  /\ (truthy (field node "artifacts_file_extension") = false ->
      artifactsFileExtension cfg = VStr ".md").
Proof.
  intros H. apply new_AgentConfig_ok_inv in H. destruct H as [_ ->].
  simpl. split.
  - repeat split; apply js_or_truthy; reflexivity.
  - repeat split; intros E; apply js_or_falsy; exact E.
Qed.

Lemma agent_defaults_replace_falsy_witness :
  exists cfg,
    new_AgentConfig (VObj [("agent_name", VStr "A"); ("system_prompt", VStr "do X");
                           ("max_loops", VNum 0); ("retry_attempts", VNum 0)])
    = Ok cfg
    /\ maxLoops cfg = VNum 1 /\ retryAttempts cfg = VNum 3.
Proof.
  eexists. split; [reflexivity |].
  split;
    apply (agent_defaults_replace_falsy
             (VObj [("agent_name", VStr "A"); ("system_prompt", VStr "do X");
                    ("max_loops", VNum 0); ("retry_attempts", VNum 0)]) _ eq_refl);
    reflexivity.
Defined.

Lemma new_SwarmConfig_ok_inv node cfg :
  new_SwarmConfig node = Ok cfg ->
  nullish node = false /\ cfg = swarm_config_of node.
Proof.
  intros H. destruct (nullish node) eqn:Hn.
  - destruct (new_SwarmConfig_nullish node Hn) as [m Hm].
    rewrite Hm in H. discriminate.
  - rewrite new_SwarmConfig_fields in H by exact Hn.
    destruct (negb _); inversion H; auto.
Qed.

(** X6: in a validated swarm configuration [autosave] is never [false] and
    [maxLoops] never 0, whatever the node supplies ([config.autosave || true],
    [config.max_loops || 1]); [task] and [flow] are [null] and [rules] is the
    empty string when the node leaves them out or gives a falsy value. *)
Theorem swarm_defaults_replace_falsy node cfg :
  new_SwarmConfig node = Ok cfg ->
  truthy (sc_autosave cfg) = true
  /\ truthy (sc_maxLoops cfg) = true
  /\ (field node "autosave" = VBool false -> sc_autosave cfg = VBool true)
  /\ (truthy (field node "max_loops") = false -> sc_maxLoops cfg = VNum 1)
  /\ (truthy (field node "task") = false -> sc_task cfg = VNull)
  /\ (truthy (field node "flow") = false -> sc_flow cfg = VNull)
  /\ (truthy (field node "rules") = false -> sc_rules cfg = VStr "").
Proof.
  intros H. apply new_SwarmConfig_ok_inv in H. destruct H as [_ ->].
  simpl. repeat split;
    try (apply js_or_truthy; reflexivity);
    try (intros E; apply js_or_falsy; exact E).
  intros E. rewrite E. reflexivity.
Qed.

Lemma swarm_defaults_replace_falsy_witness :
  exists cfg,
    new_SwarmConfig (VObj [("swarm_type", VStr "auto"); ("autosave", VBool false)])
    = Ok cfg
    /\ sc_autosave cfg = VBool true.
Proof.
  eexists. split; [reflexivity |].
  apply (swarm_defaults_replace_falsy
           (VObj [("swarm_type", VStr "auto"); ("autosave", VBool false)])
           _ eq_refl).
  reflexivity.
Defined.

(** ** Backends, the router and the result *)

Lemma filter_none (p : event -> bool) evs :
  Forall (fun e => p e = false) evs -> filter p evs = [].
Proof.
  induction 1 as [| e evs He _ IH]; simpl; [reflexivity |].
  rewrite He. exact IH.
Qed.

Lemma strict_eq_false v s : v <> VStr s -> strict_eq v s = false.
Proof.
  destruct v; simpl; try reflexivity.
  intros H. destruct (String.eqb_spec s0 s); [subst; contradiction | reflexivity].
Qed.

Section PipelineFurther.

Variables World LLM Agent SwarmRouter Output : Type.
Variable yaml_parse : value -> result value.
Variable fs_existsSync : value -> World -> bool.
Variable fs_readFileSync : value -> World -> result value.
Variable new_LiteLLM : value -> World -> result LLM * World.
Variable new_Agent : AgentArgs LLM -> World -> result Agent * World.
Variable new_SwarmRouter :
  SwarmRouterArgs Agent -> World -> result SwarmRouter * World.
Variable SwarmRouter_run :
  SwarmRouter -> value -> World -> result Output * World.

Local Notation loadYamlSafely :=
  (loadYamlSafely World yaml_parse fs_existsSync fs_readFileSync).
Local Notation createAgentWithRetry :=
  (createAgentWithRetry World LLM Agent new_Agent).
Local Notation buildAgent := (buildAgent World LLM Agent new_LiteLLM new_Agent).
Local Notation buildAgents := (buildAgents World LLM Agent new_LiteLLM new_Agent).
Local Notation buildRouter := (buildRouter World Agent SwarmRouter new_SwarmRouter).
Local Notation selectResult :=
  (selectResult World Agent SwarmRouter Output SwarmRouter_run).
Local Notation createAgentsFromYaml :=
  (createAgentsFromYaml World LLM Agent SwarmRouter Output
     yaml_parse fs_existsSync fs_readFileSync
     new_LiteLLM new_Agent new_SwarmRouter SwarmRouter_run).
Local Notation retval := (retval Agent SwarmRouter Output).
Local Notation load := (load World yaml_parse fs_existsSync fs_readFileSync).
Local Notation pipeline_constructed :=
  (pipeline_constructed World LLM Agent SwarmRouter Output
     yaml_parse fs_existsSync fs_readFileSync
     new_LiteLLM new_Agent new_SwarmRouter SwarmRouter_run).
Local Notation pipeline_ok_inv :=
  (pipeline_ok_inv World LLM Agent SwarmRouter Output
     yaml_parse fs_existsSync fs_readFileSync
     new_LiteLLM new_Agent new_SwarmRouter SwarmRouter_run).

Lemma selectResult_appends (P : event -> Prop) rt config router ags :
  (forall t, P (EvRun t)) ->
  appends World P (selectResult rt config router ags).
Proof.
  intros Hr. expand selectResult.
  destruct (strict_eq rt "run_swarm" || strict_eq rt "swarm").
  - destruct router as [r |]; [| apply appends_throw].
    apply appends_bind; [apply appends_lift |]. intros sa.
    apply appends_bind; [apply appends_lift |]. intros task.
    apply appends_bind; [apply appends_emit, Hr |]. intros _.
    apply appends_bind; [apply appends_call |]. intros out.
    apply appends_ret.
  - destruct (strict_eq rt "agents"); [apply appends_ret |].
    destruct (strict_eq rt "both"); [apply appends_ret |].
    destruct (strict_eq rt "tasks"); [apply appends_ret |].
    destruct router; apply appends_ret.
Qed.

Lemma selectResult_quiet (P : event -> Prop) rt config router ags :
  rt <> VStr "swarm" -> rt <> VStr "run_swarm" ->
  appends World P (selectResult rt config router ags).
Proof.
  intros H1 H2. expand selectResult.
  rewrite (strict_eq_false _ _ H1), (strict_eq_false _ _ H2). simpl.
  destruct (strict_eq rt "agents"); [apply appends_ret |].
  destruct (strict_eq rt "both"); [apply appends_ret |].
  destruct (strict_eq rt "tasks"); [apply appends_ret |].
  destruct router; apply appends_ret.
Qed.

Lemma loadYamlSafely_appends (P : event -> Prop) yamlFile yamlString :
  appends World P (loadYamlSafely yamlFile yamlString).
Proof.
  apply appends_nothing. intros st.
  rewrite (loadYamlSafely_state World yaml_parse fs_existsSync fs_readFileSync).
  reflexivity.
Qed.

(** The loop body instantiates the backend named by the node. *)
Lemma buildAgent_backends node st a st' :
  buildAgent node st = (Ok a, st') ->
  exists evs,
    trace st' = (trace st ++ evs)%list
    /\ filter is_backend_event evs = [EvNewLiteLLM (backend_name node)].
Proof.
  expand buildAgent. intros H.
  apply bind_ok_inv in H. destruct H as [v1 [s1 [H1 H]]].
  unfold lift in H1. injection H1 as _ <-.
  apply bind_ok_inv in H. destruct H as [model_name [s2 [H2 H]]].
  unfold lift in H2. injection H2 as H2 <-.
  apply get_prop_ok_inv in H2. destruct H2 as [_ ->].
  fold (backend_name node) in H.
  apply bind_ok_inv in H. destruct H as [u [s3 [H3 H]]].
  unfold emit in H3. injection H3 as _ <-.
  apply bind_ok_inv in H. destruct H as [m [s4 [H4 H]]].
  apply bind_ok_inv in H. destruct H as [agent [s5 [H5 H]]].
  apply bind_ok_inv in H. destruct H as [v6 [s6 [H6 H]]].
  unfold lift in H6. injection H6 as _ <-.
  unfold ret in H. injection H as <- <-.
  pose proof (appends_call World (fun _ => False)
                (new_LiteLLM (backend_name node))
                (mkState (world st)
                   (trace st ++ [EvNewLiteLLM (backend_name node)])))
    as [evs4 [T4 F4]].
  rewrite H4 in T4. simpl in T4.
  destruct evs4 as [| x evs4]; [| inversion F4; contradiction].
  rewrite app_nil_r in T4.
  destruct (createAgentWithRetry_appends World LLM Agent new_Agent node m s4)
    as [evs5 [T5 F5]].
  rewrite H5 in T5. simpl in T5.
  exists (EvNewLiteLLM (backend_name node) :: evs5).
  rewrite T5, T4, <- app_assoc. split; [reflexivity |].
  simpl. f_equal. apply filter_none.
  eapply Forall_impl; [| exact F5]. exact attempt_work_not_backend.
Qed.

Lemma buildAgents_backends nodes :
  forall agents st ags st',
    buildAgents nodes agents st = (Ok ags, st') ->
    exists evs,
      trace st' = (trace st ++ evs)%list
      /\ filter is_backend_event evs
         = map (fun node => EvNewLiteLLM (backend_name node)) nodes.
Proof.
  induction nodes as [| node nodes IH]; intros agents st ags st' H; simpl in H.
  - unfold ret in H. injection H as _ <-.
    exists []. rewrite app_nil_r. split; reflexivity.
  - apply bind_ok_inv in H. destruct H as [a [st1 [Ha H]]].
    apply IH in H. destruct H as [evs [T F]].
    destruct (buildAgent_backends _ _ _ _ Ha) as [evs1 [T1 F1]].
    exists (evs1 ++ evs)%list. rewrite T, T1, <- app_assoc.
    split; [reflexivity |].
    rewrite filter_app, F1, F. reflexivity.
Qed.

(** X7: whenever the call returns a result, the model backends it has
    instantiated are, in the order of declaration, one per agent of the
    document, each under the agent's own [model_name], or "gpt-4o" when the
    node gives none; the [model] option of the call plays no part. *)
Theorem backends_follow_model_names options st v st' :
  createAgentsFromYaml options st = (Ok v, st') ->
  exists config nodes evs,
    load options st = (Ok config, st)
    /\ field config "agents" = VArr nodes
    /\ trace st' = (trace st ++ evs)%list
    /\ filter is_backend_event evs
       = map (fun node => EvNewLiteLLM (backend_name node)) nodes.
Proof.
  intros H. apply pipeline_ok_inv in H.
  destruct H as [config [nodes [ags [st1 [router [st2 H]]]]]].
  destruct H as [Hload [Hnodes [Hags [Hrouter [_ Hsel]]]]].
  destruct (buildAgents_backends _ _ _ _ _ Hags) as [evs1 [T1 F1]].
  destruct (buildRouter_appends World Agent SwarmRouter new_SwarmRouter
              (fun e => is_backend_event e = false)
              config ags (fun _ => eq_refl) st1) as [evs2 [T2 F2]].
  rewrite Hrouter in T2. simpl in T2.
  destruct (selectResult_appends (fun e => is_backend_event e = false)
              (requested options) config router ags (fun _ => eq_refl) st2)
    as [evs3 [T3 F3]].
  rewrite Hsel in T3. simpl in T3.
  exists config, nodes, (evs1 ++ evs2 ++ evs3)%list.
  split; [exact Hload |]. split.
  - destruct (get_prop_ok_inv _ _ _ Hnodes) as [_ E]. symmetry. exact E.
  - rewrite T3, T2, T1, <- !app_assoc. split; [reflexivity |].
    rewrite !filter_app, F1, (filter_none _ _ F2), (filter_none _ _ F3).
    rewrite !app_nil_r. reflexivity.
Qed.

(** X8: the swarm is run only on request: a call whose return type is
    neither "swarm" nor "run_swarm" never calls [swarmRouter.run], whether it
    succeeds or fails. *)
Theorem router_runs_only_on_request options st :
  requested options <> VStr "swarm" ->
  requested options <> VStr "run_swarm" ->
  exists evs,
    trace (snd (createAgentsFromYaml options st)) = (trace st ++ evs)%list
    /\ filter is_run_event evs = [].
Proof.
  intros H1 H2.
  assert (A : appends World (fun e => is_run_event e = false)
                (createAgentsFromYaml options)).
  { expand createAgentsFromYaml.
    apply appends_try_catch; [| intros e; apply appends_throw].
    apply appends_bind; [apply loadYamlSafely_appends |]. intros config.
    apply appends_bind; [apply appends_lift |]. intros nodes.
    apply appends_bind.
    { apply buildAgents_appends; [reflexivity |].
      intros e He. destruct e; simpl in *; congruence. }
    intros ags.
    apply appends_bind; [apply buildRouter_appends; reflexivity |].
    intros router.
    destruct (negb (set_has validReturnTypes _)); [apply appends_throw |].
    apply selectResult_quiet; assumption. }
  destruct (A st) as [evs [T F]].
  exists evs. split; [exact T | apply filter_none, F].
Qed.

(** X9: with [returnType: "both"] a call whose construction succeeds returns
    the two-element array of the router ([null] when the document declares
    no swarm) and the array of all agents; a single agent is not unwrapped
    here. *)
Theorem both_returns_pair options st config st0 nodes ags st1 router st2 :
  requested options = VStr "both" ->
  load options st = (Ok config, st0) ->
  get_prop config "agents" = Ok (VArr nodes) ->
  buildAgents nodes [] st0 = (Ok ags, st1) ->
  buildRouter config ags st1 = (Ok router, st2) ->
  createAgentsFromYaml options st
  = (Ok (RArray [match router with Some r => RRouter r | None => RNull end;
                 RArray (map RAgent ags)]), st2)
  /\ List.length ags = List.length nodes.
Proof.
  intros Hrt Hload Hnodes Hags Hrouter.
  rewrite (pipeline_constructed _ _ _ _ _ _ _ _ _ Hload Hnodes Hags Hrouter).
  rewrite Hrt. split; [destruct router; reflexivity |].
  destruct (buildAgents_ok_inv World LLM Agent new_LiteLLM new_Agent
              _ _ _ _ _ Hags) as [new [evs [E [F _]]]].
  simpl in E. subst new. symmetry. eapply Forall2_length. exact F.
Qed.

(** X10: with [returnType: "auto"], which is also what an omitted
    [returnType] means, a call whose construction succeeds returns the router
    when the document declares a swarm, and otherwise what "agents" returns:
    the one agent, or the array of all of them. *)
Theorem auto_prefers_router options st config st0 nodes ags st1 router st2 :
  returnType options = VUndefined \/ returnType options = VStr "auto" ->
  load options st = (Ok config, st0) ->
  get_prop config "agents" = Ok (VArr nodes) ->
  buildAgents nodes [] st0 = (Ok ags, st1) ->
  buildRouter config ags st1 = (Ok router, st2) ->
  createAgentsFromYaml options st
  = (Ok (match router with
         | Some r => RRouter r
         | None => match ags with
                   | [a] => RAgent a
                   | _ => RArray (map RAgent ags)
                   end
         end), st2).
Proof.
  intros Hrt Hload Hnodes Hags Hrouter.
  rewrite (pipeline_constructed _ _ _ _ _ _ _ _ _ Hload Hnodes Hags Hrouter).
  assert (E : requested options = VStr "auto")
    by (unfold requested; destruct Hrt as [-> | ->]; reflexivity).
  rewrite E. destruct router; reflexivity.
Qed.

(** X11: with [returnType: "swarm"] or "run_swarm" on a document that declares a
    valid swarm, the router is constructed over all the agents built, in
    their order, and run exactly once, on the [task] field of the document as
    written ([undefined] when absent, not the [null] of the validated
    configuration); the call returns what the run returns and fails as the
    run fails. *)
Theorem run_swarm_runs_declared_swarm
    options st config st0 nodes ags st1 sa sc r w2 :
  requested options = VStr "swarm" \/ requested options = VStr "run_swarm" ->
  load options st = (Ok config, st0) ->
  get_prop config "agents" = Ok (VArr nodes) ->
  buildAgents nodes [] st0 = (Ok ags, st1) ->
  field config "swarm_architecture" = sa -> truthy sa = true ->
  new_SwarmConfig sa = Ok sc ->
  new_SwarmRouter (router_args Agent sc ags) (world st1) = (Ok r, w2) ->
  r_agents Agent (router_args Agent sc ags) = ags
  /\ createAgentsFromYaml options st
     = (match fst (SwarmRouter_run r (field sa "task") w2) with
        | Ok out => Ok (ROutput out)
        | Throw e => Throw e
        end,
        mkState (snd (SwarmRouter_run r (field sa "task") w2))
          (trace st1 ++ [EvNewSwarmRouter (sc_swarmType sc);
                         EvRun (field sa "task")])).
Proof.
  intros Hrt Hload Hnodes Hags Hsa Ht Hsc Hr.
  split; [reflexivity |].
  destruct (get_prop_ok_inv _ _ _ Hnodes) as [Hn _].
  assert (Hnsa : nullish sa = false)
    by (destruct sa; try reflexivity; discriminate).
  assert (Hrouter : buildRouter config ags st1
                    = (Ok (Some r),
                       mkState w2 (trace st1 ++ [EvNewSwarmRouter (sc_swarmType sc)]))).
  { expand buildRouter.
    unfold bind at 1, lift at 1. rewrite (get_prop_field _ _ Hn), Hsa, Ht.
    unfold bind at 1, lift at 1. rewrite Hsc.
    unfold bind at 1, emit at 1.
    unfold bind at 1, call at 1. simpl. rewrite Hr. reflexivity. }
  rewrite (pipeline_constructed _ _ _ _ _ _ _ _ _ Hload Hnodes Hags Hrouter).
  assert (Hsel : forall rt, rt = VStr "swarm" \/ rt = VStr "run_swarm" ->
            strict_eq rt "run_swarm" || strict_eq rt "swarm" = true)
    by (intros rt [-> | ->]; reflexivity).
  assert (Hvalid : set_has validReturnTypes (requested options) = true)
    by (destruct Hrt as [-> | ->]; reflexivity).
  rewrite Hvalid. simpl negb. cbv iota.
  expand selectResult. rewrite (Hsel _ Hrt).
  unfold bind at 1, lift at 1. rewrite (get_prop_field _ _ Hn), Hsa.
  unfold bind at 1, lift at 1. rewrite (get_prop_field _ _ Hnsa).
  unfold bind at 1, emit at 1.
  unfold bind at 1, call at 1. simpl.
  destruct (SwarmRouter_run r (field sa "task") w2) as [[out | e] w3]; simpl;
    rewrite <- app_assoc; reflexivity.
Qed.

End PipelineFurther.

Lemma backends_follow_model_names_witness :
  exists st' evs,
    snd (Scripted.run_pipeline Scripted.doc_two
           (Scripted.opts (VStr "doc") (VStr "agents")) []) = st'
    /\ trace st' = evs
    /\ filter is_backend_event evs
       = [EvNewLiteLLM (VStr "gpt-4o"); EvNewLiteLLM (VStr "gpt-4")].
Proof.
  destruct (scripted backends_follow_model_names Scripted.doc_two
              (Scripted.opts (VStr "doc") (VStr "agents")) (mkState [] [])
              _ _ eq_refl)
    as [config [nodes [evs [Hload [Hnodes [T F]]]]]].
  injection Hload as <-. injection Hnodes as <-.
  eexists. exists evs. split; [reflexivity |]. split; [exact T | exact F].
Defined.

Lemma router_runs_only_on_request_witness :
  exists evs,
    trace (snd (Scripted.run_pipeline (Scripted.doc_swarm "ConcurrentWorkflow")
                  (Scripted.opts (VStr "doc") (VStr "both")) [])) = evs
    /\ filter is_run_event evs = [].
Proof.
  apply (scripted router_runs_only_on_request
           (Scripted.doc_swarm "ConcurrentWorkflow")
           (Scripted.opts (VStr "doc") (VStr "both")) (mkState [] []));
    discriminate.
Defined.

Lemma both_returns_pair_witness :
  exists st2,
    Scripted.run_pipeline Scripted.doc_one
      (Scripted.opts (VStr "doc") (VStr "both")) []
    = (Ok (RArray [RNull; RArray [RAgent (VStr "A")]]), st2).
Proof.
  eexists.
  eapply (proj1 (scripted both_returns_pair Scripted.doc_one
                   (Scripted.opts (VStr "doc") (VStr "both")) (mkState [] [])
                   Scripted.doc_one _ [Scripted.agentA] [VStr "A"] _ None _
                   eq_refl eq_refl eq_refl eq_refl eq_refl)).
Defined.

Lemma auto_prefers_router_witness :
  exists r st2,
    Scripted.run_pipeline (Scripted.doc_swarm "auto")
      (Scripted.opts (VStr "doc") VUndefined) []
    = (Ok (RRouter r), st2).
Proof.
  eexists. eexists.
  eapply (scripted auto_prefers_router (Scripted.doc_swarm "auto")
            (Scripted.opts (VStr "doc") VUndefined) (mkState [] [])
            (Scripted.doc_swarm "auto") _ [Scripted.agentA; Scripted.agentB]
            [VStr "A"; VStr "B"] _ (Some _) _
            (or_introl eq_refl) eq_refl eq_refl eq_refl eq_refl).
Defined.

Lemma run_swarm_runs_declared_swarm_witness :
  exists st3,
    Scripted.run_pipeline (Scripted.doc_swarm "ConcurrentWorkflow")
      (Scripted.opts (VStr "doc") (VStr "run_swarm")) []
    = (Ok (ROutput (VStr "T")), st3)
    /\ filter is_run_event (trace st3) = [EvRun (VStr "T")].
Proof.
  eexists. split.
  - eapply (proj2 (scripted run_swarm_runs_declared_swarm
                     (Scripted.doc_swarm "ConcurrentWorkflow")
                     (Scripted.opts (VStr "doc") (VStr "run_swarm"))
                     (mkState [] [])
                     (Scripted.doc_swarm "ConcurrentWorkflow") _
                     [Scripted.agentA; Scripted.agentB]
                     [VStr "A"; VStr "B"] _ _ _ _ _
                     (or_intror eq_refl) eq_refl eq_refl eq_refl eq_refl
                     eq_refl eq_refl eq_refl)).
  - reflexivity.
Defined.

(** * The command line *)

Section StartsFacts.

Variable World : Type.

Local Notation M := (M World).
Local Notation appends := (appends World).
Local Notation any := (fun _ : event => True).

Lemma starts_appends {A} (m : M A) : appends any m -> starts [] m.
Proof.
  intros H st. destruct (H st) as [evs [T _]]. exists evs. exact T.
Qed.

Lemma starts_emit {A} e es (m : M A) :
  starts es m -> starts (e :: es) (bind World (emit World e) (fun _ => m)).
Proof.
  intros H st. unfold bind, emit.
  destruct (H (mkState (world st) (trace st ++ [e]))) as [evs T].
  exists evs. rewrite T. simpl. rewrite <- app_assoc. reflexivity.
Qed.

Lemma starts_bind {A B} es (m : M A) (f : A -> M B) :
  starts es m -> (forall a, appends any (f a)) ->
  starts es (bind World m f).
Proof.
  intros Hm Hf st. unfold bind.
  destruct (Hm st) as [evs1 T1].
  destruct (m st) as [[a | e] st1]; simpl in T1.
  - destruct (Hf a st1) as [evs2 [T2 _]].
    exists (evs1 ++ evs2)%list. rewrite T2, T1, <- !app_assoc. reflexivity.
  - exists evs1. exact T1.
Qed.

Lemma starts_try_catch {A} es (m : M A) (h : error -> M A) :
  starts es m -> (forall e, appends any (h e)) ->
  starts es (try_catch World m h).
Proof.
  intros Hm Hh st. unfold try_catch.
  destruct (Hm st) as [evs1 T1].
  destruct (m st) as [[a | e] st1]; simpl in T1.
  - exists evs1. exact T1.
  - destruct (Hh e st1) as [evs2 [T2 _]].
    exists (evs1 ++ evs2)%list. rewrite T2, T1, <- !app_assoc. reflexivity.
Qed.

End StartsFacts.

Section AutoSwarmProperties.

Variables World LLM Agent SwarmRouter Output : Type.
Variable yaml_parse : value -> result value.
Variable fs_existsSync : value -> World -> bool.
Variable fs_readFileSync : value -> World -> result value.
Variable new_LiteLLM : value -> World -> result LLM * World.
Variable new_Agent : AgentArgs LLM -> World -> result Agent * World.
Variable new_SwarmRouter :
  SwarmRouterArgs Agent -> World -> result SwarmRouter * World.
Variable SwarmRouter_run :
  SwarmRouter -> value -> World -> result Output * World.
Variable Agent_run : Agent -> value -> list value -> World -> result value * World.
Variable parseYamlFromSwarmMarkdown : value -> result value.
Variable Output_truthy : Output -> bool.

Local Notation createAgentsFromYaml :=
  (createAgentsFromYaml World LLM Agent SwarmRouter Output
     yaml_parse fs_existsSync fs_readFileSync
     new_LiteLLM new_Agent new_SwarmRouter SwarmRouter_run).
Local Notation attemptGenerateSwarmConfig :=
  (attemptGenerateSwarmConfig World LLM Agent SwarmRouter Output
     yaml_parse fs_existsSync fs_readFileSync
     new_LiteLLM new_Agent new_SwarmRouter SwarmRouter_run
     Agent_run parseYamlFromSwarmMarkdown).
Local Notation generateSwarmConfig :=
  (generateSwarmConfig World LLM Agent SwarmRouter Output
     yaml_parse fs_existsSync fs_readFileSync
     new_LiteLLM new_Agent new_SwarmRouter SwarmRouter_run
     Agent_run parseYamlFromSwarmMarkdown).
Local Notation runAutoswarm :=
  (runAutoswarm World LLM Agent SwarmRouter Output
     yaml_parse fs_existsSync fs_readFileSync
     new_LiteLLM new_Agent new_SwarmRouter SwarmRouter_run
     Agent_run parseYamlFromSwarmMarkdown Output_truthy).
Local Notation any := (fun _ : event => True).

Lemma createAgentsFromYaml_appends options :
  appends World any (createAgentsFromYaml options).
Proof.
  expand createAgentsFromYaml.
  apply appends_try_catch; [| intros e; apply appends_throw].
  apply appends_bind.
  { apply appends_nothing. intros st.
    rewrite (loadYamlSafely_state World yaml_parse fs_existsSync fs_readFileSync).
    reflexivity. }
  intros config.
  apply appends_bind; [apply appends_lift |]. intros nodes.
  apply appends_bind; [apply buildAgents_appends; auto |]. intros ags.
  apply appends_bind; [apply buildRouter_appends; auto |]. intros router.
  destruct (negb (set_has validReturnTypes _)); [apply appends_throw |].
  expand (selectResult World Agent SwarmRouter Output SwarmRouter_run).
  repeat match goal with
         | |- appends _ _ (if ?b then _ else _) => destruct b
         | |- appends _ _ (match ?r with Some _ => _ | None => _ end) => destruct r
         | |- appends _ _ (bind _ _ _) => apply appends_bind; [| intros ?]
         | |- appends _ _ (lift _ _) => apply appends_lift
         | |- appends _ _ (call _ _) => apply appends_call
         | |- appends _ _ (emit _ _) => apply appends_emit; exact I
         | |- appends _ _ (ret _ _) => apply appends_ret
         | |- appends _ _ (throw _ _) => apply appends_throw
         end.
Qed.

(** Every attempt begins by instantiating the backend under the model name
    it was given. *)
Lemma attemptGenerateSwarmConfig_starts task modelName args :
  starts [EvNewLiteLLM modelName] (attemptGenerateSwarmConfig task modelName args).
Proof.
  expand attemptGenerateSwarmConfig.
  apply starts_try_catch; [| intros e; apply appends_throw].
  apply starts_emit. apply starts_appends.
  apply appends_bind; [apply appends_call |]. intros model.
  apply appends_bind; [apply appends_emit; exact I |]. intros _.
  apply appends_bind; [apply appends_call |]. intros agent.
  apply appends_bind; [apply appends_call |]. intros rawOutput.
  apply appends_bind; [apply appends_lift |]. intros yamlContent.
  apply createAgentsFromYaml_appends.
Qed.

Lemma attemptGenerateSwarmConfig_appends task modelName args :
  appends World any (attemptGenerateSwarmConfig task modelName args).
Proof.
  intros st.
  destruct (attemptGenerateSwarmConfig_starts task modelName args st)
    as [evs T].
  exists ([EvNewLiteLLM modelName] ++ evs)%list. split; [exact T |].
  apply Forall_forall. intros; exact I.
Qed.

Lemma generateSwarmConfig_starts task fileName args :
  starts [EvAttempt 1; EvNewLiteLLM (VStr "gpt-4o")]
    (generateSwarmConfig task fileName VUndefined args).
Proof.
  expand generateSwarmConfig. unfold retry. simpl default_to.
  change (Nat.pred (stop swarmConfigRetryPolicy)) with 2%nat.
  rewrite retry_loop_eq.
  apply starts_try_catch.
  - apply starts_emit. apply attemptGenerateSwarmConfig_starts.
  - intros e. change (retry_on swarmConfigRetryPolicy e) with true. cbv iota.
    apply appends_bind; [apply appends_emit; exact I |]. intros _.
    apply retry_loop_appends; auto.
    apply attemptGenerateSwarmConfig_appends.
Qed.

(** X12: [runAutoswarm] rejects an empty task, and then an empty model
    name, before doing anything; once both are given it never throws and
    returns [undefined], whatever happens while the swarm is generated and
    run: every failure is only shown to the user. *)
Theorem runAutoswarm_outcomes task model st :
  (truthy task = false ->
   runAutoswarm task model st
   = (Throw (OtherError "SwarmCLIError" "Task cannot be empty."), st))
  /\ (truthy task = true -> truthy model = false ->
      runAutoswarm task model st
      = (Throw (OtherError "SwarmCLIError" "Model name cannot be empty."), st))
  /\ (truthy task = true -> truthy model = true ->
      fst (runAutoswarm task model st) = Ok VUndefined).
Proof.
  expand runAutoswarm. split; [| split].
  - intros ->. reflexivity.
  - intros -> ->. reflexivity.
  - intros -> ->. cbn [negb]. cbv beta.
    unfold bind at 1.
    match goal with |- context [try_catch ?W ?m ?h st] =>
      destruct (try_catch W m h st) as [[u | e] st1] eqn:E end;
      [reflexivity |].
    exfalso. revert E. unfold try_catch.
    match goal with |- context [bind ?W ?m ?f st] =>
      destruct (bind W m f st) as [[u | e0] st2] end;
      unfold ret; discriminate.
Qed.

(** X13: the model name given to [runAutoswarm] never reaches the model
    backend: it is passed in the place of [fileName], which
    [generateSwarmConfig] does not use, so the outcome is the same for every
    non-empty model name, and the first thing a run does is to instantiate
    the backend "gpt-4o". *)
Theorem runAutoswarm_ignores_model task model model' st :
  truthy task = true -> truthy model = true -> truthy model' = true ->
  runAutoswarm task model st = runAutoswarm task model' st
  /\ exists evs,
       trace (snd (runAutoswarm task model st))
       = (trace st ++ [EvAttempt 1; EvNewLiteLLM (VStr "gpt-4o")] ++ evs)%list.
Proof.
  intros Ht Hm Hm'. split.
  - expand runAutoswarm. rewrite Ht, Hm, Hm'. reflexivity.
  - assert (S : starts [EvAttempt 1; EvNewLiteLLM (VStr "gpt-4o")]
                  (runAutoswarm task model)).
    { expand runAutoswarm. rewrite Ht, Hm. cbn [negb].
      apply starts_bind; [| intros u; apply appends_ret].
      apply starts_try_catch; [| intros e; apply appends_ret].
      apply starts_bind; [apply generateSwarmConfig_starts |].
      intros result. destruct (retval_truthy _ _ _ _ result);
        [apply appends_ret | apply appends_throw]. }
    exact (S st).
Qed.

End AutoSwarmProperties.

Section LoginProperties.

Variable World : Type.
Variable fs_existsSync : value -> World -> bool.
Variable fs_readFileSync : value -> World -> result value.
Variable fs_writeFileSync : value -> value -> World -> result unit * World.
Variable cacheFile : value.

Local Notation checkLogin :=
  (checkLogin World fs_existsSync fs_readFileSync fs_writeFileSync cacheFile).

(** X14: [checkLogin] answers [true] without touching anything when the
    cache file reads "logged_in"; when the file is missing or reads anything
    else it tries to write it and answers [true] all the same, also when the
    write fails (then without the pause of one second); only a cache file
    that exists and cannot be read makes it throw. *)
Theorem checkLogin_outcomes st :
  (fs_existsSync cacheFile (world st) = true ->
   fs_readFileSync cacheFile (world st) = Ok (VStr "logged_in") ->
   checkLogin st = (Ok (VBool true), st))
  /\ (fs_existsSync cacheFile (world st) = false
      \/ (exists status, fs_readFileSync cacheFile (world st) = Ok status
                         /\ status <> VStr "logged_in") ->
      checkLogin st
      = (Ok (VBool true),
         match fs_writeFileSync cacheFile (VStr "logged_in") (world st) with
         | (Ok _, w) => mkState w (trace st ++ [EvSleep 1])
         | (Throw _, w) => mkState w (trace st)
         end))
  /\ (forall e,
      fs_existsSync cacheFile (world st) = true ->
      fs_readFileSync cacheFile (world st) = Throw e ->
      checkLogin st = (Throw e, st)).
Proof.
  expand checkLogin.
  unfold executeWithSpinner, try_catch, bind, ask, lift, call, emit, ret.
  split; [| split].
  - intros -> ->. reflexivity.
  - intros H. destruct (fs_existsSync cacheFile (world st)) eqn:Hex.
    + destruct H as [H | [status [Hr Hs]]]; [discriminate |].
      rewrite Hr, (strict_eq_false _ _ Hs).
      destruct (fs_writeFileSync _ _ _) as [[u | e] w]; reflexivity.
    + destruct (fs_writeFileSync _ _ _) as [[u | e] w]; reflexivity.
  - intros e -> ->. reflexivity.
Qed.

End LoginProperties.

Local Notation scripted_cli thm doc :=
  (thm Scripted.World Scripted.LLM Scripted.Agent Scripted.SwarmRouter
       Scripted.Output (Scripted.yaml_parse doc) Scripted.fs_existsSync
       Scripted.fs_readFileSync Scripted.new_LiteLLM Scripted.new_Agent
       Scripted.new_SwarmRouter Scripted.SwarmRouter_run
       ScriptedCli.Agent_run ScriptedCli.parseYamlFromSwarmMarkdown
       ScriptedCli.Output_truthy).

Lemma runAutoswarm_outcomes_witness :
  ScriptedCli.run_autoswarm (Scripted.doc_swarm "auto") (VStr "") (VStr "gpt-4") []
  = (Throw (OtherError "SwarmCLIError" "Task cannot be empty."), mkState [] [])
  /\ ScriptedCli.run_autoswarm (Scripted.doc_swarm "auto") (VStr "Analyze") (VStr "") []
     = (Throw (OtherError "SwarmCLIError" "Model name cannot be empty."),
        mkState [] [])
  /\ fst (ScriptedCli.run_autoswarm Scripted.doc_two (VStr "Analyze") (VStr "gpt-4") [])
     = Ok VUndefined.
Proof.
  split; [| split].
  - exact (proj1 (scripted_cli runAutoswarm_outcomes (Scripted.doc_swarm "auto")
                    (VStr "") (VStr "gpt-4") (mkState [] [])) eq_refl).
  - exact (proj1 (proj2 (scripted_cli runAutoswarm_outcomes
                           (Scripted.doc_swarm "auto")
                           (VStr "Analyze") (VStr "") (mkState [] [])))
             eq_refl eq_refl).
  - exact (proj2 (proj2 (scripted_cli runAutoswarm_outcomes Scripted.doc_two
                           (VStr "Analyze") (VStr "gpt-4") (mkState [] [])))
             eq_refl eq_refl).
Defined.

Lemma runAutoswarm_ignores_model_witness :
  ScriptedCli.run_autoswarm (Scripted.doc_swarm "auto") (VStr "Analyze")
    (VStr "gpt-4") []
  = ScriptedCli.run_autoswarm (Scripted.doc_swarm "auto") (VStr "Analyze")
      (VStr "claude") [].
Proof.
  exact (proj1 (scripted_cli runAutoswarm_ignores_model
                  (Scripted.doc_swarm "auto")
                  (VStr "Analyze") (VStr "gpt-4") (VStr "claude")
                  (mkState [] []) eq_refl eq_refl eq_refl)).
Defined.

Lemma checkLogin_outcomes_witness :
  ScriptedCli.run_checkLogin (ScriptedCli.mkCache (Some "logged_in") false)
  = (Ok (VBool true), mkState (ScriptedCli.mkCache (Some "logged_in") false) [])
  /\ ScriptedCli.run_checkLogin (ScriptedCli.mkCache None false)
     = (Ok (VBool true), mkState (ScriptedCli.mkCache None false) [])
  /\ ScriptedCli.run_checkLogin (ScriptedCli.mkCache None true)
     = (Ok (VBool true),
        mkState (ScriptedCli.mkCache (Some "logged_in") true) [EvSleep 1]).
Proof.
  split; [| split].
  - apply (proj1 (checkLogin_outcomes ScriptedCli.Cache ScriptedCli.cache_exists
                    ScriptedCli.cache_read ScriptedCli.cache_write
                    (VStr "/cache.txt")
                    (mkState (ScriptedCli.mkCache (Some "logged_in") false) [])));
      reflexivity.
  - apply (proj1 (proj2 (checkLogin_outcomes ScriptedCli.Cache
                    ScriptedCli.cache_exists
                    ScriptedCli.cache_read ScriptedCli.cache_write
                    (VStr "/cache.txt")
                    (mkState (ScriptedCli.mkCache None false) [])))).
    left. reflexivity.
  - apply (proj1 (proj2 (checkLogin_outcomes ScriptedCli.Cache
                    ScriptedCli.cache_exists
                    ScriptedCli.cache_read ScriptedCli.cache_write
                    (VStr "/cache.txt")
                    (mkState (ScriptedCli.mkCache None true) [])))).
    left. reflexivity.
Defined.

(** * Onboarding *)

Lemma backoff_sleeps_seconds k :
  forall j, 0 <= j ->
  backoff_sleeps (1000 * 2 ^ j) k
  = map (fun i => EvSleep (2 ^ (j + Z.of_nat i))) (seq 0 k).
Proof.
  induction k as [| k IH]; intros j Hj; [reflexivity |].
  cbn [backoff_sleeps seq map].
  rewrite <- seq_shift, map_map.
  replace (1000 * 2 ^ j / 1000) with (2 ^ j)
    by (rewrite Z.mul_comm, Z.div_mul; lia).
  replace (j + Z.of_nat 0) with j by lia.
  replace (1000 * 2 ^ j * 2) with (1000 * 2 ^ (j + 1))
    by (rewrite Z.pow_add_r by lia; lia).
  rewrite IH by lia. f_equal.
  apply map_ext. intros i. f_equal. f_equal. lia.
Qed.

Section OnboardingProperties.

Variable World : Type.
Variable logAgentData : value -> World -> result unit * World.

Local Notation saveData_loop := (saveData_loop World logAgentData).
Local Notation saveData := (saveData World logAgentData).
Local Notation log_failures := (log_failures World logAgentData).

Lemma saveData_loop_never_throws fuel this n :
  forall a b st, fst (saveData_loop fuel this n a b st) = Ok tt.
Proof.
  induction fuel as [| fuel IH]; intros a b st; simpl; [reflexivity |].
  destruct (a <? n); [| reflexivity].
  unfold bind, try_catch, call, ret, emit.
  destruct (logAgentData (combinedData this) (world st)) as [[u | e] w];
    [reflexivity |].
  apply IH.
Qed.

Lemma saveData_loop_one_failure fuel this n a b w tr e w1 :
  a < n ->
  logAgentData (combinedData this) w = (Throw e, w1) ->
  saveData_loop (S fuel) this n a b (mkState w tr)
  = saveData_loop fuel this n (a + 1) (b * 2)
      (mkState w1 (tr ++ [EvSleep (b / 1000)])).
Proof.
  intros Ha H. simpl.
  destruct (Z.ltb_spec a n); [| lia].
  unfold bind, try_catch, call, ret, emit. simpl. rewrite H. reflexivity.
Qed.

Lemma saveData_loop_succeeds this n k :
  forall fuel a b w tr w1 w2,
    log_failures (combinedData this) k w w1 ->
    logAgentData (combinedData this) w1 = (Ok tt, w2) ->
    (k < fuel)%nat -> a + Z.of_nat k < n ->
    saveData_loop fuel this n a b (mkState w tr)
    = (Ok tt, mkState w2 (tr ++ backoff_sleeps b k)).
Proof.
  induction k as [| k IH]; intros fuel a b w tr w1 w2 Hf Hok Hfuel Ha.
  - revert Ha. inversion Hf; subst. intros Ha.
    destruct fuel as [| fuel]; [lia |]. simpl.
    destruct (Z.ltb_spec a n); [| lia].
    unfold bind, try_catch, call, ret. simpl. rewrite Hok. simpl.
    rewrite app_nil_r. reflexivity.
  - revert Ha. inversion Hf as [| k' e w' w1' w2' Hstep Hrest]; subst.
    intros Ha. destruct fuel as [| fuel]; [lia |].
    assert (Ha' : a < n) by lia.
    rewrite (saveData_loop_one_failure _ _ _ _ _ _ _ _ _ Ha' Hstep).
    rewrite (IH fuel (a + 1) (b * 2) _ _ _ _ Hrest Hok) by lia.
    simpl. rewrite <- app_assoc. reflexivity.
Qed.

Lemma saveData_loop_gives_up this n k :
  forall a b w tr w1,
    log_failures (combinedData this) k w w1 ->
    a + Z.of_nat k = n ->
    saveData_loop k this n a b (mkState w tr)
    = (Ok tt, mkState w1 (tr ++ backoff_sleeps b k)).
Proof.
  induction k as [| k IH]; intros a b w tr w1 Hf Ha; revert Ha.
  - inversion Hf; subst. intros _. simpl. rewrite app_nil_r. reflexivity.
  - inversion Hf as [| k' e w' w1' w2' Hstep Hrest]; subst. intros Ha.
    assert (Ha' : a < n) by lia.
    rewrite (saveData_loop_one_failure _ _ _ _ _ _ _ _ _ Ha' Hstep).
    rewrite (IH (a + 1) (b * 2) _ _ _ Hrest) by lia.
    simpl. rewrite <- app_assoc. reflexivity.
Qed.

(** X15: [saveData] never throws, whatever [logAgentData] does: a failure
    that outlasts the retries is only logged.  With [retryAttempts] zero or
    negative it does nothing at all: the data is not saved and nothing is
    reported to the caller. *)
Theorem saveData_never_throws this retryAttempts st :
  fst (saveData this retryAttempts st) = Ok tt
  /\ (forall n, retryAttempts = Some n -> n <= 0 ->
      saveData this retryAttempts st = (Ok tt, st)).
Proof.
  split.
  - apply saveData_loop_never_throws.
  - intros n -> Hn. expand saveData.
    replace (Z.to_nat n) with O by lia. reflexivity.
Qed.

(** X16: the schedule of [saveData].  If [logAgentData] fails [k] times and
    then succeeds, with [k] below [retryAttempts], the data is saved at call
    [k + 1], after pauses of 1, 2, 4, ... seconds, one per failure.  If it
    fails [retryAttempts] times, [saveData] gives up after exactly that many
    calls, having paused after each of them, the last one included. *)
Theorem saveData_schedule this n k w tr w1 :
  log_failures (combinedData this) k w w1 ->
  (forall w2,
     Z.of_nat k < n ->
     logAgentData (combinedData this) w1 = (Ok tt, w2) ->
     saveData this (Some n) (mkState w tr)
     = (Ok tt,
        mkState w2 (tr ++ map (fun i => EvSleep (2 ^ Z.of_nat i)) (seq 0 k))))
  /\ (Z.of_nat k = n ->
      saveData this (Some n) (mkState w tr)
      = (Ok tt,
         mkState w1 (tr ++ map (fun i => EvSleep (2 ^ Z.of_nat i)) (seq 0 k)))).
Proof.
  intros Hf.
  assert (E : backoff_sleeps 1000 k
              = map (fun i => EvSleep (2 ^ Z.of_nat i)) (seq 0 k)).
  { change 1000 with (1000 * 2 ^ 0).
    rewrite (backoff_sleeps_seconds k 0) by lia. reflexivity. }
  split.
  - intros w2 Hk Hok. expand saveData.
    rewrite (saveData_loop_succeeds this n k _ 0 1000 _ _ _ _ Hf Hok) by lia.
    rewrite E. reflexivity.
  - intros Hk. expand saveData.
    replace (Z.to_nat n) with k by lia.
    rewrite (saveData_loop_gives_up this n k 0 1000 _ _ _ Hf) by lia.
    rewrite E. reflexivity.
Qed.

End OnboardingProperties.

Lemma saveData_never_throws_witness :
  ScriptedTelemetry.run_saveData (Some 0) 5%nat = (Ok tt, mkState 5%nat []).
Proof.
  apply (proj2 (saveData_never_throws ScriptedTelemetry.World
                  ScriptedTelemetry.logAgentData ScriptedTelemetry.user
                  (Some 0) (mkState 5%nat [])) 0 eq_refl).
  discriminate.
Defined.

Lemma saveData_schedule_witness :
  ScriptedTelemetry.run_saveData None 2%nat
  = (Ok tt, mkState 0%nat [EvSleep 1; EvSleep 2])
  /\ ScriptedTelemetry.run_saveData None 3%nat
     = (Ok tt, mkState 0%nat [EvSleep 1; EvSleep 2; EvSleep 4]).
Proof.
  split.
  - apply (proj1 (saveData_schedule ScriptedTelemetry.World
                    ScriptedTelemetry.logAgentData ScriptedTelemetry.user
                    3 2%nat 2%nat [] 0%nat
                    ltac:(repeat econstructor))).
    + reflexivity.
    + reflexivity.
  - apply (proj2 (saveData_schedule ScriptedTelemetry.World
                    ScriptedTelemetry.logAgentData ScriptedTelemetry.user
                    3 3%nat 3%nat [] 0%nat
                    ltac:(repeat econstructor))).
    reflexivity.
Defined.

(** * Artifacts *)

Lemma edits_cons this c t changes :
  edits this ((c, t) :: changes) = edits (edit this c t) changes.
Proof. reflexivity. Qed.

Lemma last_cons {A} (x : A) l d : last (x :: l) d = last l x.
Proof.
  revert x d. induction l as [| y l IH]; intros x d; [reflexivity |].
  change (last (x :: y :: l) d) with (last (y :: l) d).
  rewrite (IH y d). symmetry. apply IH.
Qed.

(** What a sequence of edits does to any artifact. *)
Lemma edits_effect changes :
  forall this,
    map content (versions (edits this changes))
    = (map content (versions this) ++ map fst changes)%list
    /\ map versionNumber (versions (edits this changes))
       = (map versionNumber (versions this)
          ++ map (fun i => Z.of_nat (List.length (versions this) + i) + 1)
               (seq 0 (List.length changes)))%list
    /\ editCount (edits this changes)
       = editCount this + Z.of_nat (List.length changes)
    /\ contents (edits this changes) = last (map fst changes) (contents this)
    /\ filePath (edits this changes) = filePath this
    /\ fileType (edits this changes) = fileType this
    /\ folderPath (edits this changes) = folderPath this.
Proof.
  induction changes as [| [c t] changes IH]; intros this.
  - simpl. rewrite !app_nil_r. repeat split. lia.
  - rewrite edits_cons.
    destruct (IH (edit this c t)) as [Hc [Hn [He [Hl [Hp [Ht Hf]]]]]].
    rewrite Hc, Hn, He, Hl, Hp, Ht, Hf. clear IH Hc Hn He Hl Hp Ht Hf.
    cbn [edit versions editCount contents filePath fileType folderPath].
    rewrite !map_app, length_app, <- !app_assoc.
    cbn [map List.length app seq].
    repeat split.
    + f_equal. cbn [versionNumber]. f_equal; [f_equal; lia |].
      rewrite <- seq_shift, map_map. apply map_ext. intros i.
      f_equal. lia.
    + lia.
    + cbn [fst]. symmetry. apply last_cons.
Qed.

Lemma numbered_from_spec s l :
  map versionNumber l
  = map (fun i => Z.of_nat (s + i) + 1) (seq 0 (List.length l)) ->
  numbered_from s l.
Proof.
  revert s. induction l as [| x l IH]; intros s H i v Hi.
  - destruct i; discriminate.
  - cbn [map List.length seq] in H. injection H as Hx Hl.
    destruct i as [| i]; simpl in Hi.
    + injection Hi as <-. rewrite Hx. reflexivity.
    + rewrite <- seq_shift, map_map in Hl.
      assert (Hl' : map versionNumber l
                    = map (fun i => Z.of_nat (S s + i) + 1)
                        (seq 0 (List.length l))).
      { rewrite Hl. apply map_ext. intros j. f_equal. f_equal. lia. }
      rewrite (IH (S s) Hl' i v Hi). f_equal. f_equal. lia.
Qed.

Lemma find_numbered l :
  forall s i v,
    numbered_from s l -> nth_error l i = Some v ->
    find (fun v' => versionNumber v' =? Z.of_nat (s + i) + 1) l = Some v.
Proof.
  induction l as [| x l IH]; intros s i v Hn Hi.
  - destruct i; discriminate.
  - simpl. destruct i as [| i]; simpl in Hi.
    + injection Hi as <-.
      rewrite (Hn 0%nat x eq_refl), Z.eqb_refl. reflexivity.
    + rewrite (Hn 0%nat x eq_refl).
      destruct (Z.eqb_spec (Z.of_nat (s + 0) + 1) (Z.of_nat (s + S i) + 1));
        [lia |].
      replace (Z.of_nat (s + S i)) with (Z.of_nat (S s + i)) by lia.
      apply IH; [| exact Hi].
      intros j w Hj. rewrite (Hn (S j) w Hj). f_equal. f_equal. lia.
Qed.

Lemma find_unnumbered l :
  forall s k,
    numbered_from s l ->
    k < Z.of_nat s + 1 \/ Z.of_nat (s + List.length l) < k ->
    find (fun v' => versionNumber v' =? k) l = None.
Proof.
  induction l as [| x l IH]; intros s k Hn Hk; [reflexivity |].
  simpl. rewrite (Hn 0%nat x eq_refl).
  destruct (Z.eqb_spec (Z.of_nat (s + 0) + 1) k); [simpl in Hk; lia |].
  apply (IH (S s)).
  - intros j w Hj. rewrite (Hn (S j) w Hj). f_equal. f_equal. lia.
  - simpl in Hk. lia.
Qed.

Lemma find_app_some {A} (f : A -> bool) l l' x :
  find f l = Some x -> find f (l ++ l') = Some x.
Proof.
  induction l as [| y l IH]; simpl; [discriminate |].
  destruct (f y); [trivial | exact IH].
Qed.

Lemma getVersion_not_a_number this n :
  (forall k, n <> VNum k) -> getVersion this n = None.
Proof.
  intros Hn. unfold getVersion.
  destruct n as [| | b | k | s | l | f];
    try (induction (versions this) as [| x r IH]; simpl; auto; fail).
  exfalso. apply (Hn k). reflexivity.
Qed.

(** X17: the history of an artifact created once and then edited.  Starting
    without versions, after [create] and [n] edits the artifact holds
    [n + 1] versions, numbered 1 to [n + 1] in order and carrying the
    initial content and the edits in order; the edit count is [n], the
    current contents are those of the last change, and path, type and folder
    are untouched. *)
Theorem artifact_history this c0 t0 changes :
  versions this = [] ->
  let a := edits (create this c0 t0) changes in
  map versionNumber (versions a)
  = map (fun i => Z.of_nat i + 1) (seq 0 (S (List.length changes)))
  /\ map content (versions a) = c0 :: map fst changes
  /\ editCount a = Z.of_nat (List.length changes)
  /\ getContents a = last (map fst changes) c0
  /\ filePath a = filePath this
  /\ fileType a = fileType this
  /\ folderPath a = folderPath this.
Proof.
  intros Hv a. subst a.
  destruct (edits_effect changes (create this c0 t0))
    as [Hc [Hn [He [Hl [Hp [Ht Hf]]]]]].
  unfold getContents. rewrite Hc, Hn, He, Hl, Hp, Ht, Hf.
  cbn [create versions editCount contents filePath fileType folderPath].
  rewrite Hv. cbn [app map List.length seq].
  repeat split.
  f_equal. rewrite <- seq_shift, map_map. apply map_ext. intros i. lia.
Qed.

Lemma artifact_history_witness :
  let blank := mkArtifact (VStr "notes.md") (VStr ".md") VUndefined (VStr "") 0 [] in
  let a := edits (create blank (VStr "v1") (VStr "09:00"))
             [(VStr "v2", VStr "09:05"); (VStr "v3", VStr "09:10")] in
  map versionNumber (versions a) = [1; 2; 3]
  /\ map content (versions a) = [VStr "v1"; VStr "v2"; VStr "v3"]
  /\ editCount a = 2
  /\ getContents a = VStr "v3".
Proof.
  intros blank a.
  destruct (artifact_history blank (VStr "v1") (VStr "09:00")
              [(VStr "v2", VStr "09:05"); (VStr "v3", VStr "09:10")] eq_refl)
    as [Hn [Hc [He [Hl _]]]].
  repeat split; assumption.
Defined.

(** X18: in such an artifact every version can be fetched by its number:
    [getVersion(i + 1)] returns the version that holds the [i]-th content
    (the initial content for [i = 0]), and [getVersion] returns [null] for
    every number below 1 or above the number of versions, and for every
    argument that is not a number. *)
Theorem getVersion_round_trip this c0 t0 changes :
  versions this = [] ->
  let a := edits (create this c0 t0) changes in
  (forall i c,
     nth_error (c0 :: map fst changes) i = Some c ->
     exists v, getVersion a (VNum (Z.of_nat i + 1)) = Some v
               /\ content v = c /\ versionNumber v = Z.of_nat i + 1)
  /\ (forall k, k < 1 \/ Z.of_nat (List.length changes) + 1 < k ->
      getVersion a (VNum k) = None)
  /\ (forall n, (forall k, n <> VNum k) -> getVersion a n = None).
Proof.
  intros Hv a.
  destruct (edits_effect changes (create this c0 t0)) as [Hc [Hn _]].
  fold a in Hc, Hn.
  cbn [create versions] in Hc, Hn. rewrite Hv in Hc, Hn.
  cbn [app map List.length content versionNumber] in Hc, Hn.
  assert (Hlen : List.length (versions a) = S (List.length changes)).
  { rewrite <- (length_map content), Hc. simpl. rewrite length_map. reflexivity. }
  assert (Hnum : numbered_from 0 (versions a)).
  { apply numbered_from_spec. rewrite Hn, Hlen.
    cbn [seq map List.length]. f_equal.
    rewrite <- seq_shift, map_map. apply map_ext. intros i. lia. }
  clear Hn.
  split; [| split].
  - intros i c Hi.
    assert (Hv' : exists v, nth_error (versions a) i = Some v /\ content v = c).
    { rewrite <- Hc in Hi. rewrite nth_error_map in Hi.
      destruct (nth_error (versions a) i) as [v |]; [| discriminate].
      injection Hi as Hi. exists v. auto. }
    destruct Hv' as [v [Hnth Hcv]].
    exists v. split; [| split; [exact Hcv |]].
    + unfold getVersion. apply (find_numbered _ 0%nat i v Hnum Hnth).
    + apply (Hnum i v Hnth).
  - intros k Hk. unfold getVersion.
    apply (find_unnumbered _ 0%nat k Hnum). rewrite Hlen. lia.
  - intros n Hn'. unfold getVersion.
    apply getVersion_not_a_number. exact Hn'.
Qed.

Lemma getVersion_round_trip_witness :
  let blank := mkArtifact (VStr "notes.md") (VStr ".md") VUndefined (VStr "") 0 [] in
  let a := edits (create blank (VStr "v1") (VStr "09:00"))
             [(VStr "v2", VStr "09:05"); (VStr "v3", VStr "09:10")] in
  (exists v, getVersion a (VNum 2) = Some v /\ content v = VStr "v2")
  /\ getVersion a (VNum 4) = None.
Proof.
  intros blank a.
  destruct (getVersion_round_trip blank (VStr "v1") (VStr "09:00")
              [(VStr "v2", VStr "09:05"); (VStr "v3", VStr "09:10")] eq_refl)
    as [Hget [Hout _]].
  split.
  - destruct (Hget 1%nat (VStr "v2") eq_refl) as [v [Hv [Hc _]]].
    exists v. split; assumption.
  - apply Hout. right. reflexivity.
Defined.

(** X19: [create] does not start a new history.  On an artifact that
    already holds a version numbered 1 (after a first [create], or after
    [load] is called twice), it appends another version numbered 1 and
    resets the edit count, and [getVersion(1)] keeps returning the old
    version: unless it equals the old one, the version just created cannot be
    fetched by any number. *)
Theorem create_again_shadows this v1 c t :
  getVersion this (VNum 1) = Some v1 ->
  let a := create this c t in
  versions a = (versions this ++ [mkFileVersion 1 c t])%list
  /\ editCount a = 0
  /\ getContents a = c
  /\ getVersion a (VNum 1) = Some v1
  /\ (v1 <> mkFileVersion 1 c t ->
      forall n, getVersion a n <> Some (mkFileVersion 1 c t)).
Proof.
  intros H1 a. subst a.
  assert (Hg : getVersion (create this c t) (VNum 1) = Some v1).
  { unfold getVersion in *. cbn [create versions].
    apply find_app_some. exact H1. }
  repeat split; try reflexivity; try exact Hg.
  intros Hne n Hn.
  assert (E : n = VNum 1).
  { unfold getVersion in Hn. apply find_some in Hn. destruct Hn as [_ Hn].
    destruct n as [| | b | k | s | l | f]; cbv beta iota in Hn;
      try discriminate.
    cbn [versionNumber] in Hn. apply Z.eqb_eq in Hn. subst. reflexivity. }
  subst n. rewrite Hg in Hn. injection Hn as Hn. contradiction.
Qed.

Lemma create_again_shadows_witness :
  let blank := mkArtifact (VStr "notes.md") (VStr ".md") VUndefined (VStr "") 0 [] in
  let a := create (create blank (VStr "old") (VStr "09:00"))
             (VStr "new") (VStr "10:00") in
  map versionNumber (versions a) = [1; 1]
  /\ getVersion a (VNum 1) = Some (mkFileVersion 1 (VStr "old") (VStr "09:00")).
Proof.
  intros blank a.
  destruct (create_again_shadows (create blank (VStr "old") (VStr "09:00"))
              (mkFileVersion 1 (VStr "old") (VStr "09:00"))
              (VStr "new") (VStr "10:00") eq_refl)
    as [Hv [_ [_ [Hg _]]]].
  split; [| exact Hg].
  fold a in Hv. rewrite Hv. reflexivity.
Defined.

Section ArtifactProperties.

Variable path_extname : value -> result string.
Variable WORKSPACE_DIR : value.

Local Notation validateFileType := (validateFileType path_extname).
Local Notation new_Artifact := (new_Artifact path_extname WORKSPACE_DIR).

(** X20: the file type of a new artifact.  A type given explicitly is taken
    as it is, without any check against the supported types and without
    looking at the path.  When none is given, the type is the lower-cased
    extension of the path, and construction succeeds exactly when that is one
    of the supported types; otherwise it fails with "Unsupported file
    type". *)
Theorem artifact_file_type options :
  (truthy (o_fileType options) = true ->
   exists a, new_Artifact options = Ok a /\ fileType a = o_fileType options)
  /\ (forall ext,
      truthy (o_fileType options) = false ->
      path_extname (o_filePath options) = Ok ext ->
      (In (toLowerCase ext) supportedTypes ->
       exists a, new_Artifact options = Ok a
                 /\ fileType a = VStr (toLowerCase ext))
      /\ (~ In (toLowerCase ext) supportedTypes ->
          new_Artifact options = Throw (Error "Unsupported file type")))
  /\ (forall a,
      new_Artifact options = Ok a ->
      truthy (o_fileType options) = false ->
      exists ext, fileType a = VStr ext /\ In ext supportedTypes).
Proof.
  assert (Hin : forall e, existsb (String.eqb e) supportedTypes = true
                          <-> In e supportedTypes).
  { intros e. rewrite existsb_exists. split.
    - intros [x [Hx He]]. apply String.eqb_eq in He. subst. exact Hx.
    - intros He. exists e. split; [exact He | apply String.eqb_refl]. }
  split; [| split].
  - intros Ht. expand new_Artifact. expand validateFileType.
    rewrite Ht. simpl. eexists. split; reflexivity.
  - intros ext Ht Hext. expand new_Artifact. expand validateFileType.
    rewrite Ht, Hext. cbn [negb bind_result]. split.
    + intros Hs. apply Hin in Hs. rewrite Hs. simpl.
      eexists. split; reflexivity.
    + intros Hs.
      destruct (existsb (String.eqb (toLowerCase ext)) supportedTypes) eqn:E;
        [apply Hin in E; contradiction | reflexivity].
  - intros a Ha Ht. revert Ha. expand new_Artifact. expand validateFileType.
    rewrite Ht. cbn [negb].
    destruct (path_extname (o_filePath options)) as [ext | e];
      [| discriminate].
    cbn [bind_result].
    destruct (existsb (String.eqb (toLowerCase ext)) supportedTypes) eqn:E;
      [| discriminate].
    simpl. intros Ha. injection Ha as <-.
    exists (toLowerCase ext). split; [reflexivity | apply Hin; exact E].
Qed.

End ArtifactProperties.

Lemma artifact_file_type_witness :
  (exists a,
     new_Artifact (fun _ => Ok ".EXE") VUndefined
       (mkArtifactOptions (VStr "run.EXE") (VStr ".exe") (VStr "") VUndefined
          None None)
     = Ok a /\ fileType a = VStr ".exe")
  /\ (exists a,
     new_Artifact (fun _ => Ok ".MD") VUndefined
       (mkArtifactOptions (VStr "README.MD") VUndefined (VStr "") VUndefined
          None None)
     = Ok a /\ fileType a = VStr ".md")
  /\ new_Artifact (fun _ => Ok ".EXE") VUndefined
       (mkArtifactOptions (VStr "run.EXE") VUndefined (VStr "") VUndefined
          None None)
     = Throw (Error "Unsupported file type").
Proof.
  split; [| split].
  - apply (proj1 (artifact_file_type (fun _ => Ok ".EXE") VUndefined
                    (mkArtifactOptions (VStr "run.EXE") (VStr ".exe") (VStr "")
                       VUndefined None None))).
    reflexivity.
  - apply (proj1 (proj2 (artifact_file_type (fun _ => Ok ".MD") VUndefined
                    (mkArtifactOptions (VStr "README.MD") VUndefined (VStr "")
                       VUndefined None None)))
             ".MD" eq_refl eq_refl).
    in_keys.
  - apply (proj1 (proj2 (artifact_file_type (fun _ => Ok ".EXE") VUndefined
                    (mkArtifactOptions (VStr "run.EXE") VUndefined (VStr "")
                       VUndefined None None)))
             ".EXE" eq_refl eq_refl).
    simpl. intros H.
    repeat (destruct H as [H | H]; [discriminate H |]). exact H.
Defined.

(** * More on construction *)

Section ConstructionFurther.

Variables World LLM Agent SwarmRouter Output : Type.
Variable yaml_parse : value -> result value.
Variable fs_existsSync : value -> World -> bool.
Variable fs_readFileSync : value -> World -> result value.
Variable new_LiteLLM : value -> World -> result LLM * World.
Variable new_Agent : AgentArgs LLM -> World -> result Agent * World.
Variable new_SwarmRouter :
  SwarmRouterArgs Agent -> World -> result SwarmRouter * World.
Variable SwarmRouter_run :
  SwarmRouter -> value -> World -> result Output * World.

Local Notation createAgent := (createAgent World LLM Agent new_Agent).
Local Notation createAgentWithRetry :=
  (createAgentWithRetry World LLM Agent new_Agent).
Local Notation buildAgent := (buildAgent World LLM Agent new_LiteLLM new_Agent).
Local Notation buildAgents := (buildAgents World LLM Agent new_LiteLLM new_Agent).
Local Notation createAgentsFromYaml :=
  (createAgentsFromYaml World LLM Agent SwarmRouter Output
     yaml_parse fs_existsSync fs_readFileSync
     new_LiteLLM new_Agent new_SwarmRouter SwarmRouter_run).
Local Notation load := (load World yaml_parse fs_existsSync fs_readFileSync).
Local Notation retry_loop := (retry_loop World).

(** One attempt calls the agent runtime at most once, and records nothing
    else. *)
Lemma createAgent_events node model st :
  exists evs,
    trace (snd (createAgent node model st)) = (trace st ++ evs)%list
    /\ (evs = [] \/ exists name, evs = [EvNewAgent name]).
Proof.
  destruct st as [w tr].
  destruct (new_AgentConfig node) as [cfg | e] eqn:Hcfg.
  - rewrite (createAgent_validated World LLM Agent new_Agent _ _ _ _ _ Hcfg).
    exists [EvNewAgent (agentName cfg)]. split; [reflexivity |]. right. eauto.
  - rewrite (createAgent_invalid World LLM Agent new_Agent _ _ _ _ Hcfg).
    exists []. rewrite app_nil_r. split; [reflexivity | left; reflexivity].
Qed.

Lemma attempt_events_counts n evs1 :
  evs1 = [] \/ (exists name, evs1 = [EvNewAgent name]) ->
  count is_attempt_event (EvAttempt n :: evs1) = 1%nat
  /\ count is_sleep_event (EvAttempt n :: evs1) = 0%nat
  /\ (count is_agent_event (EvAttempt n :: evs1) <= 1)%nat
  /\ sleeps_bounded (EvAttempt n :: evs1).
Proof.
  intros [-> | [name ->]]; (split; [reflexivity |]);
    (split; [reflexivity |]); (split; [unfold count; simpl; lia |]).
  - intros s [H | []]. discriminate.
  - intros s [H | [H | []]]; discriminate.
Qed.

Lemma retry_loop_bounded node model remaining :
  forall n st,
  exists evs,
    trace (snd (retry_loop (agentRetryPolicy node) remaining n
                  (createAgent node model) st))
    = (trace st ++ evs)%list
    /\ (1 <= count is_attempt_event evs <= S remaining)%nat
    /\ count is_sleep_event evs = Nat.pred (count is_attempt_event evs)
    /\ (count is_agent_event evs <= count is_attempt_event evs)%nat
    /\ sleeps_bounded evs.
Proof.
  induction remaining as [| remaining IH]; intros n st;
    rewrite retry_loop_eq; unfold try_catch at 1, bind at 1, emit at 1;
    destruct (createAgent_events node model
                (mkState (world st) (trace st ++ [EvAttempt n])))
      as [evs1 [T1 Hevs1]];
    destruct (attempt_events_counts n evs1 Hevs1) as [Ca [Cs [Cg Cb]]];
    destruct (createAgent node model
                (mkState (world st) (trace st ++ [EvAttempt n])))
      as [[a | e] st1]; cbn [snd trace] in T1;
    assert (T : trace st1 = (trace st ++ EvAttempt n :: evs1)%list)
      by (rewrite T1, <- app_assoc; reflexivity).
  - exists (EvAttempt n :: evs1). cbn [snd].
    rewrite Ca, Cs.
    split; [exact T |]. split; [lia |]. split; [reflexivity |].
    split; [exact Cg | exact Cb].
  - exists (EvAttempt n :: evs1).
    destruct (retry_on (agentRetryPolicy node) e); cbn [snd throw];
      rewrite Ca, Cs;
      (split; [exact T |]); (split; [lia |]); (split; [reflexivity |]);
      (split; [exact Cg | exact Cb]).
  - exists (EvAttempt n :: evs1). cbn [snd].
    rewrite Ca, Cs.
    split; [exact T |]. split; [lia |]. split; [reflexivity |].
    split; [exact Cg | exact Cb].
  - destruct (retry_on (agentRetryPolicy node) e).
    + unfold bind at 1, emit at 1.
      destruct (IH (n + 1)
                  (mkState (world st1)
                     (trace st1 ++ [EvSleep (wait (agentRetryPolicy node) n)])))
        as [evs2 [T2 [[Ha1 Ha2] [Hs [Hg Hb]]]]].
      exists ((EvAttempt n :: evs1)
              ++ [EvSleep (waitExponential 1 4 10 n)] ++ evs2)%list.
      split.
      { rewrite T2. cbn [trace]. rewrite T, <- !app_assoc. reflexivity. }
      rewrite !count_app, Ca, Cs.
      change (count is_attempt_event [EvSleep (waitExponential 1 4 10 n)])
        with 0%nat.
      change (count is_sleep_event [EvSleep (waitExponential 1 4 10 n)])
        with 1%nat.
      change (count is_agent_event [EvSleep (waitExponential 1 4 10 n)])
        with 0%nat.
      split; [lia |]. split; [lia |]. split; [lia |].
      intros s Hin. apply in_app_or in Hin. destruct Hin as [Hin | Hin].
      * apply Cb. exact Hin.
      * destruct Hin as [Hin | Hin].
        -- inversion Hin; subst. apply waitExponential_bounded.
        -- apply Hb. exact Hin.
    + exists (EvAttempt n :: evs1). cbn [snd throw].
      rewrite Ca, Cs.
    split; [exact T |]. split; [lia |]. split; [reflexivity |].
    split; [exact Cg | exact Cb].
Qed.

(** X21: whatever the agent runtime does, [createAgentWithRetry] makes at
    least one and at most three attempts, calls the runtime at most once per
    attempt, and sleeps exactly once between two attempts, each time between
    4 and 10 seconds; so a build never waits more than 20 seconds in all. *)
Theorem at_most_three_attempts node model st :
  exists evs,
    trace (snd (createAgentWithRetry node model st)) = (trace st ++ evs)%list
    /\ (1 <= count is_attempt_event evs <= 3)%nat
    /\ count is_sleep_event evs = Nat.pred (count is_attempt_event evs)
    /\ (count is_agent_event evs <= count is_attempt_event evs)%nat
    /\ sleeps_bounded evs.
Proof.
  exact (retry_loop_bounded node model 2 1 st).
Qed.

Lemma createAgentWithRetry_invalid node model e w tr :
  new_AgentConfig node = Throw e ->
  createAgentWithRetry node model (mkState w tr)
  = (Throw e, mkState w (tr ++ [EvAttempt 1])).
Proof.
  intros Hcfg.
  rewrite (createAgentWithRetry_unfold World LLM Agent new_Agent).
  rewrite retry_loop_eq. unfold try_catch, bind, emit. simpl.
  rewrite (createAgent_invalid World LLM Agent new_Agent _ _ _ _ Hcfg).
  rewrite (new_AgentConfig_not_transient _ _ Hcfg). reflexivity.
Qed.

(** X22: agent nodes are validated one at a time, as the loop reaches them.
    When the node at some position is rejected by [AgentConfig], the agents
    before it have already been built and a model backend has already been
    instantiated for the rejected node itself; the call then throws the
    validation error after a single attempt, without calling the agent
    runtime for that node. *)
Theorem agents_validated_in_turn
    options st config st0 pre node post ags st1 e m w :
  load options st = (Ok config, st0) ->
  get_prop config "agents" = Ok (VArr (pre ++ node :: post)) ->
  buildAgents pre [] st0 = (Ok ags, st1) ->
  nullish node = false ->
  new_AgentConfig node = Throw e ->
  new_LiteLLM (backend_name node) (world st1) = (Ok m, w) ->
  createAgentsFromYaml options st
  = (Throw e,
     mkState w (trace st1 ++ [EvNewLiteLLM (backend_name node); EvAttempt 1]))
  /\ List.length ags = List.length pre.
Proof.
  intros Hload Hnodes Hpre Hn Hcfg Hm. split.
  - rewrite (pipeline_loaded World LLM Agent SwarmRouter Output
               yaml_parse fs_existsSync fs_readFileSync
               new_LiteLLM new_Agent new_SwarmRouter SwarmRouter_run
               _ _ _ _ _ Hload Hnodes).
    apply bind_throw.
    rewrite (buildAgents_app World LLM Agent new_LiteLLM new_Agent).
    rewrite (bind_ok _ _ _ _ _ _ Hpre). simpl.
    apply bind_throw.
    apply (buildAgent_retry_failure World LLM Agent new_LiteLLM new_Agent
             node st1 m w); [exact Hn | exact Hm |].
    fold (backend_name node).
    rewrite (createAgentWithRetry_invalid _ _ _ _ _ Hcfg).
    rewrite <- app_assoc. reflexivity.
  - destruct (buildAgents_ok_inv World LLM Agent new_LiteLLM new_Agent
                _ _ _ _ _ Hpre) as [new [evs [E [F _]]]].
    simpl in E. subst new. symmetry. eapply Forall2_length. exact F.
Qed.

(** X23: when the document cannot be loaded, the call stops there: it
    throws the loader's error, a plain [Error] about the configuration, and
    nothing has been constructed, the world and the trace being as before the
    call. *)
Theorem load_failure_stops_pipeline options st e st' :
  load options st = (Throw e, st') ->
  createAgentsFromYaml options st = (Throw e, st)
  /\ exists m, e = Error ("Error validating configuration: " ++ m).
Proof.
  intros Hload.
  pose proof (loadYamlSafely_state World yaml_parse fs_existsSync
                fs_readFileSync
                (default_to (VStr "agents.yaml") (yamlFile options))
                (default_to VNull (yamlString options)) st) as Hs.
  fold (load options) in Hs. rewrite Hload in Hs. simpl in Hs. subst st'.
  split.
  - expand createAgentsFromYaml. rewrite rethrow.
    apply bind_throw. exact Hload.
  - revert Hload. expand load.
    expand (loadYamlSafely World yaml_parse fs_existsSync fs_readFileSync).
    unfold try_catch.
    match goal with |- context [bind ?W ?m ?f st] =>
      destruct (bind W m f st) as [[c | e0] st1] end.
    + discriminate.
    + unfold throw. intros H. injection H as <-.
      exists (message e0). reflexivity.
Qed.

End ConstructionFurther.

Lemma agents_validated_in_turn_witness :
  let bad := VObj [("agent_name", VStr "B")] in
  let doc := VObj [("agents", VArr [Scripted.agentA; bad])] in
  Scripted.run_pipeline doc (Scripted.opts (VStr "doc") (VStr "agents")) []
  = (Throw (Error "System prompt must be a non-empty string"),
     mkState [] [EvNewLiteLLM (VStr "gpt-4o"); EvAttempt 1; EvNewAgent (VStr "A");
                 EvNewLiteLLM (VStr "gpt-4o"); EvAttempt 1]).
Proof.
  intros bad doc.
  apply (proj1 (scripted agents_validated_in_turn doc
                  (Scripted.opts (VStr "doc") (VStr "agents")) (mkState [] [])
                  doc (mkState [] []) [Scripted.agentA] bad [] [VStr "A"]
                  (mkState [] [EvNewLiteLLM (VStr "gpt-4o"); EvAttempt 1;
                               EvNewAgent (VStr "A")])
                  (Error "System prompt must be a non-empty string")
                  (VStr "gpt-4o") []
                  eq_refl eq_refl eq_refl eq_refl eq_refl eq_refl)).
Defined.

Lemma load_failure_stops_pipeline_witness :
  Scripted.run_pipeline Scripted.doc_one
    (Scripted.opts VUndefined (VStr "agents")) []
  = (Throw (Error "Error validating configuration: YAML file agents.yaml not found."),
     mkState [] []).
Proof.
  apply (proj1 (scripted load_failure_stops_pipeline Scripted.doc_one
                  (Scripted.opts VUndefined (VStr "agents")) (mkState [] [])
                  _ (mkState [] []) eq_refl)).
Defined.

Section HappyPath.

Variables World LLM Agent : Type.
Variable new_LiteLLM : value -> World -> result LLM * World.
Variable new_Agent : AgentArgs LLM -> World -> result Agent * World.

Local Notation buildAgent := (buildAgent World LLM Agent new_LiteLLM new_Agent).

(** X24: the loop body on a valid node whose construction succeeds at
    once.  The agent pushed is the one the agent runtime returns for the
    validated configuration of the node, bound to the backend instantiated
    for this very node; the node's system prompt is handed over as written
    (not trimmed), and there is one attempt and no sleep. *)
Theorem agent_built_from_validated_config node cfg st m w1 a w2 :
  new_AgentConfig node = Ok cfg ->
  new_LiteLLM (backend_name node) (world st) = (Ok m, w1) ->
  new_Agent (agent_args LLM cfg m) w1 = (Ok a, w2) ->
  buildAgent node st
  = (Ok a,
     mkState w2 (trace st ++ [EvNewLiteLLM (backend_name node); EvAttempt 1;
                              EvNewAgent (field node "agent_name")]))
  /\ a_llm LLM (agent_args LLM cfg m) = m
  /\ a_systemPrompt LLM (agent_args LLM cfg m) = field node "system_prompt"
  /\ a_agentName LLM (agent_args LLM cfg m) = field node "agent_name".
Proof.
  intros Hcfg Hm Ha.
  destruct (new_AgentConfig_ok_inv _ _ Hcfg) as [Hn Ecfg].
  split; [| rewrite Ecfg; repeat split].
  expand buildAgent.
  unfold bind at 1, lift at 1. rewrite (get_prop_field _ _ Hn).
  unfold bind at 1, lift at 1. rewrite (get_prop_field _ _ Hn).
  fold (backend_name node).
  unfold bind at 1, emit at 1.
  unfold bind at 1, call at 1. cbn [world trace]. rewrite Hm.
  unfold bind at 1.
  rewrite (createAgentWithRetry_unfold World LLM Agent new_Agent).
  rewrite (attempt_succeeds World LLM Agent new_Agent node m cfg Hcfg
             2 1 w1 _ a w2 Ha).
  unfold bind, lift, ret.
  rewrite Ecfg. cbn [agentName agent_config_of]. rewrite <- app_assoc.
  reflexivity.
Qed.

End HappyPath.

Lemma agent_built_from_validated_config_witness :
  Scripted.new_Agent
    (agent_args Scripted.LLM (agent_config_of Scripted.agentB) (VStr "gpt-4")) []
  = (Ok (VStr "B"), [])
  /\ buildAgent Scripted.World Scripted.LLM Scripted.Agent
       Scripted.new_LiteLLM Scripted.new_Agent Scripted.agentB (mkState [] [])
     = (Ok (VStr "B"),
        mkState [] [EvNewLiteLLM (VStr "gpt-4"); EvAttempt 1;
                    EvNewAgent (VStr "B")]).
Proof.
  split; [reflexivity |].
  apply (proj1 (agent_built_from_validated_config Scripted.World Scripted.LLM
                  Scripted.Agent Scripted.new_LiteLLM Scripted.new_Agent
                  Scripted.agentB (agent_config_of Scripted.agentB)
                  (mkState [] []) (VStr "gpt-4") [] (VStr "B") []
                  eq_refl eq_refl eq_refl)).
Defined.
